(** * ARR waterfall period resolver: a shallow embedding

    The development follows [scripts/process_arr_waterfall.py] (section
    location, period-column detection, trailing-window selection, cross-section
    mapping, start-period detection, header-row removal) and
    [scripts/process_arr_waterfall_FINAL.py] (numeric-identifier filter,
    [period_to_last_day], the pivot).

    Python values are modelled as the scripts observe them: cells of the
    loaded sheet are ints, floats, strings or [None]; exceptions are explicit
    results; [print] appends a line to an output log. *)

From Stdlib Require Import String Ascii List ZArith QArith Qround Lia Bool Arith.
From Stdlib Require Import Sorted Permutation.
From Stdlib Require DecimalString DecimalZ DecimalPos.
Import ListNotations.

Local Close Scope Q_scope.
Local Open Scope string_scope.
Local Open Scope list_scope.
Local Open Scope Z_scope.

(** ** Exceptions and results *)

Inductive exn : Set :=
| IndexError
| TypeError
| ValueError
| OverflowError
| KeyError
| IllegalMonthError.

Inductive result (A : Type) : Type :=
| Ret (a : A)
| Raise (e : exn).

Arguments Ret {A} a.
Arguments Raise {A} e.

Definition bind {A B : Type} (r : result A) (k : A -> result B) : result B :=
  match r with
  | Ret a => k a
  | Raise e => Raise e
  end.

Declare Scope py_scope.
Delimit Scope py_scope with py.
Notation "x <- c ;; k" := (bind c (fun x => k))
  (at level 61, c at next level, right associativity) : py_scope.
Local Open Scope py_scope.

(** ** Python floats

    A double is observed by the scripts through order comparisons with
    integers and through [int()], both of which are exact on its value: the
    value is kept as the rational it denotes. *)

Inductive pyfloat : Set :=
| FNan
| FInf (negative : bool)
| FFin (q : Q).

(** [lo <= x] and [x <= hi] for an int [lo]/[hi] and a float [x]; every
    comparison with NaN is false. *)
Definition int_le_float (lo : Z) (x : pyfloat) : bool :=
  match x with
  | FNan => false
  | FInf negative => negb negative
  | FFin q => Qle_bool (inject_Z lo) q
  end.

Definition float_le_int (x : pyfloat) (hi : Z) : bool :=
  match x with
  | FNan => false
  | FInf negative => negative
  | FFin q => Qle_bool q (inject_Z hi)
  end.

(** Nearest integer to [n / d] for [0 < d], ties to the even neighbour. *)
Definition round_half_even (n d : Z) : Z :=
  let f := n / d in
  match 2 * (n mod d) ?= d with
  | Lt => f
  | Gt => f + 1
  | Eq => if Z.even f then f else f + 1
  end.

(** [floor (log2 (n / d))] for positive [n], [d]. *)
Definition floor_log2_ratio (n d : Z) : Z :=
  let k := Z.log2 n - Z.log2 d in
  let above := if 0 <=? k then d * 2 ^ k <=? n else d <=? n * 2 ^ (- k) in
  if above then k else k - 1.

(** Round-to-nearest-even of the positive rational [n / d] to binary64:
    53-bit significand, exponents -1022..1023, gradual underflow, overflow
    to infinity. *)
Definition binary64_of_ratio (n d : Z) : pyfloat :=
  let e := Z.max (floor_log2_ratio n d) (-1022) in
  let sh := e - 52 in
  let m := if 0 <=? sh then round_half_even n (d * 2 ^ sh)
           else round_half_even (n * 2 ^ (- sh)) d in
  if (1023 <? e) || ((e =? 1023) && (m =? 2 ^ 53)) then FInf false
  else FFin (if 0 <=? sh then inject_Z (m * 2 ^ sh)
             else Qred (Qmake m (Z.to_pos (2 ^ (- sh))))).

Definition float_neg (x : pyfloat) : pyfloat :=
  match x with
  | FNan => FNan
  | FInf negative => FInf (negb negative)
  | FFin q => FFin (Qopp q)
  end.

(** The double nearest to [mant * 10 ^ e10] for [0 <= mant]. *)
Definition binary64_of_decimal (mant e10 : Z) : pyfloat :=
  if mant =? 0 then FFin (inject_Z 0)
  else if 0 <=? e10 then binary64_of_ratio (mant * 10 ^ e10) 1
  else binary64_of_ratio mant (10 ^ (- e10)).

(** ** Python strings *)

Definition dot : ascii := "."%char.

(** ['.' in s] *)
Fixpoint contains_dot (s : string) : bool :=
  match s with
  | EmptyString => false
  | String c s' => Ascii.eqb c dot || contains_dot s'
  end.

(** [s.split('.')]: the segments between the dots, never empty. *)
Fixpoint split_dot (s : string) : list string :=
  match s with
  | EmptyString => [EmptyString]
  | String c s' =>
      if Ascii.eqb c dot then EmptyString :: split_dot s'
      else match split_dot s' with
           | seg :: segs => String c seg :: segs
           | [] => [String c EmptyString]
           end
  end.

(** [l[i]] for a non-negative index. *)
Definition py_index {A : Type} (l : list A) (i : nat) : result A :=
  match nth_error l i with
  | Some a => Ret a
  | None => Raise IndexError
  end.

(** Whitespace removed by [int()] and [float()] around a literal: tab, line
    feed, vertical tab, form feed, carriage return and space.  Text is ASCII
    throughout. *)
Definition is_space (c : ascii) : bool :=
  let n := nat_of_ascii c in
  ((9 <=? n) && (n <=? 13) || (n =? 32))%nat.

Definition digit_of (c : ascii) : option Z :=
  let n := nat_of_ascii c in
  if ((48 <=? n) && (n <=? 57))%nat then Some (Z.of_nat (n - 48)) else None.

Definition lower (c : ascii) : ascii :=
  let n := nat_of_ascii c in
  if ((65 <=? n) && (n <=? 90))%nat then ascii_of_nat (n + 32) else c.

Fixpoint lstrip (l : list ascii) : list ascii :=
  match l with
  | c :: l' => if is_space c then lstrip l' else l
  | [] => []
  end.

Definition strip (l : list ascii) : list ascii :=
  List.rev (lstrip (List.rev (lstrip l))).

(** Optional sign: [(negative, rest)]. *)
Definition take_sign (l : list ascii) : bool * list ascii :=
  match l with
  | "-"%char :: l' => (true, l')
  | "+"%char :: l' => (false, l')
  | _ => (false, l)
  end.

(** Digits of a [digitpart] after its first digit: a digit, or one
    underscore followed by a digit.  Returns the accumulated value, the
    number of digits read, and the unread rest. *)
Fixpoint more_digits (acc : Z) (cnt : Z) (l : list ascii) : Z * Z * list ascii :=
  match l with
  | c :: l' =>
      match digit_of c with
      | Some d => more_digits (10 * acc + d) (cnt + 1) l'
      | None =>
          if Ascii.eqb c "_"%char then
            match l' with
            | c' :: l'' =>
                match digit_of c' with
                | Some d => more_digits (10 * acc + d) (cnt + 1) l''
                | None => (acc, cnt, l)
                end
            | [] => (acc, cnt, l)
            end
          else (acc, cnt, l)
      end
  | [] => (acc, cnt, l)
  end.

(** [digitpart ::= digit (["_"] digit)*], continuing the value [acc]. *)
Definition take_digitpart (acc : Z) (l : list ascii) : option (Z * Z * list ascii) :=
  match l with
  | c :: l' =>
      match digit_of c with
      | Some d => Some (more_digits (10 * acc + d) 1 l')
      | None => None
      end
  | [] => None
  end.

(** [int(s)] in base 10. *)
Definition py_int (s : string) : result Z :=
  let '(negative, l) := take_sign (strip (list_ascii_of_string s)) in
  match take_digitpart 0 l with
  | Some (v, _, []) => Ret (if negative then - v else v)
  | _ => Raise ValueError
  end.

Definition is_word (w : string) (l : list ascii) : bool :=
  if list_eq_dec ascii_dec (map lower l) (list_ascii_of_string w) then true else false.

(** Optional exponent [(e|E) [sign] digitpart]; [None] when what follows is
    not a well-formed exponent up to the end of the text. *)
Definition take_exponent (l : list ascii) : option Z :=
  match l with
  | [] => Some 0
  | c :: l' =>
      if Ascii.eqb (lower c) "e"%char then
        let '(negative, l'') := take_sign l' in
        match take_digitpart 0 l'' with
        | Some (v, _, []) => Some (if negative then - v else v)
        | _ => None
        end
      else None
  end.

(** [float(s)]: sign, then [inf], [infinity], [nan] in any case, or a
    decimal literal with optional fraction and exponent, rounded to the
    nearest double. *)
Definition py_float (s : string) : result pyfloat :=
  let '(negative, l) := take_sign (strip (list_ascii_of_string s)) in
  let signed (x : pyfloat) := if negative then float_neg x else x in
  if is_word "inf" l || is_word "infinity" l then Ret (signed (FInf false))
  else if is_word "nan" l then Ret FNan
  else
    let finish (mant frac_digits : Z) (rest : list ascii) :=
      match take_exponent rest with
      | Some e => Ret (signed (binary64_of_decimal mant (e - frac_digits)))
      | None => Raise ValueError
      end in
    match take_digitpart 0 l with
    | Some (ip, _, rest) =>
        match rest with
        | c :: rest' =>
            if Ascii.eqb c dot then
              match take_digitpart ip rest' with
              | Some (mant, cnt, rest'') => finish mant cnt rest''
              | None => finish ip 0 rest'
              end
            else finish ip 0 rest
        | [] => finish ip 0 rest
        end
    | None =>
        match l with
        | c :: rest' =>
            if Ascii.eqb c dot then
              match take_digitpart 0 rest' with
              | Some (mant, cnt, rest'') => finish mant cnt rest''
              | None => Raise ValueError
              end
            else Raise ValueError
        | [] => Raise ValueError
        end
    end.

(** [str(n)] for an int. *)
Definition str_int (n : Z) : string := DecimalString.NilZero.string_of_int (Z.to_int n).

Fixpoint repeat_str (s : string) (n : nat) : string :=
  match n with
  | O => EmptyString
  | S n' => s ++ repeat_str s n'
  end.

(** [f"{n:0wd}"]: zero padding to width [w], the sign counted in the width. *)
Definition zero_pad (w : nat) (s : string) : string :=
  repeat_str "0" (w - String.length s) ++ s.

Definition fmt_0d (w : nat) (n : Z) : string :=
  if n <? 0 then String "-" (zero_pad (w - 1) (str_int (- n))) else zero_pad w (str_int n).

(** [f"{n:,}"] for [0 <= n]: digits grouped by three from the right. *)
Fixpoint group3 (k : nat) (rev_digits : list ascii) : list ascii :=
  match rev_digits with
  | [] => []
  | d :: rest =>
      if (k =? 3)%nat then ","%char :: d :: group3 1 rest else d :: group3 (S k) rest
  end.

Definition fmt_thousands (n : nat) : string :=
  string_of_list_ascii
    (List.rev (group3 0 (List.rev (list_ascii_of_string (str_int (Z.of_nat n)))))).

Definition nl : string := String (ascii_of_nat 10) EmptyString.

(** ** Output: [print] *)

(** A computation that prints: the lines written so far and the result (or
    the exception that stopped it). *)
Definition io (A : Type) : Type := (list string * result A)%type.

Definition io_ret {A : Type} (a : A) : io A := ([], Ret a).

Definition io_bind {A B : Type} (c : io A) (k : A -> io B) : io B :=
  match c with
  | (out, Ret a) => let '(out', r) := k a in (out ++ out', r)
  | (out, Raise e) => (out, Raise e)
  end.

Definition print (line : string) : io unit := ([line], Ret tt).

Definition lift {A : Type} (r : result A) : io A := ([], r).

Notation "x <~ c ;; k" := (io_bind c (fun x => k))
  (at level 61, c at next level, right associativity) : py_scope.
Notation "c ;;; k" := (io_bind c (fun _ => k))
  (at level 61, right associativity) : py_scope.

(** ** Cells and the loaded sheet *)

(** A cell or a column label as [read_excel] delivers it: an int, a float
    (an empty cell is the float NaN), text, or [None].  A float carries the
    text [str()] prints for it next to its value.  A bool behaves as the int
    0 or 1 in every function below and is not distinguished. *)
Inductive pyval : Set :=
| PInt (n : Z)
| PFloat (x : pyfloat) (repr : string)
| PStr (s : string)
| PNone.

Definition nan : pyval := PFloat FNan "nan".

(** [str(v)] *)
Definition py_str (v : pyval) : string :=
  match v with
  | PInt n => str_int n
  | PFloat _ repr => repr
  | PStr s => s
  | PNone => "None"
  end.

(** [pd.notna(v)] *)
Definition notna (v : pyval) : bool :=
  match v with
  | PFloat FNan _ => false
  | PNone => false
  | _ => true
  end.

(** The frame returned by [read_excel(..., header=0)]: the column labels
    (made unique by the reader, so that selecting a column by its label is
    selecting it by its position) and the rows below the label row. *)
Record DataFrame : Set := {
  columns : list pyval;
  rows : list (list pyval)
}.

(** [row[all_cols[idx]]]; a cell missing from a short row reads as NaN. *)
Definition cell (row : list pyval) (idx : nat) : pyval := nth idx row nan.

(** ** Lists *)

(** [l[-1]] *)
Definition py_last {A : Type} (l : list A) : result A :=
  match List.rev l with
  | a :: _ => Ret a
  | [] => Raise IndexError
  end.

(** [l.index(x)] *)
Fixpoint py_list_index (l : list nat) (x : nat) : result nat :=
  match l with
  | [] => Raise ValueError
  | y :: l' => if (y =? x)%nat then Ret O else (i <- py_list_index l' x ;; Ret (S i))
  end.

(** [l[a:b]] for [0 <= a <= b] *)
Definition py_slice {A : Type} (l : list A) (a b : nat) : list A :=
  firstn (b - a) (skipn a l).

(** [l[-12:]] *)
Definition last_12 {A : Type} (l : list A) : list A := skipn (List.length l - 12) l.

Definition str_nat (n : nat) : string := str_int (Z.of_nat n).

(** [[f(x) for x in l]] for an [f] that may raise. *)
Fixpoint map_result {A B : Type} (f : A -> result B) (l : list A) : result (list B) :=
  match l with
  | [] => Ret []
  | a :: l' => b <- f a ;; bs <- map_result f l' ;; Ret (b :: bs)
  end.

(** * [process_arr_waterfall.py] *)

Module Waterfall.

(** ** [find_section_indices] *)

Record sections : Set := {
  arr_start : option nat;
  netchange_start : option nat;
  reason_start : option nat;
  filters_start : option nat
}.

Definition ARR_LABEL : string := "ARR by Period by Product".
Definition NETCHANGE_LABEL : string := "Net Change by Period".
Definition REASON_LABEL : string := "Net Change Reason by Period".
Definition FILTERS_LABEL : string := "Net Change Filters".

Definition no_sections : sections :=
  {| arr_start := None; netchange_start := None;
     reason_start := None; filters_start := None |}.

(** One iteration of [for idx, col in enumerate(columns)]. *)
Definition find_section_step (sec : sections) (idx : nat) (col : pyval) : sections :=
  let col_str := py_str col in
  if String.eqb col_str ARR_LABEL then
    {| arr_start := Some idx; netchange_start := netchange_start sec;
       reason_start := reason_start sec; filters_start := filters_start sec |}
  else if String.eqb col_str NETCHANGE_LABEL then
    {| arr_start := arr_start sec; netchange_start := Some idx;
       reason_start := reason_start sec; filters_start := filters_start sec |}
  else if String.eqb col_str REASON_LABEL then
    {| arr_start := arr_start sec; netchange_start := netchange_start sec;
       reason_start := Some idx; filters_start := filters_start sec |}
  else if String.eqb col_str FILTERS_LABEL then
    {| arr_start := arr_start sec; netchange_start := netchange_start sec;
       reason_start := reason_start sec; filters_start := Some idx |}
  else sec.

Fixpoint find_section_loop (sec : sections) (idx : nat) (cols : list pyval) : sections :=
  match cols with
  | [] => sec
  | col :: cols' => find_section_loop (find_section_step sec idx col) (S idx) cols'
  end.

Definition find_section_indices (columns : list pyval) : sections :=
  find_section_loop no_sections 0 columns.

(** ** [get_all_period_indices] *)

(** [range(a, b)]; [None] is not an integer. *)
Definition py_range (a b : option nat) : result (list nat) :=
  match a, b with
  | Some a, Some b => Ret (seq a (b - a))
  | _, _ => Raise TypeError
  end.

Definition in_year_range (x : pyfloat) : bool :=
  int_le_float 2017 x && float_le_int x 2030.

(** The body of the [try]: the value of [is_valid_period] when no exception
    is raised. *)
Definition is_valid_period (header_val : pyval) : result bool :=
  match header_val with
  | PInt n => Ret ((2017 <=? n) && (n <=? 2030))
  | PFloat x _ => Ret (in_year_range x)
  | PStr s =>
      if contains_dot s then
        year_text <- py_index (split_dot s) 0 ;;
        year_part <- py_float year_text ;;
        Ret (in_year_range year_part)
      else Ret false
  | PNone => Ret false
  end.

(** [except (ValueError, TypeError)]; [IllegalMonthError] is a [ValueError]. *)
Definition caught (e : exn) : bool :=
  match e with
  | ValueError | TypeError | IllegalMonthError => true
  | _ => false
  end.

(** [for idx in range(...)], with [period_indices] the list built so far. *)
Fixpoint period_loop (all_cols : list pyval) (header_row : list pyval)
    (idxs : list nat) (period_indices : list nat) : result (list nat) :=
  match idxs with
  | [] => Ret period_indices
  | idx :: idxs' =>
      col_name <- py_index all_cols idx ;;
      let header_val := cell header_row idx in
      match is_valid_period header_val with
      | Ret true => period_loop all_cols header_row idxs' (period_indices ++ [idx])
      | Ret false => period_loop all_cols header_row idxs' period_indices
      | Raise e =>
          if caught e then period_loop all_cols header_row idxs' period_indices
          else Raise e
      end
  end.

Definition get_all_period_indices (df : DataFrame)
    (section_start next_section_start : option nat) (header_row_idx : nat)
    : result (list nat) :=
  let all_cols := columns df in
  header_row <- py_index (rows df) header_row_idx ;;
  idxs <- py_range section_start next_section_start ;;
  period_loop all_cols header_row idxs [].

(** ** [get_trailing_12_indices_with_data] *)

Definition MIN_DATA_ROWS : Z := 1000.

(** [df.iloc[1:][col_name].notna().sum()] *)
Definition non_null_count (df : DataFrame) (idx : nat) : Z :=
  Z.of_nat (List.length (filter (fun row => notna (cell row idx)) (tl (rows df)))).

Fixpoint data_loop (df : DataFrame) (min_data_rows : Z) (idxs : list nat)
    (valid_period_indices : list nat) : result (list nat) :=
  match idxs with
  | [] => Ret valid_period_indices
  | idx :: idxs' =>
      col_name <- py_index (columns df) idx ;;
      if min_data_rows <=? non_null_count df idx
      then data_loop df min_data_rows idxs' (valid_period_indices ++ [idx])
      else data_loop df min_data_rows idxs' valid_period_indices
  end.

Definition get_trailing_12_indices_with_data (df : DataFrame)
    (section_start next_section_start : option nat) (header_row_idx : nat)
    (min_data_rows : Z) : io (list nat) :=
  all_period_indices <~
    lift (get_all_period_indices df section_start next_section_start header_row_idx) ;;
  valid_period_indices <~ lift (data_loop df min_data_rows all_period_indices []) ;;
  if (12 <=? List.length valid_period_indices)%nat then
    io_ret (last_12 valid_period_indices)
  else
    print ("  WARNING: Only found " ++ str_nat (List.length valid_period_indices)
           ++ " periods with data") ;;;
    io_ret valid_period_indices.

(** ** [get_period_value], [calculate_period_names] *)

Definition get_period_value (df : DataFrame) (col_idx : nat) (header_row_idx : nat)
    : result pyval :=
  col_name <- py_index (columns df) col_idx ;;
  header_row <- py_index (rows df) header_row_idx ;;
  Ret (cell header_row col_idx).

Definition calculate_period_names (start_year start_month : Z) (count : nat)
    : list string :=
  map (fun i =>
         let total_months := start_year * 12 + start_month - 1 + Z.of_nat i in
         let year := total_months / 12 in
         let month := total_months mod 12 + 1 in
         (str_int year ++ "_" ++ fmt_0d 2 month)%string)
      (seq 0 count).

(** ** [detect_start_period_from_first_value] *)

(** [int(x)] for a float: truncation towards zero. *)
Definition int_of_float (x : pyfloat) : result Z :=
  match x with
  | FNan => Raise ValueError
  | FInf _ => Raise OverflowError
  | FFin q => Ret (if Qle_bool (inject_Z 0) q then Qfloor q else Qceiling q)
  end.

Definition year_and_month (text : string) : result (Z * Z) :=
  let parts := split_dot text in
  year_text <- py_index parts 0 ;;
  year <- py_int year_text ;;
  month_str <- py_index parts 1 ;;
  month <- py_int month_str ;;
  Ret (year, month).

Definition detect_start_period_from_first_value (period_val : pyval)
    : result (Z * Z) :=
  match period_val with
  | PStr s => year_and_month s
  | PInt n =>
      let val_str := str_int n in
      if contains_dot val_str then year_and_month val_str else Ret (n, 1)
  | PFloat x repr =>
      let val_str := repr in
      if contains_dot val_str then year_and_month val_str
      else (year <- int_of_float x ;; Ret (year, 1))
  | PNone => Ret (2024, 12)
  end.

(** ** The script body of [process_arr_waterfall.py], from the loaded frame *)

Definition str_opt (o : option nat) : string :=
  match o with
  | Some n => str_nat n
  | None => "None"
  end.

(** What lines 189-232 compute. *)
Record mapped : Set := {
  found : sections;
  arr_indices : list nat;
  arr_all_periods : list nat;
  netchange_all_periods : list nat;
  reason_all_periods : list nat;
  relative_start_pos : nat;
  netchange_indices : list nat;
  reason_indices : list nat
}.

(** [f"  <name>: {l[0]} to {l[-1]} ({len(l)} periods)"] *)
Definition mapped_line (name : string) (l : list nat) : result string :=
  first <- py_index l 0 ;;
  last <- py_last l ;;
  Ret ("  " ++ name ++ ": " ++ str_nat first ++ " to " ++ str_nat last
       ++ " (" ++ str_nat (List.length l) ++ " periods)")%string.

Definition map_sections (df : DataFrame) : io mapped :=
  let all_cols := columns df in
  let sections := find_section_indices all_cols in
  print (nl ++ "Section boundaries detected:") ;;;
  print ("  ARR starts at column index: " ++ str_opt (arr_start sections)) ;;;
  print ("  Net Change starts at column index: " ++ str_opt (netchange_start sections)) ;;;
  print ("  Change Reason starts at column index: " ++ str_opt (reason_start sections)) ;;;
  print ("  Filters starts at column index: " ++ str_opt (filters_start sections)) ;;;
  sf_num_col <~ lift (py_index all_cols 0) ;;
  customer_name_col <~ lift (py_index all_cols 1) ;;
  product_col <~ lift (py_index all_cols 35) ;;
  print (nl ++ "Finding trailing 12 periods with significant data (min "
         ++ fmt_thousands (Z.to_nat MIN_DATA_ROWS) ++ " rows)...") ;;;
  arr_indices <~ get_trailing_12_indices_with_data df
    (arr_start sections) (netchange_start sections) 0 MIN_DATA_ROWS ;;
  arr_all_periods <~ lift (get_all_period_indices df
    (arr_start sections) (netchange_start sections) 0) ;;
  netchange_all_periods <~ lift (get_all_period_indices df
    (netchange_start sections) (reason_start sections) 0) ;;
  reason_all_periods <~ lift (get_all_period_indices df
    (reason_start sections) (filters_start sections) 0) ;;
  first_trailing_idx <~ lift (py_index arr_indices 0) ;;
  relative_start_pos <~ lift (py_list_index arr_all_periods first_trailing_idx) ;;
  last_trailing_idx <~ lift (py_last arr_indices) ;;
  print (nl ++ "ARR trailing 12 indices: " ++ str_nat first_trailing_idx
         ++ " to " ++ str_nat last_trailing_idx) ;;;
  print ("Relative start position within section: " ++ str_nat relative_start_pos) ;;;
  let netchange_indices :=
    py_slice netchange_all_periods relative_start_pos (relative_start_pos + 12) in
  let reason_indices :=
    py_slice reason_all_periods relative_start_pos (relative_start_pos + 12) in
  print (nl ++ "Mapped indices:") ;;;
  line <~ lift (mapped_line "ARR" arr_indices) ;;
  print line ;;;
  line <~ lift (mapped_line "Net Change" netchange_indices) ;;
  print line ;;;
  line <~ lift (mapped_line "Change Reason" reason_indices) ;;
  print line ;;;
  io_ret {| found := sections;
            arr_indices := arr_indices;
            arr_all_periods := arr_all_periods;
            netchange_all_periods := netchange_all_periods;
            reason_all_periods := reason_all_periods;
            relative_start_pos := relative_start_pos;
            netchange_indices := netchange_indices;
            reason_indices := reason_indices |}.

(** [d[k] = v] and [d[k]] for a dict keyed by column position. *)
Definition dict_set (d : list (nat * string)) (k : nat) (v : string) : list (nat * string) :=
  (k, v) :: d.

Fixpoint dict_get (d : list (nat * string)) (k : nat) : option string :=
  match d with
  | [] => None
  | (k', v) :: d' => if (k' =? k)%nat then Some v else dict_get d' k
  end.

(** [for pos, old_col in enumerate(cols): rename[old_col] = f"{period_names[pos]}<suffix>"] *)
Fixpoint rename_loop (period_names : list string) (suffix : string) (pos : nat)
    (cols : list nat) (rename : list (nat * string)) : result (list (nat * string)) :=
  match cols with
  | [] => Ret rename
  | old_col :: cols' =>
      name <- py_index period_names pos ;;
      rename_loop period_names suffix (S pos) cols'
        (dict_set rename old_col (name ++ suffix)%string)
  end.

(** [v != text], element of [df[col] != text] *)
Definition ne_text (v : pyval) (text : string) : bool :=
  match v with
  | PStr s => negb (String.eqb s text)
  | _ => true
  end.

(** [repr] of a list of strings free of quotes and escapes, as the names
    built here are. *)
Fixpoint join (sep : string) (l : list string) : string :=
  match l with
  | [] => EmptyString
  | [a] => a
  | a :: l' => a ++ sep ++ join sep l'
  end.

Definition repr_names (l : list string) : string :=
  ("[" ++ join ", " (map (fun n => "'" ++ n ++ "'") l) ++ "]")%string.

(** One sheet: [df_data[[sf_num_col, customer_name_col, product_col] + cols]]
    with its columns renamed. *)
Definition make_sheet (title : string) (suffix : string) (df_data : list (list pyval))
    (period_names : list string) (cols : list nat) : io DataFrame :=
  print (nl ++ repeat_str "=" 80) ;;;
  print title ;;;
  print (repeat_str "=" 80) ;;;
  let selected := [0; 1; 35]%nat ++ cols in
  let sheet_rows := map (fun row => map (cell row) selected) df_data in
  let rename := dict_set (dict_set (dict_set [] 0 "SF_Account_Number")
                                   1 "Customer_Name") 35 "Product" in
  rename <~ lift (rename_loop period_names suffix 0 cols rename) ;;
  let names := map (fun idx => match dict_get rename idx with
                               | Some name => name
                               | None => EmptyString
                               end) selected in
  print ("Rows: " ++ fmt_thousands (List.length sheet_rows)) ;;;
  print ("Columns: " ++ repr_names names) ;;;
  io_ret {| columns := map PStr names; rows := sheet_rows |}.

Record sheets : Set := {
  arr_df : DataFrame;
  netchange_df : DataFrame;
  reason_df : DataFrame
}.

(** [df[df[sf_num_col] != 'SF #']] *)
Definition df_data (df : DataFrame) : list (list pyval) :=
  filter (fun row => ne_text (cell row 0) "SF #") (rows df).

(** The script from the loaded frame up to the three sheets it writes. *)
Definition main (df : DataFrame) : io sheets :=
  m <~ map_sections df ;;
  let all_cols := columns df in
  arr_cols <~ lift (map_result (py_index all_cols) (arr_indices m)) ;;
  netchange_cols <~ lift (map_result (py_index all_cols) (netchange_indices m)) ;;
  reason_cols <~ lift (map_result (py_index all_cols) (reason_indices m)) ;;
  first_idx <~ lift (py_index (arr_indices m) 0) ;;
  first_period_val <~ lift (get_period_value df first_idx 0) ;;
  start <~ lift (detect_start_period_from_first_value first_period_val) ;;
  let '(start_year, start_month) := start in
  let period_names := calculate_period_names start_year start_month 12 in
  print (nl ++ "Detected starting period: " ++ str_int start_year ++ "."
         ++ fmt_0d 2 start_month) ;;;
  print ("Period names: " ++ repr_names period_names) ;;;
  let data := df_data df in
  print (nl ++ "Data rows (after removing header row): "
         ++ fmt_thousands (List.length data)) ;;;
  arr <~ make_sheet "CREATING SHEET 1: ARR by Period (util_waterfall_arr_import)"
    "_ARR" data period_names (arr_indices m) ;;
  netchange <~ make_sheet
    "CREATING SHEET 2: Net Change by Period (util_waterfall_netChange_import)"
    "_NetChange" data period_names (netchange_indices m) ;;
  reason <~ make_sheet
    "CREATING SHEET 3: Change Reason by Period (util_waterfall_changeReason_import)"
    "_ChangeReason" data period_names (reason_indices m) ;;
  io_ret {| arr_df := arr; netchange_df := netchange; reason_df := reason |}.

End Waterfall.

(** * [process_arr_waterfall_FINAL.py] *)

Module Final.

(** ** [period_to_last_day] *)

(** [calendar.isleap] *)
Definition isleap (year : Z) : bool :=
  (year mod 4 =? 0) && (negb (year mod 100 =? 0) || (year mod 400 =? 0)).

(** [calendar.mdays] *)
Definition mdays : list Z := [0; 31; 28; 31; 30; 31; 30; 31; 31; 30; 31; 30; 31].

(** [calendar.monthrange(year, month)[1]] *)
Definition monthrange_days (year month : Z) : result Z :=
  if (1 <=? month) && (month <=? 12) then
    ndays <- py_index mdays (Z.to_nat month) ;;
    Ret (ndays + (if (month =? 2) && isleap year then 1 else 0))
  else Raise IllegalMonthError.

Definition period_to_last_day (period_str : string) : result string :=
  match split_dot period_str with
  | [year_text; month_text] =>
      year <- py_int year_text ;;
      month <- py_int month_text ;;
      last_day <- monthrange_days year month ;;
      Ret (fmt_0d 4 year ++ "-" ++ fmt_0d 2 month ++ "-" ++ fmt_0d 2 last_day)%string
  | _ => Raise ValueError
  end.

Definition period_names : list string :=
  ["2025.01"; "2025.02"; "2025.03"; "2025.04"; "2025.05";
   "2025.06"; "2025.07"; "2025.08"; "2025.09"; "2025.10"].

(** [{p: period_to_last_day(p) for p in period_names}] *)
Definition period_dates : result (list (string * string)) :=
  map_result (fun p => d <- period_to_last_day p ;; Ret (p, d)) period_names.

(** ** The pivot *)

(** A row of a pivoted sheet. *)
Record record : Set := {
  AccountProductKey : string;
  AccountNumber : pyval;
  CustomerName : pyval;
  Product : pyval;
  Period : string;
  Value : pyval
}.

Record pivoted : Set := {
  arr_pivoted : list record;
  netchange_pivoted : list record;
  reason_pivoted : list record
}.

Section Pandas.

(** Whether [pd.to_numeric] reads a text cell as a number other than NaN. *)
Variable numeric_text : string -> bool.

(** [sort_values(['AccountNumber', 'Product', 'Period'])], of which only
    that it reorders the rows it is given is used. *)
Variable sort_values : list record -> result (list record).

(** [pd.to_numeric(v, errors='coerce')] is not NaN *)
Definition to_numeric_notna (v : pyval) : bool :=
  match v with
  | PInt _ => true
  | PFloat FNan _ => false
  | PFloat _ _ => true
  | PStr s => numeric_text s
  | PNone => false
  end.

(** [df[pd.to_numeric(df[sf_num_col], errors='coerce').notna()]] *)
Definition df_filtered (df : DataFrame) : list (list pyval) :=
  filter (fun row => to_numeric_notna (cell row 0)) (rows df).

(** [melt]: one block per period column, the rows in order within a block;
    the period name is mapped to its date. *)
Definition melt (data : list (list pyval)) (dates : list (string * string))
    (cols : list nat) : list record :=
  flat_map
    (fun '(col, (_, date)) =>
       map (fun row =>
              {| AccountProductKey :=
                   (py_str (cell row 0) ++ "_" ++ py_str (cell row 35))%string;
                 AccountNumber := cell row 0;
                 CustomerName := cell row 1;
                 Product := cell row 35;
                 Period := date;
                 Value := cell row col |})
           data)
    (combine cols dates).

(** One sheet before its own last steps: the period columns renamed
    position by position, melted, sorted.  [melt] needs every one of the ten
    period names among the columns. *)
Definition pivot (data : list (list pyval)) (dates : list (string * string))
    (cols : list nat) : result (list record) :=
  if (List.length cols <? List.length period_names)%nat then Raise KeyError
  else sort_values (melt data dates cols).

(** [.replace('-', 'No Change')] *)
Definition replace_dash (r : record) : record :=
  match Value r with
  | PStr "-" =>
      {| AccountProductKey := AccountProductKey r; AccountNumber := AccountNumber r;
         CustomerName := CustomerName r; Product := Product r; Period := Period r;
         Value := PStr "No Change" |}
  | _ => r
  end.

(** The script from the loaded frame up to the three sheets it writes; what
    it prints is left out. *)
Definition main (df : DataFrame) : result pivoted :=
  let all_cols := columns df in
  sf_num_col <- py_index all_cols 0 ;;
  customer_name_col <- py_index all_cols 1 ;;
  product_col <- py_index all_cols 35 ;;
  let width := List.length all_cols in
  let arr_cols := py_slice (seq 0 width) 120 130 in
  let netchange_cols := py_slice (seq 0 width) 216 226 in
  let reason_cols := py_slice (seq 0 width) 312 322 in
  let data := df_filtered df in
  dates <- period_dates ;;
  arr <- pivot data dates arr_cols ;;
  let arr := filter (fun r => notna (Value r)) arr in
  netchange <- pivot data dates netchange_cols ;;
  reason <- pivot data dates reason_cols ;;
  let reason := map replace_dash reason in
  Ret {| arr_pivoted := arr; netchange_pivoted := netchange; reason_pivoted := reason |}.

End Pandas.

End Final.

(** * Sample sheets

    A sheet laid out as the scripts expect: 36 leading columns (identifier
    at 0, customer at 1, product at 35), then the ARR block of [n_arr] period
    columns, the net-change block of [n_netchange], the reason block of
    [n_reason], and the filters column.  The header row holds the period
    texts from [2024.11] on; [extra] rows come first among the data rows,
    followed by [n_data] copies of one account row whose ARR cell at block
    position [k] is filled exactly when [dense k]. *)

Module Sample.

Definition period_text (k : nat) : string :=
  let total_months := 2024 * 12 + 10 + Z.of_nat k in
  (str_int (total_months / 12) ++ "." ++ fmt_0d 2 (total_months mod 12 + 1))%string.

Section Layout.

Variables n_arr n_netchange n_reason : nat.

Definition arr_at : nat := 36%nat.
Definition netchange_at : nat := (arr_at + n_arr)%nat.
Definition reason_at : nat := (netchange_at + n_netchange)%nat.
Definition filters_at : nat := (reason_at + n_reason)%nat.
Definition width : nat := S filters_at.

Definition label (i : nat) : pyval :=
  if (i =? arr_at)%nat then PStr Waterfall.ARR_LABEL
  else if (i =? netchange_at)%nat then PStr Waterfall.NETCHANGE_LABEL
  else if (i =? reason_at)%nat then PStr Waterfall.REASON_LABEL
  else if (i =? filters_at)%nat then PStr Waterfall.FILTERS_LABEL
  else PStr ("Unnamed: " ++ str_nat i).

Definition header (i : nat) : pyval :=
  if (i =? 0)%nat then PStr "SF #"
  else if (i =? 1)%nat then PStr "Customer Name"
  else if (i =? 35)%nat then PStr "Product"
  else if (i <? arr_at)%nat then nan
  else if (i <? netchange_at)%nat then PStr (period_text (i - arr_at)%nat)
  else if (i <? reason_at)%nat then PStr (period_text (i - netchange_at)%nat)
  else if (i <? filters_at)%nat then PStr (period_text (i - reason_at)%nat)
  else nan.

Definition account (dense : nat -> bool) (i : nat) : pyval :=
  if (i =? 0)%nat then PInt 1001
  else if (i =? 1)%nat then PStr "Acme"
  else if (i =? 35)%nat then PStr "Widget"
  else if (i <? arr_at)%nat then nan
  else if (i <? netchange_at)%nat then (if dense (i - arr_at)%nat then PInt 1200 else nan)
  else if (i <? reason_at)%nat then PInt 0
  else if (i <? filters_at)%nat then PStr "-"
  else nan.

Definition sheet (dense : nat -> bool) (extra : list (list pyval)) (n_data : nat)
    : DataFrame :=
  {| columns := map label (seq 0 width);
     rows := map header (seq 0 width)
             :: extra ++ repeat (map (account dense) (seq 0 width)) n_data |}.

End Layout.

(** 14 period columns in each block; the two oldest ARR columns are empty. *)
Definition parallel : DataFrame :=
  sheet 14 14 14 (fun k => (2 <=? k)%nat) [] 1000.

(** As [parallel], with one period column fewer in the net-change block. *)
Definition shorter_netchange : DataFrame :=
  sheet 14 13 14 (fun k => (2 <=? k)%nat) [] 1000.

(** As [parallel], with only two period columns in the net-change block. *)
Definition tiny_netchange : DataFrame :=
  sheet 14 2 14 (fun k => (2 <=? k)%nat) [] 1000.

(** Only the five oldest ARR columns carry data. *)
Definition sparse_reference : DataFrame :=
  sheet 14 14 14 (fun k => (k <? 5)%nat) [] 1000.



(** A block mixing period columns with other columns. *)
Definition mixed : DataFrame :=
  {| columns := map (fun i => PStr ("Unnamed: " ++ str_nat i)) (seq 0 6);
     rows := [[PStr "2025.01"; PStr "Total"; PInt 2025; PStr "2025.xyz"; nan;
               PFloat (FFin (2031 # 1)) "2031.0"];
              [PInt 1; PInt 2; PInt 3; PInt 4; PInt 5; PInt 6]] |}.

(** What the script prints for [shorter_netchange] up to the mapped windows,
    and what it has computed by then. *)
Definition shorter_netchange_output : list string :=
  [nl ++ "Section boundaries detected:";
   "  ARR starts at column index: 36";
   "  Net Change starts at column index: 50";
   "  Change Reason starts at column index: 63";
   "  Filters starts at column index: 77";
   nl ++ "Finding trailing 12 periods with significant data (min 1,000 rows)...";
   nl ++ "ARR trailing 12 indices: 38 to 49";
   "Relative start position within section: 2";
   nl ++ "Mapped indices:";
   "  ARR: 38 to 49 (12 periods)";
   "  Net Change: 52 to 62 (11 periods)";
   "  Change Reason: 65 to 76 (12 periods)"]%string.

Definition shorter_netchange_mapped : Waterfall.mapped :=
  {| Waterfall.found :=
       {| Waterfall.arr_start := Some 36%nat;
          Waterfall.netchange_start := Some 50%nat;
          Waterfall.reason_start := Some 63%nat;
          Waterfall.filters_start := Some 77%nat |};
     Waterfall.arr_indices := seq 38 12;
     Waterfall.arr_all_periods := seq 36 14;
     Waterfall.netchange_all_periods := seq 50 13;
     Waterfall.reason_all_periods := seq 63 14;
     Waterfall.relative_start_pos := 2;
     Waterfall.netchange_indices := seq 52 11;
     Waterfall.reason_indices := seq 65 12 |}.

(** The sentinel is the label of column 0, the header-row cell differs. *)
Definition sentinel_in_label : DataFrame :=
  {| columns := [PStr "ARR by Period by Product"; PStr "Unnamed: 1"];
     rows := [[PStr "2024.12"; PStr "2025.01"]; [PInt 1200; PInt 1300]] |}.

(** The sentinel is the header-row cell of column 0, the label differs. *)
Definition sentinel_in_header_row : DataFrame :=
  {| columns := [PStr "Unnamed: 0"; PStr "Unnamed: 1"];
     rows := [[PStr "ARR by Period by Product"; PStr "2025.01"];
              [PInt 1200; PInt 1300]] |}.

(** [parallel] without its last column, the one labelled with the filters
    sentinel. *)
Definition without_filters : DataFrame :=
  {| columns := removelast (columns parallel);
     rows := map (@removelast pyval) (rows parallel) |}.

(** The numeric cell [2025.10] (October 2025): the double it is stored as
    is the double of [2025.1], and [str()] prints it as [2025.1]. *)
Definition october_2025 : pyval :=
  PFloat (FFin (4453241994818355 # 2199023255552)) "2025.1".

(** For the pivoting script: 322 columns, the header row repeated as a data
    row, a row with an empty identifier, an account row and a totals row. *)
Definition pivot_sheet : DataFrame :=
  let row (id : pyval) := map (fun i => if (i =? 0)%nat then id else PInt 7) (seq 0 322) in
  {| columns := map (fun i => PStr ("Unnamed: " ++ str_nat i)) (seq 0 322);
     rows := [row (PStr "SF #"); row nan; row (PInt 1001); row (PStr "Total")] |}.

(** For the pivoting script: an account row whose reason cells alternate
    between the dash and a reason, after the header row. *)
Definition reason_sheet : DataFrame :=
  let row (id : pyval) :=
    map (fun i => if (i =? 0)%nat then id
                  else if (i <? 312)%nat then PInt 7
                  else if Nat.even i then PStr "-" else PStr "Upsell")
        (seq 0 322) in
  {| columns := map (fun i => PStr ("Unnamed: " ++ str_nat i)) (seq 0 322);
     rows := [row (PStr "SF #"); row (PInt 1001)] |}.

(** Text cells read as numbers the way [float()] reads them. *)
Definition numeric_text (s : string) : bool :=
  match py_float s with
  | Ret (FFin _) | Ret (FInf _) => true
  | _ => false
  end.

(** A sort of the pivoted rows by the text of account, product and period. *)
Definition before (r1 r2 : Final.record) : bool :=
  String.leb
    (py_str (Final.AccountNumber r1) ++ "|" ++ py_str (Final.Product r1)
       ++ "|" ++ Final.Period r1)
    (py_str (Final.AccountNumber r2) ++ "|" ++ py_str (Final.Product r2)
       ++ "|" ++ Final.Period r2).

Fixpoint insert_sorted (r : Final.record) (l : list Final.record) : list Final.record :=
  match l with
  | [] => [r]
  | r' :: l' => if before r r' then r :: l else r' :: insert_sorted r l'
  end.

Definition sort_values (l : list Final.record) : result (list Final.record) :=
  Ret (fold_right insert_sorted [] l).

(** As [parallel], with five data rows only. *)
Definition few_rows : DataFrame :=
  sheet 14 14 14 (fun k => (2 <=? k)%nat) [] 5.

(** The header row of the sheets with 14 period columns in each block. *)
Definition header_row_14 : list pyval := map (header 14 14 14) (seq 0 (width 14 14 14)).

End Sample.

(** * The specification's wording

    Definitions that follow the sentences of the specification, to be
    compared with the functions above. *)

Module Spec.

(** The year segment of a period text: what precedes the separator. *)
Fixpoint year_segment (s : string) : string :=
  match s with
  | EmptyString => EmptyString
  | String c s' => if Ascii.eqb c dot then EmptyString else String c (year_segment s')
  end.

(** A number lies in the plausible-year range 2017-2030. *)
Definition plausible_year (x : pyfloat) : Prop :=
  match x with
  | FFin q => (inject_Z 2017 <= q)%Q /\ (q <= inject_Z 2030)%Q
  | _ => False
  end.

(** A header-row cell is a period: a numeric value in the plausible-year
    range, or a text with a separator whose year segment is in that range. *)
Definition period_cell (header_val : pyval) : Prop :=
  match header_val with
  | PInt n => 2017 <= n <= 2030
  | PFloat x _ => plausible_year x
  | PStr s =>
      contains_dot s = true /\
      exists y, py_float (year_segment s) = Ret y /\ plausible_year y
  | PNone => False
  end.

(** The last [n] elements of a list, in their order. *)
Definition last_n {A : Type} (n : nat) (l : list A) : list A :=
  List.rev (firstn n (List.rev l)).

(** A section's window against the reference window: as long as it when the
    section has [offset + 12] candidates, and never longer. *)
Definition aligned_with_reference
    (reference_window candidates window : list nat) (offset : nat) : Prop :=
  ((offset + 12 <= List.length candidates)%nat ->
   List.length window = List.length reference_window) /\
  (List.length window <= List.length reference_window)%nat.

(** [needle in line] *)
Definition mentions (needle line : string) : bool :=
  match String.index 0 needle line with
  | Some _ => true
  | None => false
  end.

(** The output carries a mismatch diagnostic: a line marked as a warning, as
    the script marks the one diagnostic it has, or naming a mismatch. *)
Definition reports_mismatch (out : list string) : Prop :=
  exists line,
    In line out /\
    (mentions "WARNING" line = true \/ mentions "ismatch" line = true).

(** A section start located through the header row: the column found
    holds the sentinel in its header-row cell, and a column holding it there
    is found. *)
Definition located_by_header_cell (df : DataFrame) (label : string)
    (start : option nat) : Prop :=
  forall header_row, nth_error (rows df) 0 = Some header_row ->
    (forall idx, start = Some idx -> cell header_row idx = PStr label) /\
    (forall idx, (idx < List.length (columns df))%nat ->
                 cell header_row idx = PStr label -> start <> None).

(** A period text whose month segment after the separator is a single
    character. *)
Definition single_character_month (text : string) : Prop :=
  exists (year_text : string) (c : ascii),
    contains_dot year_text = false /\
    text = (year_text ++ String dot (String c EmptyString))%string.

(** The parse is flagged instead of resolved: the function has no other way
    to flag than to raise. *)
Definition flagged (r : result (Z * Z)) : Prop := exists e, r = Raise e.

(** The non-empty count of column [idx] over the data rows: the number of
    row positions after position 0, the header row, at which the cell of
    that column is not missing. *)
Definition non_empty_count (df : DataFrame) (idx : nat) : Z :=
  Z.of_nat
    (List.length
       (filter (fun i => match nth_error (rows df) i with
                         | Some row => notna (cell row idx)
                         | None => false
                         end)
               (seq 1 (List.length (rows df) - 1)))).

(** The canonical period token [YYYY_MM]. *)
Definition canonical_period (y m : Z) : string :=
  (fmt_0d 4 y ++ "_" ++ fmt_0d 2 m)%string.

(** A leap year of the Gregorian calendar. *)
Definition leap_year (y : Z) : Prop :=
  (4 | y) /\ (~ (100 | y) \/ (400 | y)).

(** [d] is the last calendar day of month [m] of year [y]. *)
Definition last_calendar_day (y m d : Z) : Prop :=
  (In m [1; 3; 5; 7; 8; 10; 12] /\ d = 31) \/
  (In m [4; 6; 9; 11] /\ d = 30) \/
  (m = 2 /\ leap_year y /\ d = 29) \/
  (m = 2 /\ ~ leap_year y /\ d = 28).

End Spec.

(** * Derived notions *)

(** The loop of [get_all_period_indices] appends a column exactly when the
    [try] body ends with [is_valid_period] true. *)
Definition accepted (header_val : pyval) : bool :=
  match Waterfall.is_valid_period header_val with
  | Ret true => true
  | _ => false
  end.

(** What [map_sections] prints before it selects the reference window. *)
Definition boundary_lines (sec : Waterfall.sections) : list string :=
  [nl ++ "Section boundaries detected:";
   "  ARR starts at column index: " ++ Waterfall.str_opt (Waterfall.arr_start sec);
   "  Net Change starts at column index: "
     ++ Waterfall.str_opt (Waterfall.netchange_start sec);
   "  Change Reason starts at column index: "
     ++ Waterfall.str_opt (Waterfall.reason_start sec);
   "  Filters starts at column index: "
     ++ Waterfall.str_opt (Waterfall.filters_start sec);
   nl ++ "Finding trailing 12 periods with significant data (min 1,000 rows)..."]%string.

(** The one warning of the script: fewer than twelve periods with data. *)
Definition degraded_line (n : nat) : string :=
  ("  WARNING: Only found " ++ str_nat n ++ " periods with data")%string.

(** What it prints once the reference window and its offset are known. *)
Definition offset_lines (first last pos : nat) : list string :=
  [nl ++ "ARR trailing 12 indices: " ++ str_nat first ++ " to " ++ str_nat last;
   "Relative start position within section: " ++ str_nat pos;
   nl ++ "Mapped indices:"]%string.

(** The sections the script finds in a frame:
    [find_section_indices(list(df.columns))]. *)
Definition found_of (df : DataFrame) : Waterfall.sections :=
  Waterfall.find_section_indices (columns df).

(** The text of the label of column [idx], when there is such a column. *)
Definition label_text (columns : list pyval) (idx : nat) : option string :=
  option_map py_str (nth_error columns idx).

(** The last column from [idx] on whose label reads [label], else [init]. *)
Fixpoint last_match (label : string) (idx : nat) (cols : list pyval)
    (init : option nat) : option nat :=
  match cols with
  | [] => init
  | col :: cols' =>
      last_match label (S idx) cols'
        (if String.eqb (py_str col) label then Some idx else init)
  end.

(** The text [detect_start_period_from_first_value] splits: the cell when
    it is text, what [str()] prints when it is a number. *)
Definition text_form (period_val : pyval) : option string :=
  match period_val with
  | PStr s => Some s
  | PInt n => Some (str_int n)
  | PFloat _ repr => Some repr
  | PNone => None
  end.

(** The period as the pivoting script writes it, [2025.01], and the date it
    is rendered to, [2025-01-31]. *)
Definition period_text (y m : Z) : string :=
  (fmt_0d 4 y ++ String dot (fmt_0d 2 m))%string.

Definition date_text (y m d : Z) : string :=
  (fmt_0d 4 y ++ "-" ++ fmt_0d 2 m ++ "-" ++ fmt_0d 2 d)%string.

Definition is_digit (c : ascii) : bool :=
  match digit_of c with
  | Some _ => true
  | None => false
  end.

(** The number a run of digits denotes, continuing [acc]. *)
Definition digits_value (acc : Z) (l : list ascii) : Z :=
  fold_left (fun a c => 10 * a + match digit_of c with Some d => d | None => 0 end) l acc.

(** The same for the digits of the standard library's decimal numbers. *)
Fixpoint uint_value (d : Decimal.uint) (acc : Z) : Z :=
  match d with
  | Decimal.Nil => acc
  | Decimal.D0 l => uint_value l (10 * acc)
  | Decimal.D1 l => uint_value l (10 * acc + 1)
  | Decimal.D2 l => uint_value l (10 * acc + 2)
  | Decimal.D3 l => uint_value l (10 * acc + 3)
  | Decimal.D4 l => uint_value l (10 * acc + 4)
  | Decimal.D5 l => uint_value l (10 * acc + 5)
  | Decimal.D6 l => uint_value l (10 * acc + 6)
  | Decimal.D7 l => uint_value l (10 * acc + 7)
  | Decimal.D8 l => uint_value l (10 * acc + 8)
  | Decimal.D9 l => uint_value l (10 * acc + 9)
  end.

(** The period columns of the section [s, e): what
    [get_all_period_indices] returns for it under the header row. *)
Definition candidates (header_row : list pyval) (s e : nat) : list nat :=
  filter (fun idx => accepted (cell header_row idx)) (seq s (e - s)).

(** The candidates with at least [MIN_DATA_ROWS] non-empty data cells, and
    the window the selector makes of them. *)
Definition qualifying (df : DataFrame) (cands : list nat) : list nat :=
  filter (fun idx => Waterfall.MIN_DATA_ROWS <=? Waterfall.non_null_count df idx) cands.

Definition reference_window (df : DataFrame) (cands : list nat) : list nat :=
  if (12 <=? List.length (qualifying df cands))%nat
  then last_12 (qualifying df cands)
  else qualifying df cands.

(** The four sentinels are the labels of columns [a], [b], [c] and [d]. *)
Definition sections_at (a b c d : nat) : Waterfall.sections :=
  {| Waterfall.arr_start := Some a;
     Waterfall.netchange_start := Some b;
     Waterfall.reason_start := Some c;
     Waterfall.filters_start := Some d |}.

(** [c in s] *)
Fixpoint occurs (c : ascii) (s : string) : bool :=
  match s with
  | EmptyString => false
  | String c' s' => Ascii.eqb c' c || occurs c s'
  end.

(** * Properties *)

(** ** Strings and results *)

Lemma split_dot_year_segment (s : string) :
  exists segs, split_dot s = Spec.year_segment s :: segs.
Proof.
  induction s as [|c s [segs IH]]; simpl.
  - now exists [].
  - destruct (Ascii.eqb c dot).
    + now exists (split_dot s).
    + rewrite IH. now exists segs.
Qed.

Lemma split_dot_head (s : string) :
  py_index (split_dot s) 0 = Ret (Spec.year_segment s).
Proof.
  destruct (split_dot_year_segment s) as [segs ->]. reflexivity.
Qed.

Lemma split_dot_app (y m : string) :
  contains_dot y = false ->
  split_dot (y ++ String dot m) = y :: split_dot m.
Proof.
  induction y as [|c y IH]; simpl; intros H.
  - reflexivity.
  - apply orb_false_iff in H as [Hc Hy]. rewrite Hc, (IH Hy). reflexivity.
Qed.

Lemma contains_dot_app (y m : string) :
  contains_dot (y ++ String dot m) = true.
Proof.
  induction y as [|c y IH]; simpl.
  - reflexivity.
  - rewrite IH. apply orb_true_r.
Qed.

Lemma year_segment_app (y m : string) :
  contains_dot y = false ->
  Spec.year_segment (y ++ String dot m) = y.
Proof.
  induction y as [|c y IH]; simpl; intros H.
  - reflexivity.
  - apply orb_false_iff in H as [Hc Hy]. rewrite Hc, (IH Hy). reflexivity.
Qed.

(** [float()] raises nothing but [ValueError]. *)
Lemma py_float_raises (s : string) (e : exn) :
  py_float s = Raise e -> e = ValueError.
Proof.
  unfold py_float.
  repeat match goal with
         | |- context [match ?x with _ => _ end] => destruct x
         end; congruence.
Qed.

Lemma in_year_range_spec (x : pyfloat) :
  Waterfall.in_year_range x = true <-> Spec.plausible_year x.
Proof.
  unfold Waterfall.in_year_range, int_le_float, float_le_int.
  destruct x as [|negative|q]; simpl.
  - split; [discriminate | tauto].
  - destruct negative; simpl; split; (discriminate || tauto).
  - rewrite andb_true_iff, !Qle_bool_iff. tauto.
Qed.

(** ** Lists *)

Lemma seq_strongly_sorted (n s : nat) : StronglySorted lt (seq s n).
Proof.
  revert s. induction n as [|n IH]; intros s; simpl; constructor.
  - apply IH.
  - apply Forall_forall. intros x Hx. apply in_seq in Hx. lia.
Qed.

Lemma filter_strongly_sorted {A : Type} (R : A -> A -> Prop) (f : A -> bool) (l : list A) :
  StronglySorted R l -> StronglySorted R (filter f l).
Proof.
  induction 1 as [|a l Hl IH Ha]; simpl.
  - constructor.
  - destruct (f a); [constructor|]; auto.
    apply Forall_forall. intros x Hx. apply filter_In in Hx as [Hx _].
    rewrite Forall_forall in Ha. auto.
Qed.

Lemma skipn_strongly_sorted {A : Type} (R : A -> A -> Prop) (n : nat) (l : list A) :
  StronglySorted R l -> StronglySorted R (skipn n l).
Proof.
  revert l. induction n as [|n IH]; intros l Hl; simpl; [assumption|].
  destruct l as [|a l]; [constructor|]. apply IH. now inversion Hl.
Qed.

(** ** The period column detector *)

Lemma is_valid_period_raises (v : pyval) (e : exn) :
  Waterfall.is_valid_period v = Raise e -> e = ValueError.
Proof.
  destruct v as [n|x repr|s|]; simpl; try discriminate.
  destruct (contains_dot s); [|discriminate].
  rewrite split_dot_head. simpl.
  destruct (py_float (Spec.year_segment s)) eqn:Hf; simpl; [discriminate|].
  intros [= <-]. eapply py_float_raises; eassumption.
Qed.

Lemma period_loop_filter (all_cols header_row : list pyval) (idxs acc : list nat) :
  Forall (fun idx => (idx < List.length all_cols)%nat) idxs ->
  Waterfall.period_loop all_cols header_row idxs acc
  = Ret (acc ++ filter (fun idx => accepted (cell header_row idx)) idxs).
Proof.
  intros H. revert acc. induction H as [|idx idxs Hidx _ IH]; intros acc; simpl.
  - now rewrite app_nil_r.
  - unfold py_index. destruct (nth_error all_cols idx) eqn:Hn.
    2:{ apply nth_error_None in Hn. lia. }
    simpl. unfold accepted.
    destruct (Waterfall.is_valid_period (cell header_row idx)) as [[|]|e] eqn:Hv.
    + rewrite IH, <- app_assoc. reflexivity.
    + apply IH.
    + apply is_valid_period_raises in Hv. subst e. simpl. apply IH.
Qed.

Lemma accepted_spec (v : pyval) : accepted v = true <-> Spec.period_cell v.
Proof.
  unfold accepted. destruct v as [n|x repr|s|]; simpl.
  - destruct ((2017 <=? n) && (n <=? 2030)) eqn:Hb.
    + apply andb_true_iff in Hb as [H1 H2]. split; [lia | reflexivity].
    + apply andb_false_iff in Hb. split; [discriminate | lia].
  - rewrite <- in_year_range_spec.
    destruct (Waterfall.in_year_range x); split; congruence.
  - destruct (contains_dot s); simpl.
    2:{ split; [discriminate | intros [H _]; discriminate]. }
    rewrite split_dot_head. simpl.
    destruct (py_float (Spec.year_segment s)) as [y|e]; simpl.
    + destruct (Waterfall.in_year_range y) eqn:Hy.
      * split; [|reflexivity]. intros _. split; [reflexivity|].
        exists y. split; [reflexivity|]. now apply in_year_range_spec.
      * split; [discriminate|]. intros [_ [y' [[= <-] Hy']]].
        apply in_year_range_spec in Hy'. congruence.
    + split; [discriminate|]. intros [_ [y' [Hy' _]]]. discriminate.
  - split; [discriminate | tauto].
Qed.

Lemma get_all_period_indices_filter (df : DataFrame) (s e h : nat) (header_row : list pyval) :
  nth_error (rows df) h = Some header_row ->
  (e <= List.length (columns df))%nat ->
  Waterfall.get_all_period_indices df (Some s) (Some e) h
  = Ret (filter (fun idx => accepted (cell header_row idx)) (seq s (e - s))).
Proof.
  intros Hh He. unfold Waterfall.get_all_period_indices, py_index.
  rewrite Hh. simpl. apply period_loop_filter.
  apply Forall_forall. intros idx Hidx. apply in_seq in Hidx. lia.
Qed.

(** C7: within a section's column range, [get_all_period_indices] returns
    exactly the columns whose header-row cell is a numeric value in
    2017-2030 or a text with a '.' whose year segment is in 2017-2030; the
    other columns are skipped without ending the scan, and the returned
    columns stay in their original (strictly increasing) order. *)
Theorem C7_period_columns_detected
    (df : DataFrame) (s e h : nat) (header_row : list pyval) :
  nth_error (rows df) h = Some header_row ->
  (e <= List.length (columns df))%nat ->
  exists l,
    Waterfall.get_all_period_indices df (Some s) (Some e) h = Ret l /\
    (forall idx, In idx l <->
                 (s <= idx < e)%nat /\ Spec.period_cell (cell header_row idx)) /\
    StronglySorted lt l.
Proof.
  intros Hh He. eexists. split; [apply get_all_period_indices_filter; eassumption|].
  split.
  - intros idx. rewrite filter_In, in_seq, accepted_spec. intuition lia.
  - apply filter_strongly_sorted, seq_strongly_sorted.
Qed.

Lemma C7_witness :
  exists l,
    Waterfall.get_all_period_indices Sample.mixed (Some 0%nat) (Some 6%nat) 0 = Ret l /\
    (forall idx, In idx l <->
                 (0 <= idx < 6)%nat /\
                 Spec.period_cell
                   (cell [PStr "2025.01"; PStr "Total"; PInt 2025; PStr "2025.xyz"; nan;
                          PFloat (FFin (2031 # 1)) "2031.0"] idx)) /\
    StronglySorted lt l.
Proof.
  apply (C7_period_columns_detected Sample.mixed 0%nat 6%nat 0%nat).
  - reflexivity.
  - simpl. lia.
Defined.

(** C10: [get_all_period_indices] validates only the year segment of a
    textual header cell: a text made of a year segment within 2017-2030, the
    '.' separator and any month segment whatever is accepted as a period
    column; [2025.99] and [2025.xyz], whose month segments are no month
    number, are accepted. *)
Theorem C10_only_year_segment_validated :
  (forall (df : DataFrame) (s e h idx : nat) (header_row : list pyval)
          (year_text month_text : string) (y : pyfloat),
      nth_error (rows df) h = Some header_row ->
      (e <= List.length (columns df))%nat ->
      (s <= idx < e)%nat ->
      cell header_row idx = PStr (year_text ++ String dot month_text) ->
      contains_dot year_text = false ->
      py_float year_text = Ret y ->
      Spec.plausible_year y ->
      exists l,
        Waterfall.get_all_period_indices df (Some s) (Some e) h = Ret l /\ In idx l) /\
  (Waterfall.is_valid_period (PStr "2025.99") = Ret true /\ py_int "99" = Ret 99) /\
  (Waterfall.is_valid_period (PStr "2025.xyz") = Ret true /\ py_int "xyz" = Raise ValueError).
Proof.
  split; [|split; split; reflexivity].
  intros df s e h idx header_row year_text month_text y Hh He Hidx Hcell Hdot Hy Hr.
  eexists. split; [apply get_all_period_indices_filter; eassumption|].
  apply filter_In. split; [apply in_seq; lia|].
  rewrite Hcell. apply accepted_spec. simpl. split; [apply contains_dot_app|].
  exists y. now rewrite year_segment_app.
Qed.

Lemma C10_witness :
  exists l,
    Waterfall.get_all_period_indices Sample.mixed (Some 0%nat) (Some 6%nat) 0 = Ret l /\
    In 3%nat l.
Proof.
  apply (proj1 C10_only_year_segment_validated Sample.mixed 0%nat 6%nat 0%nat 3%nat
           [PStr "2025.01"; PStr "Total"; PInt 2025; PStr "2025.xyz"; nan;
            PFloat (FFin (2031 # 1)) "2031.0"]
           "2025" "xyz" (FFin (2025 # 1))).
  - reflexivity.
  - simpl. lia.
  - lia.
  - reflexivity.
  - reflexivity.
  - vm_compute. reflexivity.
  - simpl. split; discriminate.
Defined.

(** ** The trailing-window selector *)

Lemma last_n_skipn {A : Type} (n : nat) (l : list A) :
  Spec.last_n n l = skipn (List.length l - n) l.
Proof.
  unfold Spec.last_n. rewrite firstn_rev, rev_involutive. reflexivity.
Qed.

Lemma data_loop_filter (df : DataFrame) (min_data_rows : Z) (idxs acc : list nat) :
  Forall (fun idx => (idx < List.length (columns df))%nat) idxs ->
  Waterfall.data_loop df min_data_rows idxs acc
  = Ret (acc ++ filter (fun idx => min_data_rows <=? Waterfall.non_null_count df idx) idxs).
Proof.
  intros H. revert acc. induction H as [|idx idxs Hidx _ IH]; intros acc; simpl.
  - now rewrite app_nil_r.
  - unfold py_index. destruct (nth_error (columns df) idx) eqn:Hn.
    2:{ apply nth_error_None in Hn. lia. }
    simpl. destruct (min_data_rows <=? Waterfall.non_null_count df idx).
    + rewrite IH, <- app_assoc. reflexivity.
    + apply IH.
Qed.

Lemma candidates_in_frame (df : DataFrame) (f : nat -> bool) (s e : nat) :
  (e <= List.length (columns df))%nat ->
  Forall (fun idx => (idx < List.length (columns df))%nat) (filter f (seq s (e - s))).
Proof.
  intros He. apply Forall_forall. intros idx Hidx.
  apply filter_In in Hidx as [Hidx _]. apply in_seq in Hidx. lia.
Qed.

(** The selector computes the last twelve of the qualifying candidates, or
    all of them with a warning when there are fewer. *)
Lemma get_trailing_12_run (df : DataFrame) (s e h : nat) (thr : Z)
    (header_row : list pyval) (candidates : list nat) :
  nth_error (rows df) h = Some header_row ->
  (e <= List.length (columns df))%nat ->
  Waterfall.get_all_period_indices df (Some s) (Some e) h = Ret candidates ->
  let qualifying :=
    filter (fun idx => thr <=? Waterfall.non_null_count df idx) candidates in
  Waterfall.get_trailing_12_indices_with_data df (Some s) (Some e) h thr
  = if (12 <=? List.length qualifying)%nat
    then ([], Ret (last_12 qualifying))
    else ([degraded_line (List.length qualifying)], Ret qualifying).
Proof.
  intros Hh He Hc qualifying.
  unfold Waterfall.get_trailing_12_indices_with_data. rewrite Hc.
  rewrite (get_all_period_indices_filter df s e h header_row Hh He) in Hc.
  injection Hc as <-.
  unfold lift, io_bind at 1.
  rewrite data_loop_filter by (apply candidates_in_frame; assumption).
  simpl app. fold qualifying. unfold io_bind at 1.
  destruct (12 <=? List.length qualifying)%nat; reflexivity.
Qed.

(** The count the selector takes, [df.iloc[1:][col].notna().sum()], is the
    non-empty count over the data rows: row 0 is left out and every later
    row counts once when its cell is there. *)
Lemma filter_by_position {A : Type} (p : A -> bool) (pre l : list A) :
  List.length
    (filter (fun i => match nth_error (pre ++ l) i with
                      | Some a => p a
                      | None => false
                      end)
            (seq (List.length pre) (List.length l)))
  = List.length (filter p l).
Proof.
  revert pre. induction l as [|a l IH]; intros pre; [reflexivity|].
  cbn [List.length seq filter].
  rewrite nth_error_app2, Nat.sub_diag by lia. cbn [nth_error].
  specialize (IH (pre ++ [a])).
  rewrite <- app_assoc, length_app in IH. cbn [List.length app] in IH.
  rewrite Nat.add_1_r in IH.
  destruct (p a); cbn [List.length]; now rewrite IH.
Qed.

Lemma non_null_count_spec (df : DataFrame) (idx : nat) :
  Waterfall.non_null_count df idx = Spec.non_empty_count df idx.
Proof.
  unfold Waterfall.non_null_count, Spec.non_empty_count.
  destruct (rows df) as [|header_row data]; [reflexivity|].
  cbn [tl]. f_equal.
  replace (List.length (header_row :: data) - 1)%nat with (List.length data)
    by (cbn [List.length]; lia).
  symmetry.
  exact (filter_by_position (fun row => notna (cell row idx)) [header_row] data).
Qed.

Lemma trailing_window_run
    (df : DataFrame) (s e h : nat) (thr : Z) (header_row : list pyval) :
  nth_error (rows df) h = Some header_row ->
  (e <= List.length (columns df))%nat ->
  exists (candidates : list nat) (out : list string) (window : list nat),
    Waterfall.get_all_period_indices df (Some s) (Some e) h = Ret candidates /\
    Waterfall.get_trailing_12_indices_with_data df (Some s) (Some e) h thr
    = (out, Ret window) /\
    let qualifying :=
      filter (fun idx => thr <=? Waterfall.non_null_count df idx) candidates in
    let k := List.length qualifying in
    window = Spec.last_n (Nat.min 12 k) qualifying /\
    List.length window = Nat.min 12 k /\
    (List.length window <= 12)%nat /\
    StronglySorted lt window /\
    Forall (fun idx => thr <= Waterfall.non_null_count df idx) window /\
    ((k < 12)%nat -> window = qualifying /\ out = [degraded_line k]).
Proof.
  intros Hh He.
  pose proof (get_all_period_indices_filter df s e h header_row Hh He) as Hc.
  set (candidates := filter _ _) in Hc.
  pose proof (get_trailing_12_run df s e h thr header_row candidates Hh He Hc) as Hrun.
  cbv zeta in Hrun.
  set (qualifying := filter _ candidates) in *.
  assert (Hsorted : StronglySorted lt qualifying).
  { apply filter_strongly_sorted, filter_strongly_sorted, seq_strongly_sorted. }
  assert (Hthr : Forall (fun idx => thr <= Waterfall.non_null_count df idx) qualifying).
  { apply Forall_forall. intros idx Hidx. apply filter_In in Hidx as [_ Hidx]. lia. }
  destruct (12 <=? List.length qualifying)%nat eqn:Hk.
  - apply Nat.leb_le in Hk.
    exists candidates, [], (last_12 qualifying).
    split; [exact Hc|]. split; [exact Hrun|]. cbv zeta.
    fold qualifying. rewrite Nat.min_l by exact Hk.
    unfold last_12. rewrite last_n_skipn, length_skipn.
    split; [reflexivity|]. split; [lia|]. split; [lia|].
    split; [now apply skipn_strongly_sorted|].
    split; [|lia].
    rewrite Forall_forall in *. intros idx Hidx. apply Hthr.
    rewrite <- (firstn_skipn (List.length qualifying - 12) qualifying).
    apply in_or_app. now right.
  - apply Nat.leb_gt in Hk.
    eexists candidates, _, qualifying.
    split; [exact Hc|]. split; [exact Hrun|]. cbv zeta.
    fold qualifying. rewrite Nat.min_r by lia.
    rewrite last_n_skipn, Nat.sub_diag. simpl skipn.
    repeat split; try assumption; try lia.
Qed.

(** C2: with the count of a column being its number of non-empty cells over
    the data rows, the header row 0 left out, the trailing-window selector
    returns exactly the last [min 12 k] of the [k] candidates whose count
    reaches the threshold: at most 12 columns, in strictly increasing column
    order, each with a count of at least the threshold, and all [k] of them
    when [k < 12] (then with the warning line). *)
Theorem C2_trailing_window
    (df : DataFrame) (s e h : nat) (thr : Z) (header_row : list pyval) :
  nth_error (rows df) h = Some header_row ->
  (e <= List.length (columns df))%nat ->
  exists (candidates : list nat) (out : list string) (window : list nat),
    Waterfall.get_all_period_indices df (Some s) (Some e) h = Ret candidates /\
    Waterfall.get_trailing_12_indices_with_data df (Some s) (Some e) h thr
    = (out, Ret window) /\
    let count := Spec.non_empty_count df in
    let qualifying := filter (fun idx => thr <=? count idx) candidates in
    let k := List.length qualifying in
    window = Spec.last_n (Nat.min 12 k) qualifying /\
    List.length window = Nat.min 12 k /\
    (List.length window <= 12)%nat /\
    StronglySorted lt window /\
    Forall (fun idx => thr <= count idx) window /\
    ((k < 12)%nat -> window = qualifying /\ out = [degraded_line k]).
Proof.
  intros Hh He.
  destruct (trailing_window_run df s e h thr header_row Hh He)
    as (candidates & out & window & Hc & Hrun & H).
  exists candidates, out, window. split; [exact Hc|]. split; [exact Hrun|].
  cbv zeta in *.
  rewrite (filter_ext (fun idx => thr <=? Spec.non_empty_count df idx)
             (fun idx => thr <=? Waterfall.non_null_count df idx))
    by (intros idx; now rewrite non_null_count_spec).
  destruct H as (H1 & H2 & H3 & H4 & H5 & H6).
  repeat (split; [assumption|]). split; [|exact H6].
  eapply Forall_impl; [|exact H5]. intros idx Hidx.
  now rewrite <- non_null_count_spec.
Qed.

(** On the sheet whose five oldest reference columns alone carry data, with
    a threshold of one cell: the header cell of a column is not counted, so
    five columns qualify and not fourteen. *)
Lemma C2_witness :
  exists (candidates : list nat) (out : list string) (window : list nat),
    Waterfall.get_all_period_indices Sample.sparse_reference
      (Some 36%nat) (Some 50%nat) 0 = Ret candidates /\
    Waterfall.get_trailing_12_indices_with_data Sample.sparse_reference
      (Some 36%nat) (Some 50%nat) 0 1 = (out, Ret window) /\
    let count := Spec.non_empty_count Sample.sparse_reference in
    let qualifying := filter (fun idx => 1 <=? count idx) candidates in
    let k := List.length qualifying in
    window = Spec.last_n (Nat.min 12 k) qualifying /\
    List.length window = Nat.min 12 k /\
    (List.length window <= 12)%nat /\
    StronglySorted lt window /\
    Forall (fun idx => 1 <= count idx) window /\
    ((k < 12)%nat -> window = qualifying /\ out = [degraded_line k]).
Proof.
  apply (C2_trailing_window Sample.sparse_reference 36%nat 50%nat 0%nat 1
           Sample.header_row_14).
  - reflexivity.
  - vm_compute. lia.
Defined.

(** ** The header classifier *)

Lemma find_section_loop_fields (cols : list pyval) (sec : Waterfall.sections) (idx : nat) :
  let sec' := Waterfall.find_section_loop sec idx cols in
  Waterfall.arr_start sec'
  = last_match Waterfall.ARR_LABEL idx cols (Waterfall.arr_start sec) /\
  Waterfall.netchange_start sec'
  = last_match Waterfall.NETCHANGE_LABEL idx cols (Waterfall.netchange_start sec) /\
  Waterfall.reason_start sec'
  = last_match Waterfall.REASON_LABEL idx cols (Waterfall.reason_start sec) /\
  Waterfall.filters_start sec'
  = last_match Waterfall.FILTERS_LABEL idx cols (Waterfall.filters_start sec).
Proof.
  revert sec idx. induction cols as [|col cols IH]; intros sec idx; simpl.
  - repeat split.
  - specialize (IH (Waterfall.find_section_step sec idx col) (S idx)).
    simpl in IH. destruct IH as (Ha & Hn & Hr & Hf).
    rewrite Ha, Hn, Hr, Hf. clear Ha Hn Hr Hf.
    unfold Waterfall.find_section_step.
    destruct (String.eqb (py_str col) Waterfall.ARR_LABEL) eqn:E1.
    { apply String.eqb_eq in E1. rewrite E1. repeat split. }
    destruct (String.eqb (py_str col) Waterfall.NETCHANGE_LABEL) eqn:E2.
    { apply String.eqb_eq in E2. rewrite E2. repeat split. }
    destruct (String.eqb (py_str col) Waterfall.REASON_LABEL) eqn:E3.
    { apply String.eqb_eq in E3. rewrite E3. repeat split. }
    destruct (String.eqb (py_str col) Waterfall.FILTERS_LABEL) eqn:E4.
    { repeat split. }
    repeat split.
Qed.

Lemma last_match_some (label : string) (cols : list pyval) (idx : nat)
    (init : option nat) (i : nat) :
  last_match label idx cols init = Some i <->
  ((idx <= i)%nat /\ label_text cols (i - idx) = Some label /\
   forall j, (i - idx < j)%nat -> label_text cols j <> Some label) \/
  (init = Some i /\ forall j, label_text cols j <> Some label).
Proof.
  revert idx init. induction cols as [|col cols IH]; intros idx init; simpl.
  - split.
    + intros ->. right. split; [reflexivity|]. intros j. now destruct j.
    + intros [(_ & H & _)|[H _]]; [|assumption].
      unfold label_text in H. now destruct (i - idx)%nat.
  - rewrite IH. clear IH. unfold label_text.
    destruct (String.eqb (py_str col) label) eqn:E.
    + apply String.eqb_eq in E. split.
      * intros [(Hi & Hl & Hlast)|[[= <-] Hnone]].
        -- left. split; [lia|].
           replace (i - idx)%nat with (S (i - S idx)) by lia. simpl.
           split; [assumption|]. intros [|j] Hj; [lia|]. simpl. apply Hlast. lia.
        -- left. split; [lia|]. rewrite Nat.sub_diag. simpl.
           split; [now rewrite E|]. intros [|j] Hj; [lia|]. simpl. apply Hnone.
      * intros [(Hi & Hl & Hlast)|[_ Hnone]].
        -- destruct (Nat.eq_dec i idx) as [->|Hne].
           ++ right. split; [reflexivity|]. intros j.
              specialize (Hlast (S j)). simpl in Hlast. apply Hlast. lia.
           ++ left. split; [lia|].
              replace (i - idx)%nat with (S (i - S idx)) in Hl, Hlast by lia.
              simpl in Hl. split; [assumption|].
              intros j Hj. specialize (Hlast (S j)). simpl in Hlast. apply Hlast. lia.
        -- exfalso. apply (Hnone 0%nat). simpl. now rewrite E.
    + assert (Hcol : Some (py_str col) <> Some label).
      { intros [= H]. rewrite H, String.eqb_refl in E. discriminate. }
      split.
      * intros [(Hi & Hl & Hlast)|[-> Hnone]].
        -- left. split; [lia|].
           replace (i - idx)%nat with (S (i - S idx)) by lia. simpl.
           split; [assumption|]. intros [|j] Hj; [lia|]. simpl. apply Hlast. lia.
        -- right. split; [reflexivity|]. intros [|j]; simpl; [assumption|apply Hnone].
      * intros [(Hi & Hl & Hlast)|[-> Hnone]].
        -- left. destruct (Nat.eq_dec i idx) as [->|Hne].
           { rewrite Nat.sub_diag in Hl. simpl in Hl. contradiction. }
           split; [lia|].
           replace (i - idx)%nat with (S (i - S idx)) in Hl, Hlast by lia.
           simpl in Hl. split; [assumption|].
           intros j Hj. specialize (Hlast (S j)). simpl in Hlast. apply Hlast. lia.
        -- right. split; [reflexivity|]. intros j. apply (Hnone (S j)).
Qed.

Lemma last_match_none (label : string) (cols : list pyval) (idx : nat) :
  last_match label idx cols None = None <->
  forall j, label_text cols j <> Some label.
Proof.
  split.
  - intros H j Hj.
    assert (Hex : exists i, (j <= i)%nat /\ label_text cols i = Some label /\
                            forall k, (i < k)%nat -> label_text cols k <> Some label).
    { clear H. revert j Hj. induction cols as [|col cols IH] using rev_ind; intros j Hj.
      - unfold label_text in Hj. now destruct j.
      - unfold label_text in *.
        destruct (String.eqb (py_str col) label) eqn:E.
        + exists (List.length cols). apply String.eqb_eq in E.
          assert (Hj' : (j < List.length (cols ++ [col]))%nat).
          { apply nth_error_Some. intros Hn. rewrite Hn in Hj. discriminate. }
          rewrite length_app in Hj'. simpl in Hj'.
          split; [lia|]. split.
          * rewrite nth_error_app2, Nat.sub_diag by lia. simpl. now rewrite E.
          * intros k Hk.
            assert (Hn : nth_error (cols ++ [col]) k = None).
            { apply nth_error_None. rewrite length_app. simpl. lia. }
            rewrite Hn. discriminate.
        + assert (Hlt : (j < List.length cols)%nat).
          { assert (Hj' : (j < List.length (cols ++ [col]))%nat).
            { apply nth_error_Some. intros Hn. rewrite Hn in Hj. discriminate. }
            rewrite length_app in Hj'. simpl in Hj'.
            destruct (Nat.eq_dec j (List.length cols)) as [->|]; [|lia].
            rewrite nth_error_app2, Nat.sub_diag in Hj by lia. simpl in Hj.
            injection Hj as Hj. rewrite Hj, String.eqb_refl in E. discriminate. }
          rewrite nth_error_app1 in Hj by assumption.
          destruct (IH j Hj) as (i & Hi & Hl & Hlast).
          assert (Hil : (i < List.length cols)%nat).
          { apply nth_error_Some. intros Hn. rewrite Hn in Hl. discriminate. }
          exists i. split; [lia|]. split.
          * now rewrite nth_error_app1.
          * intros k Hk. destruct (Nat.lt_ge_cases k (List.length cols)) as [Hkl|Hkl].
            -- rewrite nth_error_app1 by assumption. now apply Hlast.
            -- destruct (Nat.eq_dec k (List.length cols)) as [->|Hne].
               ++ rewrite nth_error_app2, Nat.sub_diag by lia. simpl.
                  intros [= Hc]. rewrite Hc, String.eqb_refl in E. discriminate.
               ++ assert (Hn : nth_error (cols ++ [col]) k = None).
                  { apply nth_error_None. rewrite length_app. simpl. lia. }
                  rewrite Hn. discriminate. }
    destruct Hex as (i & _ & Hl & Hlast).
    assert (Hs : last_match label idx cols None = Some (idx + i)%nat).
    { apply last_match_some. left. split; [lia|].
      replace (idx + i - idx)%nat with i by lia. split; assumption. }
    congruence.
  - intros Hnone. destruct (last_match label idx cols None) as [i|] eqn:H; [|reflexivity].
    apply last_match_some in H as [(_ & Hl & _)|[H _]]; [|discriminate].
    now apply Hnone in Hl.
Qed.

Lemma find_section_indices_fields (cols : list pyval) :
  let sec := Waterfall.find_section_indices cols in
  Waterfall.arr_start sec = last_match Waterfall.ARR_LABEL 0 cols None /\
  Waterfall.netchange_start sec = last_match Waterfall.NETCHANGE_LABEL 0 cols None /\
  Waterfall.reason_start sec = last_match Waterfall.REASON_LABEL 0 cols None /\
  Waterfall.filters_start sec = last_match Waterfall.FILTERS_LABEL 0 cols None.
Proof. apply (find_section_loop_fields cols Waterfall.no_sections 0). Qed.

Lemma last_match_located (label : string) (cols : list pyval) (start : option nat) :
  start = last_match label 0 cols None ->
  (forall idx, start = Some idx <->
               label_text cols idx = Some label /\
               forall j, (idx < j)%nat -> label_text cols j <> Some label) /\
  (start = None <-> forall j, label_text cols j <> Some label).
Proof.
  intros ->. split.
  - intros idx. rewrite last_match_some, Nat.sub_0_r. split.
    + intros [(_ & H1 & H2)|[H _]]; [now split | discriminate].
    + intros [H1 H2]. left. split; [lia|now split].
  - apply last_match_none.
Qed.

Lemma C5_counterexample :
  (Waterfall.arr_start (Waterfall.find_section_indices (columns Sample.sentinel_in_label))
   = Some 0%nat /\
   ~ Spec.located_by_header_cell Sample.sentinel_in_label Waterfall.ARR_LABEL
       (Waterfall.arr_start
          (Waterfall.find_section_indices (columns Sample.sentinel_in_label)))) /\
  (Waterfall.arr_start
     (Waterfall.find_section_indices (columns Sample.sentinel_in_header_row))
   = None /\
   ~ Spec.located_by_header_cell Sample.sentinel_in_header_row Waterfall.ARR_LABEL
       (Waterfall.arr_start
          (Waterfall.find_section_indices (columns Sample.sentinel_in_header_row)))).
Proof.
  split; (split; [reflexivity|]); intros H.
  - destruct (H _ eq_refl) as [H1 _]. specialize (H1 0%nat eq_refl). discriminate.
  - destruct (H _ eq_refl) as [_ H2]. apply (H2 0%nat); [simpl; lia|reflexivity|reflexivity].
Qed.

(** C5, amended: [find_section_indices] locates each section's start by
    exact, case-sensitive equality of the sentinel with the text of the
    column's own label; the header-row cell is not consulted.  The start
    recorded for a sentinel is the last column whose label reads it, and
    [None] exactly when no label does. *)
Theorem C5_sections_located_by_label :
  (forall (cols : list pyval) (label : string) (start : option nat),
      let sec := Waterfall.find_section_indices cols in
      In (label, start)
         [(Waterfall.ARR_LABEL, Waterfall.arr_start sec);
          (Waterfall.NETCHANGE_LABEL, Waterfall.netchange_start sec);
          (Waterfall.REASON_LABEL, Waterfall.reason_start sec);
          (Waterfall.FILTERS_LABEL, Waterfall.filters_start sec)] ->
      (forall idx, start = Some idx <->
                   label_text cols idx = Some label /\
                   forall j, (idx < j)%nat -> label_text cols j <> Some label) /\
      (start = None <-> forall j, label_text cols j <> Some label)) /\
  Waterfall.find_section_indices [PStr "arr by period by product"]
  = Waterfall.no_sections /\
  (forall (df : DataFrame) (other_rows : list (list pyval)),
      found_of {| columns := columns df; rows := other_rows |} = found_of df).
Proof.
  split; [|split; reflexivity].
  intros cols label start sec Hin.
  destruct (find_section_indices_fields cols) as (Ha & Hn & Hr & Hf).
  simpl in Hin.
  destruct Hin as [[= <- <-]|[[= <- <-]|[[= <- <-]|[[= <- <-]|[]]]]];
    apply last_match_located; assumption.
Qed.

Lemma C5_witness :
  let cols := columns Sample.sentinel_in_label in
  let start := Waterfall.arr_start (Waterfall.find_section_indices cols) in
  (forall idx, start = Some idx <->
               label_text cols idx = Some Waterfall.ARR_LABEL /\
               forall j, (idx < j)%nat -> label_text cols j <> Some Waterfall.ARR_LABEL) /\
  (start = None <-> forall j, label_text cols j <> Some Waterfall.ARR_LABEL).
Proof.
  apply (proj1 C5_sections_located_by_label (columns Sample.sentinel_in_label)
           Waterfall.ARR_LABEL).
  simpl. left. reflexivity.
Defined.

Lemma found_in_frame (cols : list pyval) (label : string) (idx : nat) :
  last_match label 0 cols None = Some idx -> (idx < List.length cols)%nat.
Proof.
  intros H. apply last_match_some in H as [(_ & H & _)|[H _]]; [|discriminate].
  rewrite Nat.sub_0_r in H. unfold label_text in H.
  apply nth_error_Some. intros Hn. rewrite Hn in H. discriminate.
Qed.

(** ** The script body *)

Lemma io_bind_ret {A B : Type} (c : io A) (k : A -> io B) (out : list string) (b : B) :
  io_bind c k = (out, Ret b) ->
  exists o1 a o2, c = (o1, Ret a) /\ k a = (o2, Ret b) /\ out = o1 ++ o2.
Proof.
  unfold io_bind. destruct c as [o1 [a|e]]; [|discriminate].
  destruct (k a) as [o2 r] eqn:Hk. intros [= <- ->]. now exists o1, a, o2.
Qed.

Lemma lift_ret {A : Type} (r : result A) (out : list string) (a : A) :
  lift r = (out, Ret a) -> r = Ret a /\ out = [].
Proof. unfold lift. intros [= <- ->]. split; reflexivity. Qed.

Lemma print_ret (line : string) (out : list string) (u : unit) :
  print line = (out, Ret u) -> out = [line].
Proof. unfold print. now intros [= <- _]. Qed.

(** Peels the first statement off a run that returned. *)
Ltac step H :=
  let o1 := fresh "o" in
  let o2 := fresh "o" in
  let a := fresh "v" in
  let Hc := fresh "Hc" in
  apply io_bind_ret in H as (o1 & a & o2 & Hc & H & ->);
  first [ apply print_ret in Hc; subst o1
        | apply lift_ret in Hc as [Hc ->]
        | idtac ].

Lemma map_sections_ret (df : DataFrame) (out : list string) (m : Waterfall.mapped) :
  Waterfall.map_sections df = (out, Ret m) ->
  let sec := Waterfall.find_section_indices (columns df) in
  let pos := Waterfall.relative_start_pos m in
  exists (wout : list string) (first last : nat) (l1 l2 l3 : string),
    Waterfall.found m = sec /\
    Waterfall.get_trailing_12_indices_with_data df
      (Waterfall.arr_start sec) (Waterfall.netchange_start sec) 0 Waterfall.MIN_DATA_ROWS
    = (wout, Ret (Waterfall.arr_indices m)) /\
    Waterfall.get_all_period_indices df
      (Waterfall.arr_start sec) (Waterfall.netchange_start sec) 0
    = Ret (Waterfall.arr_all_periods m) /\
    Waterfall.get_all_period_indices df
      (Waterfall.netchange_start sec) (Waterfall.reason_start sec) 0
    = Ret (Waterfall.netchange_all_periods m) /\
    Waterfall.get_all_period_indices df
      (Waterfall.reason_start sec) (Waterfall.filters_start sec) 0
    = Ret (Waterfall.reason_all_periods m) /\
    py_index (Waterfall.arr_indices m) 0 = Ret first /\
    py_last (Waterfall.arr_indices m) = Ret last /\
    py_list_index (Waterfall.arr_all_periods m) first = Ret pos /\
    Waterfall.netchange_indices m
    = py_slice (Waterfall.netchange_all_periods m) pos (pos + 12) /\
    Waterfall.reason_indices m
    = py_slice (Waterfall.reason_all_periods m) pos (pos + 12) /\
    Waterfall.mapped_line "ARR" (Waterfall.arr_indices m) = Ret l1 /\
    Waterfall.mapped_line "Net Change" (Waterfall.netchange_indices m) = Ret l2 /\
    Waterfall.mapped_line "Change Reason" (Waterfall.reason_indices m) = Ret l3 /\
    out = boundary_lines sec ++ wout ++ offset_lines first last pos ++ [l1; l2; l3].
Proof.
  intros H sec pos. unfold Waterfall.map_sections in H. fold sec in H.
  do 9 step H. step H. do 3 step H. do 3 step H. do 3 step H.
  do 6 step H.
  unfold io_ret in H. injection H as <- <-.
  subst pos.
  cbn [Waterfall.found Waterfall.arr_indices Waterfall.arr_all_periods
       Waterfall.netchange_all_periods Waterfall.reason_all_periods
       Waterfall.relative_start_pos Waterfall.netchange_indices
       Waterfall.reason_indices].
  do 6 eexists.
  repeat (split; [eassumption || reflexivity|]).
  reflexivity.
Qed.

Lemma py_index_raises {A : Type} (l : list A) (i : nat) (e : exn) :
  py_index l i = Raise e -> e = IndexError.
Proof. unfold py_index. destruct (nth_error l i); congruence. Qed.

Lemma get_all_period_indices_none (df : DataFrame) (s e : option nat) (h : nat)
    (header_row : list pyval) :
  nth_error (rows df) h = Some header_row ->
  s = None \/ e = None ->
  Waterfall.get_all_period_indices df s e h = Raise TypeError.
Proof.
  intros Hh Hn. unfold Waterfall.get_all_period_indices, py_index. rewrite Hh. simpl.
  destruct Hn as [->| ->]; [|destruct s]; reflexivity.
Qed.

(** ** The cross-section mapping *)

Lemma py_slice_length {A : Type} (l : list A) (pos : nat) :
  List.length (py_slice l pos (pos + 12)) = Nat.min 12 (List.length l - pos).
Proof.
  unfold py_slice. rewrite length_firstn, length_skipn. f_equal. lia.
Qed.

Lemma py_slice_eq {A : Type} (l : list A) (pos : nat) :
  py_slice l pos (pos + 12) = firstn 12 (skipn pos l).
Proof. unfold py_slice. f_equal. lia. Qed.

Lemma C3_counterexample :
  exists (out : list string) (m : Waterfall.mapped),
    Waterfall.map_sections Sample.sparse_reference = (out, Ret m) /\
    List.length (Waterfall.arr_indices m) = 5%nat /\
    List.length (Waterfall.netchange_indices m) = 12%nat /\
    ~ Spec.aligned_with_reference
        (Waterfall.arr_indices m) (Waterfall.netchange_all_periods m)
        (Waterfall.netchange_indices m) (Waterfall.relative_start_pos m).
Proof.
  eexists. eexists. split; [vm_compute; reflexivity|].
  split; [reflexivity|]. split; [reflexivity|].
  intros [_ H]. vm_compute in H. lia.
Qed.

(** C3, amended: for each section other than the reference, the mapped
    window has 12 columns whenever the section has at least [offset + 12]
    candidates and otherwise the candidates left from the offset on; it never
    has more than 12, so against a full reference window of 12 columns it
    has the same length when the candidates suffice and never more. *)
Theorem C3_mapped_window_length
    (df : DataFrame) (out : list string) (m : Waterfall.mapped)
    (candidates window : list nat) :
  Waterfall.map_sections df = (out, Ret m) ->
  (candidates, window)
    = (Waterfall.netchange_all_periods m, Waterfall.netchange_indices m) \/
  (candidates, window)
    = (Waterfall.reason_all_periods m, Waterfall.reason_indices m) ->
  let offset := Waterfall.relative_start_pos m in
  List.length window = Nat.min 12 (List.length candidates - offset) /\
  ((offset + 12 <= List.length candidates)%nat -> List.length window = 12%nat) /\
  (List.length window <= 12)%nat /\
  (List.length (Waterfall.arr_indices m) = 12%nat ->
   Spec.aligned_with_reference (Waterfall.arr_indices m) candidates window offset).
Proof.
  intros H Hsec offset.
  apply map_sections_ret in H.
  destruct H as (wout & first & last & l1 & l2 & l3 & H).
  destruct H as (_ & _ & _ & _ & _ & _ & _ & _ & Hn & Hr & _).
  assert (Hw : window = py_slice candidates offset (offset + 12)).
  { destruct Hsec as [[= -> ->]|[= -> ->]]; assumption. }
  pose proof (py_slice_length candidates offset) as Hlen. rewrite <- Hw in Hlen.
  unfold Spec.aligned_with_reference. repeat split; intros; lia.
Qed.

Lemma C3_witness :
  exists (out : list string) (m : Waterfall.mapped),
    Waterfall.map_sections Sample.shorter_netchange = (out, Ret m) /\
    let window := Waterfall.netchange_indices m in
    let candidates := Waterfall.netchange_all_periods m in
    let offset := Waterfall.relative_start_pos m in
    List.length window = Nat.min 12 (List.length candidates - offset) /\
    ((offset + 12 <= List.length candidates)%nat -> List.length window = 12%nat) /\
    (List.length window <= 12)%nat /\
    (List.length (Waterfall.arr_indices m) = 12%nat ->
     Spec.aligned_with_reference (Waterfall.arr_indices m) candidates window offset).
Proof.
  evar (out : list string). evar (m : Waterfall.mapped).
  assert (H : Waterfall.map_sections Sample.shorter_netchange = (out, Ret m)).
  { subst out m. vm_compute. reflexivity. }
  exists out, m. split; [exact H|].
  apply (C3_mapped_window_length Sample.shorter_netchange out m _ _ H).
  left. reflexivity.
Defined.

Lemma shorter_netchange_run :
  Waterfall.map_sections Sample.shorter_netchange
  = (Sample.shorter_netchange_output, Ret Sample.shorter_netchange_mapped).
Proof. vm_compute. reflexivity. Qed.

Lemma shorter_netchange_silent : ~ Spec.reports_mismatch Sample.shorter_netchange_output.
Proof.
  intros [line [Hin H]]. simpl in Hin.
  repeat (destruct Hin as [<-|Hin]; [vm_compute in H; destruct H; discriminate|]).
  contradiction.
Qed.

(** An empty mapped window stops the script at the line that prints it. *)
Lemma tiny_netchange_run :
  snd (Waterfall.map_sections Sample.tiny_netchange) = Raise IndexError.
Proof. vm_compute. reflexivity. Qed.

(** What the selection of the reference window prints: nothing, or its
    warning. *)
Lemma selector_output (df : DataFrame) (s e : option nat) (thr : Z)
    (wout : list string) (window : list nat) :
  (forall idx, e = Some idx -> (idx <= List.length (columns df))%nat) ->
  Waterfall.get_trailing_12_indices_with_data df s e 0 thr = (wout, Ret window) ->
  wout = [] \/ wout = [degraded_line (List.length window)].
Proof.
  intros He H.
  destruct (nth_error (rows df) 0) as [header_row|] eqn:Hh.
  2:{ unfold Waterfall.get_trailing_12_indices_with_data,
        Waterfall.get_all_period_indices, py_index in H.
      rewrite Hh in H. discriminate. }
  destruct s as [s|], e as [e|].
  - specialize (He e eq_refl).
    pose proof (get_all_period_indices_filter df s e 0 header_row Hh He) as Hc.
    rewrite (get_trailing_12_run df s e 0 thr header_row _ Hh He Hc) in H.
    match type of H with
    | context [if ?c then _ else _] => destruct c
    end; injection H as <- <-; [left|right]; reflexivity.
  - unfold Waterfall.get_trailing_12_indices_with_data in H.
    rewrite (get_all_period_indices_none df _ None 0 header_row Hh) in H by now right.
    discriminate.
  - unfold Waterfall.get_trailing_12_indices_with_data in H.
    rewrite (get_all_period_indices_none df None _ 0 header_row Hh) in H by now left.
    discriminate.
  - unfold Waterfall.get_trailing_12_indices_with_data in H.
    rewrite (get_all_period_indices_none df None _ 0 header_row Hh) in H by now left.
    discriminate.
Qed.

Lemma C4_counterexample :
  exists (out : list string) (m : Waterfall.mapped),
    Waterfall.map_sections Sample.shorter_netchange = (out, Ret m) /\
    List.length (Waterfall.arr_all_periods m) = 14%nat /\
    List.length (Waterfall.netchange_all_periods m) = 13%nat /\
    (List.length (Waterfall.netchange_all_periods m)
     < Waterfall.relative_start_pos m + 12)%nat /\
    ~ Spec.reports_mismatch out.
Proof.
  exists Sample.shorter_netchange_output, Sample.shorter_netchange_mapped.
  split; [apply shorter_netchange_run|].
  split; [reflexivity|]. split; [reflexivity|]. split; [simpl; lia|].
  apply shorter_netchange_silent.
Qed.

(** C4, amended: whenever a section other than the reference has fewer
    candidates than [offset + 12], its window is cut down to the candidates
    from the offset on; nothing reports the mismatch: once the reference
    window is selected the script prints the offset lines and, for each
    section, its first and last mapped index and its period count; before
    them stands at most the warning of a degraded reference window.  With 14 candidates in the reference, 13 in the net-change
    block and offset 2, the net-change window has 11 periods, the run goes
    on, and no mismatch diagnostic is printed. *)
Theorem C4_truncated_without_diagnostic :
  (forall (df : DataFrame) (out : list string) (m : Waterfall.mapped)
          (candidates window : list nat),
      Waterfall.map_sections df = (out, Ret m) ->
      (candidates, window)
        = (Waterfall.netchange_all_periods m, Waterfall.netchange_indices m) \/
      (candidates, window)
        = (Waterfall.reason_all_periods m, Waterfall.reason_indices m) ->
      let offset := Waterfall.relative_start_pos m in
      ((List.length candidates < offset + 12)%nat ->
       window = skipn offset candidates /\
       List.length window = (List.length candidates - offset)%nat /\
       (List.length window < 12)%nat) /\
      exists (wout : list string) (first last : nat) (l1 l2 l3 : string),
        Waterfall.get_trailing_12_indices_with_data df
          (Waterfall.arr_start (Waterfall.found m))
          (Waterfall.netchange_start (Waterfall.found m)) 0 Waterfall.MIN_DATA_ROWS
        = (wout, Ret (Waterfall.arr_indices m)) /\
        (wout = [] \/
         wout = [degraded_line (List.length (Waterfall.arr_indices m))]) /\
        Waterfall.mapped_line "ARR" (Waterfall.arr_indices m) = Ret l1 /\
        Waterfall.mapped_line "Net Change" (Waterfall.netchange_indices m) = Ret l2 /\
        Waterfall.mapped_line "Change Reason" (Waterfall.reason_indices m) = Ret l3 /\
        out = boundary_lines (Waterfall.found m) ++ wout
              ++ offset_lines first last offset ++ [l1; l2; l3]) /\
  (exists (out : list string) (m : Waterfall.mapped),
      Waterfall.map_sections Sample.shorter_netchange = (out, Ret m) /\
      List.length (Waterfall.arr_all_periods m) = 14%nat /\
      List.length (Waterfall.netchange_all_periods m) = 13%nat /\
      Waterfall.relative_start_pos m = 2%nat /\
      List.length (Waterfall.netchange_indices m) = 11%nat /\
      ~ Spec.reports_mismatch out).
Proof.
  split.
  - intros df out m candidates window H Hsec offset.
    apply map_sections_ret in H.
    destruct H as (wout & first & last & l1 & l2 & l3 & H).
    destruct H as (Hf & Hw & _ & _ & _ & _ & _ & _ & Hn & Hr & H1 & H2 & H3 & Hout).
    assert (Hwin : window = py_slice candidates offset (offset + 12)).
    { destruct Hsec as [[= -> ->]|[= -> ->]]; assumption. }
    split.
    + intros Hshort.
      pose proof (py_slice_length candidates offset) as Hlen. rewrite <- Hwin in Hlen.
      split; [|lia].
      rewrite Hwin, py_slice_eq. apply firstn_all2. rewrite length_skipn. lia.
    + exists wout, first, last, l1, l2, l3. rewrite Hf.
      split; [exact Hw|]. split; [|auto].
      apply (selector_output df _ _ _ _ _ (fun idx Hidx => Nat.lt_le_incl _ _
               (found_in_frame (columns df) Waterfall.NETCHANGE_LABEL idx
                  (eq_trans (eq_sym (proj1 (proj2
                     (find_section_indices_fields (columns df))))) Hidx))) Hw).
  - exists Sample.shorter_netchange_output, Sample.shorter_netchange_mapped.
    split; [apply shorter_netchange_run|].
    repeat (split; [reflexivity|]). apply shorter_netchange_silent.
Qed.

Lemma C4_witness :
  let m := Sample.shorter_netchange_mapped in
  let offset := Waterfall.relative_start_pos m in
  let candidates := Waterfall.netchange_all_periods m in
  let window := Waterfall.netchange_indices m in
  ((List.length candidates < offset + 12)%nat ->
   window = skipn offset candidates /\
   List.length window = (List.length candidates - offset)%nat /\
   (List.length window < 12)%nat) /\
  exists (wout : list string) (first last : nat) (l1 l2 l3 : string),
    Waterfall.get_trailing_12_indices_with_data Sample.shorter_netchange
      (Waterfall.arr_start (Waterfall.found m))
      (Waterfall.netchange_start (Waterfall.found m)) 0 Waterfall.MIN_DATA_ROWS
    = (wout, Ret (Waterfall.arr_indices m)) /\
    (wout = [] \/ wout = [degraded_line (List.length (Waterfall.arr_indices m))]) /\
    Waterfall.mapped_line "ARR" (Waterfall.arr_indices m) = Ret l1 /\
    Waterfall.mapped_line "Net Change" (Waterfall.netchange_indices m) = Ret l2 /\
    Waterfall.mapped_line "Change Reason" (Waterfall.reason_indices m) = Ret l3 /\
    Sample.shorter_netchange_output
    = boundary_lines (Waterfall.found m) ++ wout
      ++ offset_lines first last offset ++ [l1; l2; l3].
Proof.
  apply (proj1 C4_truncated_without_diagnostic Sample.shorter_netchange
           Sample.shorter_netchange_output Sample.shorter_netchange_mapped
           (Waterfall.netchange_all_periods Sample.shorter_netchange_mapped)
           (Waterfall.netchange_indices Sample.shorter_netchange_mapped)).
  - vm_compute. reflexivity.
  - left. reflexivity.
Defined.

(** ** A missing sentinel *)

Lemma snd_bind_print {B : Type} (line : string) (k : unit -> io B) :
  snd (io_bind (print line) k) = snd (k tt).
Proof. unfold io_bind, print. now destruct (k tt). Qed.

Lemma fst_bind_print {B : Type} (line : string) (k : unit -> io B) :
  fst (io_bind (print line) k) = line :: fst (k tt).
Proof. unfold io_bind, print. now destruct (k tt). Qed.

Lemma snd_bind_ret {A B : Type} (o : list string) (a : A) (k : A -> io B) :
  snd (io_bind (o, Ret a) k) = snd (k a).
Proof. unfold io_bind. now destruct (k a). Qed.

Lemma snd_bind_raise {A B : Type} (c : io A) (k : A -> io B) (e : exn) :
  snd c = Raise e -> snd (io_bind c k) = Raise e /\ fst (io_bind c k) = fst c.
Proof. destruct c as [o r]. simpl. intros ->. split; reflexivity. Qed.

(** The exception that ends the script when a sentinel is missing. *)
Lemma map_sections_missing (df : DataFrame) :
  let sec := found_of df in
  Waterfall.arr_start sec = None \/ Waterfall.netchange_start sec = None \/
  Waterfall.reason_start sec = None \/ Waterfall.filters_start sec = None ->
  snd (Waterfall.map_sections df)
  = Raise (if (List.length (columns df) <? 36)%nat then IndexError
           else match rows df with [] => IndexError | _ => TypeError end) /\
  firstn 5 (fst (Waterfall.map_sections df)) = firstn 5 (boundary_lines sec).
Proof.
  intros sec Hmiss. unfold Waterfall.map_sections. fold (found_of df). fold sec.
  split; [|rewrite !fst_bind_print; reflexivity].
  rewrite !snd_bind_print. unfold lift.
  destruct (List.length (columns df) <? 36)%nat eqn:Hlen.
  - apply Nat.ltb_lt in Hlen.
    assert (H35 : py_index (columns df) 35 = Raise IndexError).
    { unfold py_index.
      destruct (nth_error (columns df) 35) eqn:Hn; [|reflexivity].
      assert (nth_error (columns df) 35 <> None) as Hs by congruence.
      apply nth_error_Some in Hs. lia. }
    destruct (py_index (columns df) 0) as [v0|e0] eqn:H0.
    2:{ apply py_index_raises in H0. now subst e0. }
    rewrite snd_bind_ret.
    destruct (py_index (columns df) 1) as [v1|e1] eqn:H1.
    2:{ apply py_index_raises in H1. now subst e1. }
    rewrite snd_bind_ret, H35. reflexivity.
  - apply Nat.ltb_ge in Hlen.
    assert (Hcol : forall i, (i <= 35)%nat -> exists v, py_index (columns df) i = Ret v).
    { intros i Hi. unfold py_index. destruct (nth_error (columns df) i) eqn:Hn.
      - eauto.
      - apply nth_error_None in Hn. lia. }
    destruct (Hcol 0%nat) as [v0 ->]; [lia|]. rewrite snd_bind_ret.
    destruct (Hcol 1%nat) as [v1 ->]; [lia|]. rewrite snd_bind_ret.
    destruct (Hcol 35%nat) as [v35 ->]; [lia|]. rewrite snd_bind_ret.
    rewrite snd_bind_print.
    destruct (rows df) as [|header_row data] eqn:Hrows.
    + apply snd_bind_raise.
      unfold Waterfall.get_trailing_12_indices_with_data,
        Waterfall.get_all_period_indices, py_index.
      rewrite Hrows. reflexivity.
    + assert (Hh : nth_error (rows df) 0 = Some header_row) by now rewrite Hrows.
      destruct (find_section_indices_fields (columns df)) as (Ha & Hn & Hr & Hf).
      fold (found_of df) in Ha, Hn, Hr, Hf. fold sec in Ha, Hn, Hr, Hf.
      destruct (Waterfall.arr_start sec) as [a|] eqn:Ea.
      2:{ apply snd_bind_raise. unfold Waterfall.get_trailing_12_indices_with_data.
          rewrite (get_all_period_indices_none df None _ 0 header_row Hh) by now left.
          reflexivity. }
      destruct (Waterfall.netchange_start sec) as [b|] eqn:Eb.
      2:{ apply snd_bind_raise. unfold Waterfall.get_trailing_12_indices_with_data.
          rewrite (get_all_period_indices_none df _ None 0 header_row Hh) by now right.
          reflexivity. }
      symmetry in Hn. apply found_in_frame in Hn.
      pose proof (get_all_period_indices_filter df a b 0 header_row Hh
                    (Nat.lt_le_incl _ _ Hn)) as Hcand.
      pose proof (get_trailing_12_run df a b 0 Waterfall.MIN_DATA_ROWS header_row _ Hh
                    (Nat.lt_le_incl _ _ Hn) Hcand) as Hrun.
      cbv zeta in Hrun. rewrite Hrun, Hcand.
      match goal with
      | |- context [if ?c then _ else _] => destruct c
      end; rewrite !snd_bind_ret.
      all: destruct (Waterfall.reason_start sec) as [c|] eqn:Ec;
        [|rewrite (get_all_period_indices_none df _ None 0 header_row Hh) by (now right);
          reflexivity].
      all: symmetry in Hr; apply found_in_frame in Hr;
        rewrite (get_all_period_indices_filter df b c 0 header_row Hh
                   (Nat.lt_le_incl _ _ Hr)), snd_bind_ret.
      all: destruct (Waterfall.filters_start sec) as [d|] eqn:Ed;
        [exfalso; intuition discriminate|].
      all: rewrite (get_all_period_indices_none df _ None 0 header_row Hh) by (now right);
        reflexivity.
Qed.

Lemma C6_counterexample :
  found_of Sample.without_filters
  = {| Waterfall.arr_start := Some 36%nat;
       Waterfall.netchange_start := Some 50%nat;
       Waterfall.reason_start := Some 64%nat;
       Waterfall.filters_start := None |} /\
  Waterfall.main Sample.without_filters
  = ([nl ++ "Section boundaries detected:";
      "  ARR starts at column index: 36";
      "  Net Change starts at column index: 50";
      "  Change Reason starts at column index: 64";
      "  Filters starts at column index: None";
      nl ++ "Finding trailing 12 periods with significant data (min 1,000 rows)..."]%string,
     Raise TypeError).
Proof. split; vm_compute; reflexivity. Qed.

(** C6, amended: when a sentinel label is absent from the column labels,
    [find_section_indices] does not fail: it returns its result with that
    entry [None]; the script prints the boundaries found, that [None]
    included, and then stops without building any sheet, on the
    [TypeError] that [range()] raises for [None] (on an [IndexError] when
    the sheet has fewer than 36 columns or no row). *)
Theorem C6_missing_sentinel_stops_the_script (df : DataFrame) :
  let sec := found_of df in
  Waterfall.arr_start sec = None \/ Waterfall.netchange_start sec = None \/
  Waterfall.reason_start sec = None \/ Waterfall.filters_start sec = None ->
  exists (out : list string) (e : exn),
    Waterfall.main df = (out, Raise e) /\
    e = (if (List.length (columns df) <? 36)%nat then IndexError
         else match rows df with [] => IndexError | _ => TypeError end) /\
    firstn 5 out = firstn 5 (boundary_lines sec).
Proof.
  intros sec Hmiss.
  destruct (map_sections_missing df Hmiss) as [He Hout].
  set (e := if (List.length (columns df) <? 36)%nat then IndexError
            else match rows df with [] => IndexError | _ => TypeError end) in *.
  assert (Hrun : snd (Waterfall.main df) = Raise e /\
                 fst (Waterfall.main df) = fst (Waterfall.map_sections df)).
  { unfold Waterfall.main. apply snd_bind_raise. exact He. }
  destruct (Waterfall.main df) as [out r]. simpl in Hrun. destruct Hrun as [-> ->].
  exists (fst (Waterfall.map_sections df)), e.
  split; [reflexivity|]. split; [reflexivity|]. exact Hout.
Qed.

Lemma C6_witness :
  exists (out : list string) (e : exn),
    Waterfall.main Sample.without_filters = (out, Raise e) /\
    e = (if (List.length (columns Sample.without_filters) <? 36)%nat then IndexError
         else match rows Sample.without_filters with
              | [] => IndexError
              | _ => TypeError
              end) /\
    firstn 5 out = firstn 5 (boundary_lines (found_of Sample.without_filters)).
Proof.
  apply (C6_missing_sentinel_stops_the_script Sample.without_filters).
  right. right. right. vm_compute. reflexivity.
Defined.

(** ** The start period *)

Lemma py_int_digit (c : ascii) (d : Z) :
  digit_of c = Some d -> py_int (String c EmptyString) = Ret d.
Proof.
  destruct c as [[] [] [] [] [] [] [] []]; vm_compute; intros [= <-]; reflexivity.
Qed.

Lemma year_and_month_single (year_text : string) (c : ascii) (year month : Z) :
  contains_dot year_text = false ->
  py_int year_text = Ret year ->
  digit_of c = Some month ->
  Waterfall.year_and_month (year_text ++ String dot (String c EmptyString))
  = Ret (year, month).
Proof.
  intros Hdot Hy Hc. unfold Waterfall.year_and_month.
  rewrite (split_dot_app _ _ Hdot).
  assert (Hseg : split_dot (String c EmptyString) = [String c EmptyString]).
  { simpl. destruct (Ascii.eqb c dot) eqn:E; [|reflexivity].
    apply Ascii.eqb_eq in E. subst c. discriminate. }
  rewrite Hseg. simpl. rewrite Hy. simpl. rewrite (py_int_digit c month Hc). reflexivity.
Qed.

Lemma C1_counterexample :
  Spec.single_character_month "2025.1" /\
  Waterfall.detect_start_period_from_first_value (PStr "2025.1") = Ret (2025, 1) /\
  ~ Spec.flagged (Waterfall.detect_start_period_from_first_value (PStr "2025.1")) /\
  py_float "2025.10" = py_float "2025.1" /\
  Waterfall.detect_start_period_from_first_value Sample.october_2025 = Ret (2025, 1) /\
  ~ Spec.flagged (Waterfall.detect_start_period_from_first_value Sample.october_2025).
Proof.
  split; [exists "2025", "1"%char; split; reflexivity|].
  split; [reflexivity|]. split; [intros [e He]; discriminate|].
  split; [vm_compute; reflexivity|].
  split; [reflexivity|]. intros [e He]. discriminate.
Qed.

(** C1, amended: [detect_start_period_from_first_value] takes no anchor and
    flags nothing: for a cell whose text is a year, the separator and a
    single digit, it returns that year with the digit as the month, read
    verbatim.  The text [2025.1] resolves to (2025, 1), January, and not to
    (2025, 10). *)
Theorem C1_single_digit_month_read_verbatim :
  (forall (period_val : pyval) (year_text : string) (c : ascii) (year month : Z),
      text_form period_val = Some (year_text ++ String dot (String c EmptyString))%string ->
      contains_dot year_text = false ->
      py_int year_text = Ret year ->
      digit_of c = Some month ->
      Waterfall.detect_start_period_from_first_value period_val = Ret (year, month)) /\
  Waterfall.detect_start_period_from_first_value (PStr "2025.1") = Ret (2025, 1) /\
  Waterfall.detect_start_period_from_first_value (PStr "2025.1") <> Ret (2025, 10).
Proof.
  split; [|split; [reflexivity|discriminate]].
  intros period_val year_text c year month Htext Hdot Hy Hc.
  pose proof (year_and_month_single year_text c year month Hdot Hy Hc) as H.
  destruct period_val as [n|x repr|s|]; simpl in Htext; try discriminate;
    injection Htext as Htext; unfold Waterfall.detect_start_period_from_first_value.
  - rewrite Htext, contains_dot_app. exact H.
  - rewrite Htext, contains_dot_app. exact H.
  - rewrite Htext. exact H.
Qed.

Lemma C1_witness :
  Waterfall.detect_start_period_from_first_value Sample.october_2025 = Ret (2025, 1).
Proof.
  apply (proj1 C1_single_digit_month_read_verbatim Sample.october_2025 "2025" "1"%char).
  - reflexivity.
  - reflexivity.
  - reflexivity.
  - reflexivity.
Defined.

(** ** Printing and reading integers *)

Lemma digit_not_space (c : ascii) : is_digit c = true -> is_space c = false.
Proof. destruct c as [[] [] [] [] [] [] [] []]; vm_compute; congruence. Qed.

Lemma digit_not_sign (c : ascii) (l : list ascii) :
  is_digit c = true -> take_sign (c :: l) = (false, c :: l).
Proof. destruct c as [[] [] [] [] [] [] [] []]; vm_compute; congruence. Qed.

Lemma lstrip_digit (c : ascii) (l : list ascii) :
  is_digit c = true -> lstrip (c :: l) = c :: l.
Proof. intros H. simpl. now rewrite (digit_not_space c H). Qed.

Lemma strip_digits (l : list ascii) :
  Forall (fun c => is_digit c = true) l -> strip l = l.
Proof.
  intros H. unfold strip.
  assert (Hl : forall l', Forall (fun c => is_digit c = true) l' -> lstrip l' = l').
  { intros [|c l'] H'; [reflexivity|]. inversion H'. now apply lstrip_digit. }
  rewrite (Hl l H), (Hl (List.rev l)), rev_involutive; [reflexivity|].
  apply Forall_rev. exact H.
Qed.

Lemma more_digits_digits (l : list ascii) (acc cnt : Z) :
  Forall (fun c => is_digit c = true) l ->
  more_digits acc cnt l = (digits_value acc l, cnt + Z.of_nat (List.length l), []).
Proof.
  intros H. revert acc cnt. induction H as [|c l Hc _ IH]; intros acc cnt.
  - simpl. now rewrite Z.add_0_r.
  - unfold is_digit in Hc. cbn [more_digits digits_value fold_left].
    destruct (digit_of c) as [d|]; [|discriminate].
    rewrite IH. unfold digits_value. cbn [List.length]. do 2 f_equal. lia.
Qed.

Lemma py_int_digits (s : string) :
  s <> EmptyString ->
  Forall (fun c => is_digit c = true) (list_ascii_of_string s) ->
  py_int s = Ret (digits_value 0 (list_ascii_of_string s)).
Proof.
  intros Hne H. unfold py_int. rewrite (strip_digits _ H).
  destruct s as [|c s]; [congruence|]. simpl list_ascii_of_string in *.
  inversion H as [|c' l' Hc Hl]; subst.
  rewrite (digit_not_sign c _ Hc). unfold take_digitpart.
  pose proof (more_digits_digits (c :: list_ascii_of_string s) 0 0 H) as Hm.
  cbn [more_digits] in Hm. unfold is_digit in Hc.
  destruct (digit_of c) as [d|]; [|discriminate].
  change (0 + 1) with 1 in Hm. rewrite Hm. reflexivity.
Qed.

Lemma list_ascii_app (s1 s2 : string) :
  list_ascii_of_string (s1 ++ s2) = list_ascii_of_string s1 ++ list_ascii_of_string s2.
Proof. induction s1 as [|c s1 IH]; simpl; [reflexivity|now rewrite IH]. Qed.

Lemma uint_digits (d : Decimal.uint) :
  Forall (fun c => is_digit c = true)
         (list_ascii_of_string (DecimalString.NilEmpty.string_of_uint d)).
Proof. induction d; simpl; constructor; (reflexivity || assumption). Qed.

Lemma uint_digits_value (d : Decimal.uint) (acc : Z) :
  digits_value acc (list_ascii_of_string (DecimalString.NilEmpty.string_of_uint d))
  = uint_value d acc.
Proof.
  revert acc. induction d; intros acc; simpl; try reflexivity;
    unfold digits_value in *; simpl; rewrite IHd; f_equal; lia.
Qed.

Lemma uint_value_pos (d : Decimal.uint) (p : positive) :
  uint_value d (Zpos p) = Zpos (Pos.of_uint_acc d p).
Proof.
  revert p. induction d; intros p; cbn [uint_value Pos.of_uint_acc]; try reflexivity;
    rewrite <- IHd; f_equal; lia.
Qed.

Lemma uint_value_0 (d : Decimal.uint) : uint_value d 0 = Z.of_uint d.
Proof.
  unfold Z.of_uint. induction d; simpl; try reflexivity; try assumption;
    apply uint_value_pos.
Qed.

Lemma str_int_digits (y : Z) :
  0 <= y ->
  str_int y <> EmptyString /\
  Forall (fun c => is_digit c = true) (list_ascii_of_string (str_int y)) /\
  digits_value 0 (list_ascii_of_string (str_int y)) = y.
Proof.
  intros Hy. unfold str_int. pose proof (DecimalZ.of_to y) as Hof.
  destruct (Z.to_int y) as [d|d] eqn:Hd.
  - simpl in Hof. unfold DecimalString.NilZero.string_of_int,
      DecimalString.NilZero.string_of_uint.
    destruct d.
    1:{ simpl in Hof. subst y. split; [discriminate|]. split; [|reflexivity].
        repeat constructor. }
    all: (split; [discriminate|]); (split; [apply uint_digits|]);
      rewrite uint_digits_value, uint_value_0; exact Hof.
  - destruct y; simpl in Hd; try discriminate. lia.
Qed.

Lemma repeat_zero_digits (k : nat) (s : string) :
  Forall (fun c => is_digit c = true) (list_ascii_of_string s) ->
  Forall (fun c => is_digit c = true) (list_ascii_of_string (repeat_str "0" k ++ s)) /\
  digits_value 0 (list_ascii_of_string (repeat_str "0" k ++ s))
  = digits_value 0 (list_ascii_of_string s).
Proof.
  intros H. induction k as [|k [IH1 IH2]]; simpl; [now split|].
  split; [constructor; [reflexivity|assumption]|].
  unfold digits_value in *. simpl. exact IH2.
Qed.

Lemma fmt_0d_digits (w : nat) (y : Z) :
  0 <= y ->
  fmt_0d w y <> EmptyString /\
  Forall (fun c => is_digit c = true) (list_ascii_of_string (fmt_0d w y)) /\
  digits_value 0 (list_ascii_of_string (fmt_0d w y)) = y.
Proof.
  intros Hy. destruct (str_int_digits y Hy) as (Hne & Hd & Hv).
  unfold fmt_0d. destruct (y <? 0) eqn:Hneg; [apply Z.ltb_lt in Hneg; lia|].
  unfold zero_pad.
  destruct (repeat_zero_digits (w - String.length (str_int y)) (str_int y) Hd)
    as [Hd' Hv'].
  split; [|split; [exact Hd'|now rewrite Hv']].
  intros Hempty. destruct (str_int y) as [|c s] eqn:Hs; [congruence|].
  destruct (w - String.length (String c s))%nat; discriminate.
Qed.

Lemma py_int_fmt_0d (w : nat) (y : Z) : 0 <= y -> py_int (fmt_0d w y) = Ret y.
Proof.
  intros Hy. destruct (fmt_0d_digits w y Hy) as (Hne & Hd & Hv).
  now rewrite (py_int_digits _ Hne Hd), Hv.
Qed.

Lemma digits_no_dot (s : string) :
  Forall (fun c => is_digit c = true) (list_ascii_of_string s) ->
  contains_dot s = false /\ split_dot s = [s].
Proof.
  induction s as [|c s IH]; simpl; intros H; [now split|].
  inversion H as [|c' l' Hc Hl]; subst. destruct (IH Hl) as [IH1 IH2].
  assert (Hdot : Ascii.eqb c dot = false).
  { destruct (Ascii.eqb c dot) eqn:E; [|reflexivity].
    apply Ascii.eqb_eq in E. subst c. discriminate. }
  rewrite Hdot, IH1, IH2. now split.
Qed.

(** ** The last day of the month *)

Lemma isleap_spec (y : Z) : Final.isleap y = true <-> Spec.leap_year y.
Proof.
  unfold Final.isleap, Spec.leap_year.
  rewrite andb_true_iff, orb_true_iff, negb_true_iff, !Z.eqb_eq, Z.eqb_neq.
  rewrite <- !Z.mod_divide by lia. tauto.
Qed.

Lemma monthrange_days_last (y m : Z) :
  1 <= m <= 12 ->
  exists d, Final.monthrange_days y m = Ret d /\ Spec.last_calendar_day y m d /\ 0 <= d.
Proof.
  intros Hm. unfold Final.monthrange_days, Spec.last_calendar_day.
  assert (Hcases : m = 1 \/ m = 2 \/ m = 3 \/ m = 4 \/ m = 5 \/ m = 6 \/ m = 7 \/
                   m = 8 \/ m = 9 \/ m = 10 \/ m = 11 \/ m = 12) by lia.
  destruct Hcases as [->|[->|[->|[->|[->|[->|[->|[->|[->|[->|[->| ->]]]]]]]]]]];
    try (eexists; split; [reflexivity|]; split; [|simpl; lia];
         first [ left; split; [simpl; lia|reflexivity]
               | right; left; split; [simpl; lia|reflexivity] ]).
  simpl. destruct (Final.isleap y) eqn:E.
  - exists 29. split; [reflexivity|]. split; [|lia].
    right. right. left. apply isleap_spec in E. auto.
  - exists 28. split; [reflexivity|]. split; [|lia].
    right. right. right. split; [reflexivity|]. split; [|reflexivity].
    intros H. apply isleap_spec in H. congruence.
Qed.

(** [int()] and the zero-padded format agree on negative numbers too. *)
Lemma py_int_minus_digits (s : string) :
  s <> EmptyString ->
  Forall (fun c => is_digit c = true) (list_ascii_of_string s) ->
  py_int (String "-" s) = Ret (- digits_value 0 (list_ascii_of_string s)).
Proof.
  intros Hne H. unfold py_int.
  destruct s as [|c s]; [congruence|].
  cbn [list_ascii_of_string] in *.
  set (l := list_ascii_of_string s) in *.
  assert (Hstrip : strip ("-"%char :: c :: l) = "-"%char :: c :: l).
  { unfold strip.
    change (lstrip ("-"%char :: c :: l)) with ("-"%char :: c :: l).
    assert (Hrev : exists d t, List.rev (c :: l) = d :: t /\ is_digit d = true).
    { destruct (List.rev (c :: l)) as [|d t] eqn:E.
      - apply (f_equal (@List.length ascii)) in E. rewrite length_rev in E. discriminate.
      - exists d, t. split; [reflexivity|].
        rewrite Forall_forall in H. apply H. apply in_rev. rewrite E. now left. }
    destruct Hrev as (d & t & Hrev & Hd).
    change (List.rev ("-"%char :: c :: l)) with (List.rev (c :: l) ++ ["-"%char]).
    rewrite Hrev. cbn [app]. rewrite (lstrip_digit d _ Hd).
    change (d :: t ++ ["-"%char]) with ((d :: t) ++ ["-"%char]). rewrite <- Hrev.
    rewrite rev_app_distr, rev_involutive. reflexivity. }
  rewrite Hstrip. cbn [take_sign]. unfold take_digitpart.
  pose proof (more_digits_digits (c :: l) 0 0 H) as Hm.
  cbn [more_digits] in Hm. inversion H as [|c' l' Hc Hl]; subst.
  unfold is_digit in Hc. destruct (digit_of c) as [d|]; [|discriminate].
  change (0 + 1) with 1 in Hm. rewrite Hm. reflexivity.
Qed.

Lemma fmt_0d_negative (w : nat) (y : Z) :
  y < 0 ->
  exists s,
    fmt_0d w y = String "-" s /\ s <> EmptyString /\
    Forall (fun c => is_digit c = true) (list_ascii_of_string s) /\
    digits_value 0 (list_ascii_of_string s) = - y.
Proof.
  intros Hy. unfold fmt_0d. apply Z.ltb_lt in Hy as Hneg. rewrite Hneg.
  apply Z.ltb_lt in Hneg.
  destruct (str_int_digits (- y)) as (Hne & Hd & Hv); [lia|].
  destruct (repeat_zero_digits ((w - 1) - String.length (str_int (- y)))
              (str_int (- y)) Hd) as [Hd' Hv'].
  exists (zero_pad (w - 1) (str_int (- y))). unfold zero_pad.
  split; [reflexivity|]. split; [|split; [exact Hd'|now rewrite Hv']].
  intros Hempty. destruct (str_int (- y)) as [|c s] eqn:Hs; [congruence|].
  destruct ((w - 1) - String.length (String c s))%nat; discriminate.
Qed.

Lemma py_int_fmt_0d_signed (w : nat) (y : Z) : py_int (fmt_0d w y) = Ret y.
Proof.
  destruct (Z.lt_ge_cases y 0) as [Hy|Hy]; [|now apply py_int_fmt_0d].
  destruct (fmt_0d_negative w y Hy) as (s & -> & Hne & Hd & Hv).
  rewrite (py_int_minus_digits s Hne Hd), Hv. f_equal. lia.
Qed.

Lemma fmt_0d_no_dot (w : nat) (y : Z) :
  contains_dot (fmt_0d w y) = false /\ split_dot (fmt_0d w y) = [fmt_0d w y].
Proof.
  destruct (Z.lt_ge_cases y 0) as [Hy|Hy].
  - destruct (fmt_0d_negative w y Hy) as (s & -> & _ & Hd & _).
    destruct (digits_no_dot s Hd) as [H1 H2].
    cbn [contains_dot split_dot].
    change (Ascii.eqb "-"%char dot) with false. cbn [orb].
    rewrite H1, H2. now split.
  - destruct (fmt_0d_digits w y Hy) as (_ & Hd & _). now apply digits_no_dot.
Qed.

Lemma C9_counterexample :
  Spec.canonical_period 2024 2 = "2024_02" /\
  Final.period_to_last_day (Spec.canonical_period 2024 2) = Raise ValueError /\
  Final.period_to_last_day (Spec.canonical_period 2025 2) = Raise ValueError /\
  ~ (forall y m : Z,
        1 <= m <= 12 ->
        exists d,
          Spec.last_calendar_day y m d /\
          Final.period_to_last_day (Spec.canonical_period y m)
          = Ret (date_text y m d)).
Proof.
  split; [reflexivity|]. split; [reflexivity|]. split; [reflexivity|].
  intros H. destruct (H 2024 2) as (d & _ & Hd); [lia|]. discriminate.
Qed.

(** C9: for every year and every month 1-12, the period written with the
    separator the function splits on, [YYYY.MM], is rendered as the date of
    the last calendar day of that month, leap Februaries included:
    [2024.02] renders to the 29th and [2025.02] to the 28th. *)
Theorem C9_period_to_last_day :
  (forall y m : Z,
      1 <= m <= 12 ->
      exists d,
        Spec.last_calendar_day y m d /\
        Final.period_to_last_day (period_text y m) = Ret (date_text y m d)) /\
  Final.period_to_last_day "2024.02" = Ret "2024-02-29" /\
  Final.period_to_last_day "2025.02" = Ret "2025-02-28".
Proof.
  split; [|split; reflexivity].
  intros y m Hm.
  destruct (monthrange_days_last y m Hm) as (d & Hd & Hlast & _).
  exists d. split; [exact Hlast|].
  unfold Final.period_to_last_day, period_text.
  rewrite (split_dot_app _ _ (proj1 (fmt_0d_no_dot 4 y))).
  rewrite (proj2 (fmt_0d_no_dot 2 m)).
  rewrite (py_int_fmt_0d_signed 4 y). cbn [bind].
  rewrite (py_int_fmt_0d_signed 2 m). cbn [bind].
  rewrite Hd. reflexivity.
Qed.

Lemma C9_witness :
  exists d,
    Spec.last_calendar_day 2024 2 d /\
    Final.period_to_last_day (period_text 2024 2) = Ret (date_text 2024 2 d).
Proof.
  apply (proj1 C9_period_to_last_day 2024 2); lia.
Defined.

(** ** The rows of the output sheets *)



Lemma bind_ret {A B : Type} (r : result A) (k : A -> result B) (b : B) :
  bind r k = Ret b -> exists a, r = Ret a /\ k a = Ret b.
Proof. destruct r as [a|e]; simpl; [eauto|discriminate]. Qed.




Lemma insert_sorted_permutation (r : Final.record) (l : list Final.record) :
  Permutation (r :: l) (Sample.insert_sorted r l).
Proof.
  induction l as [|r' l IH]; simpl; [reflexivity|].
  destruct (Sample.before r r'); [reflexivity|].
  rewrite perm_swap. now apply perm_skip.
Qed.

Lemma sample_sort_permutes (l1 l2 : list Final.record) :
  Sample.sort_values l1 = Ret l2 -> Permutation l1 l2.
Proof.
  unfold Sample.sort_values. intros [= <-].
  induction l1 as [|r l1 IH]; simpl; [reflexivity|].
  rewrite <- insert_sorted_permutation. now apply perm_skip.
Qed.




(** * Further properties of the two scripts *)

(** ** [calculate_period_names] *)

(** X1: [calculate_period_names] returns [count] names, and its [i]-th name
    is the month [i] months after the start, written with a month between 01
    and 12; a start month outside 1-12 is rolled into the year. *)
Theorem X1_period_names_consecutive (y m : Z) (count i : nat) :
  List.length (Waterfall.calculate_period_names y m count) = count /\
  ((i < count)%nat ->
   exists Y M,
     nth_error (Waterfall.calculate_period_names y m count) i
     = Some (str_int Y ++ "_" ++ fmt_0d 2 M)%string /\
     1 <= M <= 12 /\
     12 * Y + M = 12 * y + m + Z.of_nat i).
Proof.
  unfold Waterfall.calculate_period_names. split.
  - now rewrite length_map, length_seq.
  - intros Hi.
    exists ((y * 12 + m - 1 + Z.of_nat i) / 12), ((y * 12 + m - 1 + Z.of_nat i) mod 12 + 1).
    split.
    + rewrite nth_error_map, nth_error_seq.
      destruct (Nat.ltb_spec i count) as [_|Hge]; [reflexivity|lia].
    + pose proof (Z.div_mod (y * 12 + m - 1 + Z.of_nat i) 12).
      pose proof (Z.mod_pos_bound (y * 12 + m - 1 + Z.of_nat i) 12). lia.
Qed.

Lemma X1_witness :
  exists Y M,
    nth_error (Waterfall.calculate_period_names 2024 12 12) 1
    = Some (str_int Y ++ "_" ++ fmt_0d 2 M)%string /\
    1 <= M <= 12 /\
    12 * Y + M = 12 * 2024 + 12 + Z.of_nat 1.
Proof.
  apply (proj2 (X1_period_names_consecutive 2024 12 12 1)). lia.
Defined.

(** ** [detect_start_period_from_first_value] *)

Lemma py_int_raises (s : string) (e : exn) : py_int s = Raise e -> e = ValueError.
Proof.
  unfold py_int.
  repeat match goal with
         | |- context [match ?x with _ => _ end] => destruct x
         end; congruence.
Qed.

Lemma split_dot_no_dot (s : string) : contains_dot s = false -> split_dot s = [s].
Proof.
  induction s as [|c s IH]; simpl; intros H; [reflexivity|].
  apply orb_false_iff in H as [Hc Hs]. now rewrite Hc, (IH Hs).
Qed.

Lemma str_int_no_dot (n : Z) : contains_dot (str_int n) = false.
Proof.
  destruct (Z.neg_nonneg_cases n) as [Hneg|Hpos].
  - unfold str_int. destruct n as [|p|p]; try lia.
    cbn [Z.to_int DecimalString.NilZero.string_of_int contains_dot].
    pose proof (str_int_digits (Z.pos p)) as H. unfold str_int in H.
    cbn [Z.to_int DecimalString.NilZero.string_of_int] in H.
    destruct H as (_ & Hd & _); [lia|].
    now rewrite (proj1 (digits_no_dot _ Hd)).
  - destruct (str_int_digits n Hpos) as (_ & Hd & _).
    exact (proj1 (digits_no_dot _ Hd)).
Qed.

(** X2: a period text written as a year, the separator and a month, zero
    padded to any widths, is read back as that year and month; for a month
    1-12 the names generated from it start at that period. *)
Theorem X2_start_period_round_trip (wy wm : nat) (y m : Z) :
  0 <= y -> 0 <= m ->
  Waterfall.detect_start_period_from_first_value
    (PStr (fmt_0d wy y ++ String dot (fmt_0d wm m)))
  = Ret (y, m) /\
  (1 <= m <= 12 ->
   hd_error (Waterfall.calculate_period_names y m 12)
   = Some (str_int y ++ "_" ++ fmt_0d 2 m)%string).
Proof.
  intros Hy Hm. split.
  - destruct (fmt_0d_digits wy y Hy) as (_ & Hyd & _).
    destruct (fmt_0d_digits wm m Hm) as (_ & Hmd & _).
    unfold Waterfall.detect_start_period_from_first_value, Waterfall.year_and_month.
    rewrite (split_dot_app _ _ (proj1 (digits_no_dot _ Hyd))).
    rewrite (proj2 (digits_no_dot _ Hmd)). cbn [py_index nth_error bind].
    rewrite (py_int_fmt_0d wy y Hy). cbn [bind].
    rewrite (py_int_fmt_0d wm m Hm). reflexivity.
  - intros Hm12. unfold Waterfall.calculate_period_names.
    cbn [seq map hd_error Z.of_nat].
    pose proof (Z.div_mod (y * 12 + m - 1 + 0) 12) as Hdm.
    pose proof (Z.mod_pos_bound (y * 12 + m - 1 + 0) 12) as Hb.
    replace ((y * 12 + m - 1 + 0) / 12) with y by lia.
    replace ((y * 12 + m - 1 + 0) mod 12 + 1) with m by lia.
    reflexivity.
Qed.

Lemma X2_witness :
  Waterfall.detect_start_period_from_first_value
    (PStr (fmt_0d 4 2024 ++ String dot (fmt_0d 2 12)))
  = Ret (2024, 12) /\
  (1 <= 12 <= 12 ->
   hd_error (Waterfall.calculate_period_names 2024 12 12)
   = Some (str_int 2024 ++ "_" ++ fmt_0d 2 12)%string).
Proof.
  apply (X2_start_period_round_trip 4 2 2024 12); lia.
Defined.

(** X3: a text cell without the separator never gives a start period: the
    function raises [IndexError] when the text reads as an integer (as
    [2025] does) and [ValueError] when it does not (as [Total] does). *)
Theorem X3_text_without_separator_raises (s : string) :
  contains_dot s = false ->
  (forall n, py_int s = Ret n ->
             Waterfall.detect_start_period_from_first_value (PStr s) = Raise IndexError) /\
  (forall e, py_int s = Raise e ->
             Waterfall.detect_start_period_from_first_value (PStr s) = Raise ValueError).
Proof.
  intros Hdot.
  unfold Waterfall.detect_start_period_from_first_value, Waterfall.year_and_month.
  rewrite (split_dot_no_dot s Hdot). cbn [py_index nth_error bind].
  split; intros x Hx; rewrite Hx; [reflexivity|].
  apply py_int_raises in Hx. now subst x.
Qed.

Lemma X3_witness :
  (forall n, py_int "2025" = Ret n ->
             Waterfall.detect_start_period_from_first_value (PStr "2025")
             = Raise IndexError) /\
  (forall e, py_int "2025" = Raise e ->
             Waterfall.detect_start_period_from_first_value (PStr "2025")
             = Raise ValueError).
Proof.
  apply (X3_text_without_separator_raises "2025"). reflexivity.
Defined.

(** X4: an integer header cell is read as January of that year, whatever the
    integer. *)
Theorem X4_integer_cell_is_january (n : Z) :
  Waterfall.detect_start_period_from_first_value (PInt n) = Ret (n, 1).
Proof.
  unfold Waterfall.detect_start_period_from_first_value.
  now rewrite str_int_no_dot.
Qed.

(** ** The mapping stage, run on a sheet with its four sentinels *)

Lemma py_list_index_in (l : list nat) (x : nat) :
  In x l ->
  exists pos, py_list_index l x = Ret pos /\ nth_error l pos = Some x /\
              (pos < List.length l)%nat.
Proof.
  induction l as [|y l IH]; simpl; [tauto|]. intros Hin.
  destruct (Nat.eqb_spec y x) as [->|Hne].
  - exists 0%nat. repeat split. lia.
  - destruct Hin as [Heq|Hin]; [congruence|].
    destruct (IH Hin) as (pos & Hp & Hn & Hl). exists (S pos).
    rewrite Hp. repeat split; [assumption|lia].
Qed.

Lemma py_last_cons {A : Type} (a : A) (l : list A) : exists z, py_last (a :: l) = Ret z.
Proof.
  unfold py_last. destruct (List.rev (a :: l)) as [|z l'] eqn:H; [|eauto].
  apply (f_equal (@List.length A)) in H. rewrite length_rev in H. discriminate.
Qed.

Lemma mapped_line_cons (name : string) (a : nat) (l : list nat) :
  exists line, Waterfall.mapped_line name (a :: l) = Ret line.
Proof.
  unfold Waterfall.mapped_line. cbn [py_index nth_error bind].
  destruct (py_last_cons a l) as [z ->]. cbn [bind]. eauto.
Qed.

Lemma py_slice_nil {A : Type} (l : list A) (pos : nat) :
  (List.length l <= pos)%nat -> py_slice l pos (pos + 12) = [].
Proof.
  intros H. apply length_zero_iff_nil. rewrite py_slice_length. lia.
Qed.

Lemma py_slice_cons {A : Type} (l : list A) (pos : nat) :
  (pos < List.length l)%nat -> exists a l', py_slice l pos (pos + 12) = a :: l'.
Proof.
  intros H. destruct (py_slice l pos (pos + 12)) as [|a l'] eqn:E; [|eauto].
  apply (f_equal (@List.length A)) in E. rewrite py_slice_length in E.
  change (List.length (@nil A)) with 0%nat in E. lia.
Qed.

Lemma in_skipn_in {A : Type} (n : nat) (l : list A) (x : A) :
  In x (skipn n l) -> In x l.
Proof.
  intros H. rewrite <- (firstn_skipn n l). apply in_or_app. now right.
Qed.

Lemma reference_window_in (df : DataFrame) (cands : list nat) (idx : nat) :
  In idx (reference_window df cands) -> In idx cands.
Proof.
  unfold reference_window, qualifying, last_12. intros H.
  destruct (12 <=? _)%nat.
  - apply in_skipn_in in H. now apply filter_In in H as [H _].
  - now apply filter_In in H as [H _].
Qed.

Lemma non_null_count_bound (df : DataFrame) (idx : nat) :
  Waterfall.non_null_count df idx <= Z.of_nat (List.length (rows df)) - 1 \/
  rows df = [].
Proof.
  unfold Waterfall.non_null_count. destruct (rows df) as [|header_row data]; [now right|].
  left. change (tl (header_row :: data)) with data.
  change (List.length (header_row :: data)) with (S (List.length data)).
  pose proof (filter_length_le (fun row => notna (cell row idx)) data). lia.
Qed.

Section MappingStage.

Variables (df : DataFrame) (header_row : list pyval) (a b c d : nat).

Hypothesis enough_columns : (36 <= List.length (columns df))%nat.
Hypothesis header_row_present : nth_error (rows df) 0 = Some header_row.
Hypothesis sentinels_found : found_of df = sections_at a b c d.

Lemma sections_in_frame :
  (b <= List.length (columns df))%nat /\ (c <= List.length (columns df))%nat /\
  (d <= List.length (columns df))%nat.
Proof.
  destruct (find_section_indices_fields (columns df)) as (_ & Hn & Hr & Hf).
  fold (found_of df) in Hn, Hr, Hf. rewrite sentinels_found in Hn, Hr, Hf.
  cbn in Hn, Hr, Hf. symmetry in Hn, Hr, Hf.
  apply found_in_frame in Hn, Hr, Hf. lia.
Qed.

Lemma selector_run :
  Waterfall.get_trailing_12_indices_with_data df (Some a) (Some b) 0
    Waterfall.MIN_DATA_ROWS
  = ((if (12 <=? List.length (qualifying df (candidates header_row a b)))%nat
      then []
      else [degraded_line (List.length (qualifying df (candidates header_row a b)))]),
     Ret (reference_window df (candidates header_row a b))).
Proof.
  destruct sections_in_frame as (Hb & _ & _).
  rewrite (get_trailing_12_run df a b 0 Waterfall.MIN_DATA_ROWS header_row
             (candidates header_row a b) header_row_present Hb
             (get_all_period_indices_filter df a b 0 header_row header_row_present Hb)).
  unfold reference_window. fold (qualifying df (candidates header_row a b)).
  now destruct (12 <=? _)%nat.
Qed.

(** The script up to the lookup of the offset: the rest of it runs on the
    reference window, the three candidate lists and whatever the offset
    lookup gives. *)
Lemma mapping_stage_result :
  snd (Waterfall.map_sections df)
  = snd (first_trailing_idx <~
           lift (py_index (reference_window df (candidates header_row a b)) 0) ;;
         relative_start_pos <~
           lift (py_list_index (candidates header_row a b) first_trailing_idx) ;;
         last_trailing_idx <~
           lift (py_last (reference_window df (candidates header_row a b))) ;;
         line <~ lift (Waterfall.mapped_line "ARR"
                         (reference_window df (candidates header_row a b))) ;;
         line <~ lift (Waterfall.mapped_line "Net Change"
                         (py_slice (candidates header_row b c) relative_start_pos
                            (relative_start_pos + 12))) ;;
         line <~ lift (Waterfall.mapped_line "Change Reason"
                         (py_slice (candidates header_row c d) relative_start_pos
                            (relative_start_pos + 12))) ;;
         io_ret {| Waterfall.found := sections_at a b c d;
                   Waterfall.arr_indices :=
                     reference_window df (candidates header_row a b);
                   Waterfall.arr_all_periods := candidates header_row a b;
                   Waterfall.netchange_all_periods := candidates header_row b c;
                   Waterfall.reason_all_periods := candidates header_row c d;
                   Waterfall.relative_start_pos := relative_start_pos;
                   Waterfall.netchange_indices :=
                     py_slice (candidates header_row b c) relative_start_pos
                       (relative_start_pos + 12);
                   Waterfall.reason_indices :=
                     py_slice (candidates header_row c d) relative_start_pos
                       (relative_start_pos + 12) |}).
Proof.
  destruct sections_in_frame as (Hb & Hc & Hd).
  unfold Waterfall.map_sections. fold (found_of df). rewrite sentinels_found.
  cbn [Waterfall.arr_start Waterfall.netchange_start Waterfall.reason_start
       Waterfall.filters_start sections_at].
  rewrite !snd_bind_print. unfold lift at 1 2 3.
  assert (Hcol : forall i, (i <= 35)%nat -> exists v, py_index (columns df) i = Ret v).
  { intros i Hi. unfold py_index. destruct (nth_error (columns df) i) eqn:Hn; [eauto|].
    apply nth_error_None in Hn. lia. }
  destruct (Hcol 0%nat) as [v0 ->]; [lia|]. rewrite snd_bind_ret.
  destruct (Hcol 1%nat) as [v1 ->]; [lia|]. rewrite snd_bind_ret.
  destruct (Hcol 35%nat) as [v35 ->]; [lia|]. rewrite snd_bind_ret.
  rewrite snd_bind_print, selector_run, snd_bind_ret.
  unfold lift at 1.
  rewrite (get_all_period_indices_filter df a b 0 header_row header_row_present Hb).
  rewrite snd_bind_ret. unfold lift at 1.
  rewrite (get_all_period_indices_filter df b c 0 header_row header_row_present Hc).
  rewrite snd_bind_ret. unfold lift at 1.
  rewrite (get_all_period_indices_filter df c d 0 header_row header_row_present Hd).
  rewrite snd_bind_ret. fold (candidates header_row a b).
  fold (candidates header_row b c). fold (candidates header_row c d).
  unfold lift.
  destruct (py_index (reference_window df (candidates header_row a b)) 0)
    as [first|e1]; [|reflexivity].
  rewrite !snd_bind_ret.
  destruct (py_list_index (candidates header_row a b) first) as [pos|e2]; [|reflexivity].
  rewrite !snd_bind_ret.
  destruct (py_last (reference_window df (candidates header_row a b)))
    as [last|e3]; [|reflexivity].
  rewrite !snd_bind_ret, !snd_bind_print.
  destruct (Waterfall.mapped_line "ARR" _) as [l1|e4]; [|reflexivity].
  rewrite !snd_bind_ret, !snd_bind_print.
  destruct (Waterfall.mapped_line "Net Change" _) as [l2|e5]; [|reflexivity].
  rewrite !snd_bind_ret, !snd_bind_print.
  destruct (Waterfall.mapped_line "Change Reason" _) as [l3|e6]; [|reflexivity].
  rewrite !snd_bind_ret, !snd_bind_print. reflexivity.
Qed.

End MappingStage.

Lemma fst_bind_ret {A B : Type} (o : list string) (a : A) (k : A -> io B) :
  fst (io_bind (o, Ret a) k) = o ++ fst (k a).
Proof. unfold io_bind. now destruct (k a). Qed.

(** X5: when no ARR period column has [MIN_DATA_ROWS] non-empty data cells,
    as on every sheet with fewer than 1000 data rows, the script prints the
    boundaries and the warning for 0 periods and stops with [IndexError] at
    [arr_indices[0]]. *)
Theorem X5_no_period_with_data_stops
    (df : DataFrame) (header_row : list pyval) (a b c d : nat) :
  (36 <= List.length (columns df))%nat ->
  nth_error (rows df) 0 = Some header_row ->
  found_of df = sections_at a b c d ->
  (List.length (rows df) <= 1000)%nat \/
  (forall idx, In idx (candidates header_row a b) ->
               Waterfall.non_null_count df idx < Waterfall.MIN_DATA_ROWS) ->
  Waterfall.map_sections df
  = (boundary_lines (sections_at a b c d) ++ [degraded_line 0], Raise IndexError).
Proof.
  intros Hcols Hh Hfound Hfew.
  assert (Hq : qualifying df (candidates header_row a b) = []).
  { unfold qualifying. apply length_zero_iff_nil.
    destruct (List.length (filter _ _)) eqn:E; [reflexivity|exfalso].
    destruct (filter _ (candidates header_row a b)) as [|idx l] eqn:Ef; [discriminate|].
    assert (Hin : In idx (filter
                   (fun idx => Waterfall.MIN_DATA_ROWS <=? Waterfall.non_null_count df idx)
                   (candidates header_row a b))) by (rewrite Ef; now left).
    apply filter_In in Hin as [Hin Hge]. apply Z.leb_le in Hge.
    unfold Waterfall.MIN_DATA_ROWS in *.
    destruct Hfew as [Hfew|Hfew].
    - destruct (non_null_count_bound df idx) as [Hb|Hb]; [lia|].
      rewrite Hb in Hh. discriminate.
    - specialize (Hfew idx Hin). lia. }
  assert (Hw : reference_window df (candidates header_row a b) = []).
  { unfold reference_window. rewrite Hq. reflexivity. }
  pose proof (mapping_stage_result df header_row a b c d Hcols Hh Hfound) as Hsnd.
  rewrite Hw in Hsnd.
  change (snd (Waterfall.map_sections df) = Raise IndexError) in Hsnd.
  assert (Hfst : fst (Waterfall.map_sections df)
                 = boundary_lines (sections_at a b c d) ++ [degraded_line 0]).
  { destruct (sections_in_frame df a b c d Hcols Hfound) as (Hb & Hc & Hd).
    unfold Waterfall.map_sections. fold (found_of df). rewrite Hfound.
    cbn [Waterfall.arr_start Waterfall.netchange_start Waterfall.reason_start
         Waterfall.filters_start sections_at].
    rewrite !fst_bind_print. unfold lift at 1 2 3.
    assert (Hcol : forall i, (i <= 35)%nat -> exists v, py_index (columns df) i = Ret v).
    { intros i Hi. unfold py_index.
      destruct (nth_error (columns df) i) eqn:Hn; [eauto|].
      apply nth_error_None in Hn. lia. }
    destruct (Hcol 0%nat) as [v0 ->]; [lia|]. rewrite fst_bind_ret.
    destruct (Hcol 1%nat) as [v1 ->]; [lia|]. rewrite fst_bind_ret.
    destruct (Hcol 35%nat) as [v35 ->]; [lia|]. rewrite fst_bind_ret.
    rewrite fst_bind_print, (selector_run df header_row a b c d Hcols Hh Hfound), Hq, Hw.
    rewrite fst_bind_ret. unfold lift at 1.
    rewrite (get_all_period_indices_filter df a b 0 header_row Hh Hb), fst_bind_ret.
    unfold lift at 1.
    rewrite (get_all_period_indices_filter df b c 0 header_row Hh Hc), fst_bind_ret.
    unfold lift at 1.
    rewrite (get_all_period_indices_filter df c d 0 header_row Hh Hd), fst_bind_ret.
    reflexivity. }
  destruct (Waterfall.map_sections df) as [out r]. simpl in Hsnd, Hfst. now subst.
Qed.

Lemma X5_witness :
  Waterfall.map_sections Sample.few_rows
  = (boundary_lines (sections_at 36 50 64 78) ++ [degraded_line 0], Raise IndexError).
Proof.
  apply (X5_no_period_with_data_stops Sample.few_rows Sample.header_row_14 36 50 64 78).
  - vm_compute. lia.
  - reflexivity.
  - vm_compute. reflexivity.
  - left. vm_compute. lia.
Defined.

(** X6: when a section other than the reference has no candidate at the
    offset or beyond, its mapped window is empty and the script stops with
    [IndexError] at the line that prints the window's first index. *)
Theorem X6_empty_mapped_window_stops
    (df : DataFrame) (header_row : list pyval) (a b c d first pos : nat) :
  (36 <= List.length (columns df))%nat ->
  nth_error (rows df) 0 = Some header_row ->
  found_of df = sections_at a b c d ->
  hd_error (reference_window df (candidates header_row a b)) = Some first ->
  py_list_index (candidates header_row a b) first = Ret pos ->
  (List.length (candidates header_row b c) <= pos)%nat \/
  (List.length (candidates header_row c d) <= pos)%nat ->
  snd (Waterfall.map_sections df) = Raise IndexError.
Proof.
  intros Hcols Hh Hfound Hfirst Hpos Hempty.
  rewrite (mapping_stage_result df header_row a b c d Hcols Hh Hfound).
  destruct (reference_window df (candidates header_row a b)) as [|x window] eqn:Hw;
    [discriminate|]. injection Hfirst as ->.
  unfold lift. cbn [py_index nth_error]. rewrite snd_bind_ret, Hpos, snd_bind_ret.
  destruct (py_last_cons first window) as [last ->]. rewrite snd_bind_ret.
  destruct (mapped_line_cons "ARR" first window) as [l1 ->]. rewrite snd_bind_ret.
  destruct (Nat.le_gt_cases (List.length (candidates header_row b c)) pos) as [Hn|Hn].
  - rewrite (py_slice_nil _ pos Hn). reflexivity.
  - destruct (py_slice_cons _ pos Hn) as (x & l & ->).
    destruct (mapped_line_cons "Net Change" x l) as [l2 ->]. rewrite snd_bind_ret.
    destruct Hempty as [Hempty|Hempty]; [lia|].
    rewrite (py_slice_nil _ pos Hempty). reflexivity.
Qed.

Lemma X6_witness : snd (Waterfall.map_sections Sample.tiny_netchange) = Raise IndexError.
Proof.
  apply (X6_empty_mapped_window_stops Sample.tiny_netchange
           (map (Sample.header 14 2 14) (seq 0 (Sample.width 14 2 14)))
           36 50 52 66 38 2).
  - vm_compute. lia.
  - reflexivity.
  - vm_compute. reflexivity.
  - vm_compute. reflexivity.
  - vm_compute. reflexivity.
  - left. vm_compute. lia.
Defined.

(** X7: on a sheet with its four sentinels, 36 columns and a header row, a
    reference window that is not empty always has an offset among the
    reference candidates (the lookup never fails), and when both other
    sections have a candidate at that offset the mapping stage returns: the
    reference window, and for each other section its twelve candidates from
    the offset on. *)
Theorem X7_mapping_stage_returns
    (df : DataFrame) (header_row : list pyval) (a b c d first : nat) :
  (36 <= List.length (columns df))%nat ->
  nth_error (rows df) 0 = Some header_row ->
  found_of df = sections_at a b c d ->
  hd_error (reference_window df (candidates header_row a b)) = Some first ->
  exists pos,
    py_list_index (candidates header_row a b) first = Ret pos /\
    nth_error (candidates header_row a b) pos = Some first /\
    ((pos < List.length (candidates header_row b c))%nat ->
     (pos < List.length (candidates header_row c d))%nat ->
     exists out,
       Waterfall.map_sections df
       = (out,
          Ret {| Waterfall.found := sections_at a b c d;
                 Waterfall.arr_indices :=
                   reference_window df (candidates header_row a b);
                 Waterfall.arr_all_periods := candidates header_row a b;
                 Waterfall.netchange_all_periods := candidates header_row b c;
                 Waterfall.reason_all_periods := candidates header_row c d;
                 Waterfall.relative_start_pos := pos;
                 Waterfall.netchange_indices :=
                   firstn 12 (skipn pos (candidates header_row b c));
                 Waterfall.reason_indices :=
                   firstn 12 (skipn pos (candidates header_row c d)) |})).
Proof.
  intros Hcols Hh Hfound Hfirst.
  destruct (reference_window df (candidates header_row a b)) as [|x window] eqn:Hw;
    [discriminate|]. injection Hfirst as ->.
  assert (Hin : In first (candidates header_row a b)).
  { apply (reference_window_in df). rewrite Hw. now left. }
  destruct (py_list_index_in _ _ Hin) as (pos & Hpos & Hnth & _).
  exists pos. split; [exact Hpos|]. split; [exact Hnth|]. intros Hn Hr.
  pose proof (mapping_stage_result df header_row a b c d Hcols Hh Hfound) as Hsnd.
  rewrite Hw in Hsnd. unfold lift in Hsnd. cbn [py_index nth_error] in Hsnd.
  rewrite snd_bind_ret, Hpos, snd_bind_ret in Hsnd.
  destruct (py_last_cons first window) as [last Hlast].
  rewrite Hlast, snd_bind_ret in Hsnd.
  destruct (mapped_line_cons "ARR" first window) as [l1 H1].
  rewrite H1, snd_bind_ret in Hsnd.
  destruct (py_slice_cons _ pos Hn) as (xn & ln & En).
  destruct (py_slice_cons _ pos Hr) as (xr & lr & Er).
  rewrite En, Er in Hsnd.
  destruct (mapped_line_cons "Net Change" xn ln) as [l2 H2].
  destruct (mapped_line_cons "Change Reason" xr lr) as [l3 H3].
  rewrite H2, snd_bind_ret, H3, snd_bind_ret in Hsnd. cbn [io_ret snd] in Hsnd.
  rewrite <- En, <- Er, !py_slice_eq in Hsnd.
  destruct (Waterfall.map_sections df) as [out r]. simpl in Hsnd. subst r.
  now exists out.
Qed.

Lemma X7_witness :
  exists pos,
    py_list_index (candidates Sample.header_row_14 36 50) 38 = Ret pos /\
    nth_error (candidates Sample.header_row_14 36 50) pos = Some 38%nat /\
    ((pos < List.length (candidates Sample.header_row_14 50 64))%nat ->
     (pos < List.length (candidates Sample.header_row_14 64 78))%nat ->
     exists out,
       Waterfall.map_sections Sample.parallel
       = (out,
          Ret {| Waterfall.found := sections_at 36 50 64 78;
                 Waterfall.arr_indices :=
                   reference_window Sample.parallel
                     (candidates Sample.header_row_14 36 50);
                 Waterfall.arr_all_periods := candidates Sample.header_row_14 36 50;
                 Waterfall.netchange_all_periods :=
                   candidates Sample.header_row_14 50 64;
                 Waterfall.reason_all_periods := candidates Sample.header_row_14 64 78;
                 Waterfall.relative_start_pos := pos;
                 Waterfall.netchange_indices :=
                   firstn 12 (skipn pos (candidates Sample.header_row_14 50 64));
                 Waterfall.reason_indices :=
                   firstn 12 (skipn pos (candidates Sample.header_row_14 64 78)) |})).
Proof.
  apply (X7_mapping_stage_returns Sample.parallel Sample.header_row_14 36 50 64 78 38).
  - vm_compute. lia.
  - reflexivity.
  - vm_compute. reflexivity.
  - vm_compute. reflexivity.
Defined.

(** ** Bounds of [get_all_period_indices] *)

Lemma period_loop_past_columns (all_cols header_row : list pyval) (idxs acc : list nat) :
  Exists (fun idx => (List.length all_cols <= idx)%nat) idxs ->
  Waterfall.period_loop all_cols header_row idxs acc = Raise IndexError.
Proof.
  intros H. revert acc. induction idxs as [|idx idxs IH]; intros acc.
  - inversion H.
  - cbn [Waterfall.period_loop]. unfold py_index.
    destruct (nth_error all_cols idx) eqn:Hn; [|reflexivity].
    assert (Hrest : Exists (fun idx => (List.length all_cols <= idx)%nat) idxs).
    { inversion H as [? ? Hhd|? ? Htl]; subst; [|assumption].
      assert (nth_error all_cols idx <> None) as Hs by congruence.
      apply nth_error_Some in Hs. lia. }
    cbn [bind].
    destruct (Waterfall.is_valid_period (cell header_row idx)) as [[|]|e] eqn:Hv;
      [apply IH|apply IH|]; try assumption.
    apply is_valid_period_raises in Hv. subst e. cbn [Waterfall.caught].
    now apply IH.
Qed.

(** X8: a section range that reaches past the last column makes
    [get_all_period_indices] raise [IndexError], whatever the header cells
    before it; a bound that is [None] (a sentinel not found) makes it raise
    [TypeError]. *)
Theorem X8_section_range_errors
    (df : DataFrame) (h : nat) (header_row : list pyval) :
  nth_error (rows df) h = Some header_row ->
  (forall s e, (s < e)%nat -> (List.length (columns df) < e)%nat ->
     Waterfall.get_all_period_indices df (Some s) (Some e) h = Raise IndexError) /\
  (forall s e, s = None \/ e = None ->
     Waterfall.get_all_period_indices df s e h = Raise TypeError).
Proof.
  intros Hh. split.
  - intros s e Hse Hlen. unfold Waterfall.get_all_period_indices, py_index.
    rewrite Hh. cbn [bind Waterfall.py_range]. apply period_loop_past_columns.
    apply Exists_exists. exists (e - 1)%nat. split; [apply in_seq|]; lia.
  - intros s e Hnone. now apply (get_all_period_indices_none df s e h header_row).
Qed.

Lemma X8_witness :
  (forall s e, (s < e)%nat -> (List.length (columns Sample.mixed) < e)%nat ->
     Waterfall.get_all_period_indices Sample.mixed (Some s) (Some e) 0
     = Raise IndexError) /\
  (forall s e, s = None \/ e = None ->
     Waterfall.get_all_period_indices Sample.mixed s e 0 = Raise TypeError).
Proof.
  apply (X8_section_range_errors Sample.mixed 0
           [PStr "2025.01"; PStr "Total"; PInt 2025; PStr "2025.xyz"; nan;
            PFloat (FFin (2031 # 1)) "2031.0"]).
  reflexivity.
Defined.

(** ** The names of a sheet's columns *)

Lemma skipn_nth_error {A : Type} (l : list A) (pos : nat) (a : A) :
  nth_error l pos = Some a -> skipn pos l = a :: skipn (S pos) l.
Proof.
  revert l. induction pos as [|pos IH]; intros [|x l] H; try discriminate.
  - now injection H as ->.
  - cbn [nth_error] in H. cbn [skipn]. now rewrite (IH l H).
Qed.

Lemma rename_loop_run (names : list string) (suffix : string) (cols : list nat)
    (pos : nat) (d : list (nat * string)) :
  (pos + List.length cols <= List.length names)%nat ->
  Waterfall.rename_loop names suffix pos cols d
  = Ret (List.rev (combine cols
                     (map (fun n => (n ++ suffix)%string)
                        (firstn (List.length cols) (skipn pos names)))) ++ d).
Proof.
  revert pos d. induction cols as [|col cols IH]; intros pos d Hlen.
  - reflexivity.
  - cbn [Waterfall.rename_loop List.length] in *. unfold py_index.
    destruct (nth_error names pos) as [name|] eqn:Hn.
    2:{ apply nth_error_None in Hn. lia. }
    cbn [bind]. rewrite IH by lia. unfold Waterfall.dict_set.
    rewrite (skipn_nth_error names pos name Hn).
    cbn [firstn map combine List.rev]. now rewrite <- app_assoc.
Qed.

Lemma rename_loop_short (names : list string) (suffix : string) (cols : list nat)
    (pos : nat) (d : list (nat * string)) :
  (pos <= List.length names)%nat ->
  (List.length names < pos + List.length cols)%nat ->
  Waterfall.rename_loop names suffix pos cols d = Raise IndexError.
Proof.
  revert pos d. induction cols as [|col cols IH]; intros pos d Hpos Hlen.
  - simpl in Hlen. lia.
  - cbn [Waterfall.rename_loop List.length] in *. unfold py_index.
    destruct (nth_error names pos) as [name|] eqn:Hn; [|reflexivity].
    assert (nth_error names pos <> None) as Hs by congruence.
    apply nth_error_Some in Hs.
    cbn [bind]. apply IH; lia.
Qed.

Lemma map_fst_combine {A B : Type} (l : list A) (l' : list B) :
  List.length l = List.length l' -> map fst (combine l l') = l.
Proof.
  revert l'. induction l as [|a l IH]; intros [|b l'] H; try discriminate; [reflexivity|].
  cbn [combine map fst]. f_equal. apply IH. now injection H.
Qed.

Lemma dict_get_in (d : list (nat * string)) (k : nat) (v : string) :
  NoDup (map fst d) -> In (k, v) d -> Waterfall.dict_get d k = Some v.
Proof.
  induction d as [|[k' v'] d IH]; intros Hnd Hin; [contradiction|].
  cbn [Waterfall.dict_get]. inversion Hnd as [|? ? Hnot Hnd']; subst.
  destruct Hin as [[= -> ->]|Hin].
  - now rewrite Nat.eqb_refl.
  - destruct (Nat.eqb_spec k' k) as [->|_]; [|now apply IH].
    exfalso. apply Hnot. apply in_map_iff. now exists (k, v).
Qed.

Lemma lookup_all (d : list (nat * string)) (ks : list nat) (vs : list string) :
  NoDup (map fst d) ->
  List.length ks = List.length vs ->
  incl (combine ks vs) d ->
  map (fun idx => match Waterfall.dict_get d idx with
                  | Some name => name
                  | None => EmptyString
                  end) ks = vs.
Proof.
  intros Hnd. revert vs. induction ks as [|k ks IH]; intros [|v vs] Hlen Hincl;
    try discriminate; [reflexivity|].
  cbn [map]. rewrite (dict_get_in d k v Hnd) by (apply Hincl; now left).
  f_equal. apply IH; [now injection Hlen|].
  intros x Hx. apply Hincl. now right.
Qed.

Lemma make_sheet_columns
    (title suffix : string) (data : list (list pyval)) (names : list string)
    (cols : list nat) :
  NoDup cols -> ~ In 0%nat cols -> ~ In 1%nat cols -> ~ In 35%nat cols ->
  (List.length cols <= List.length names)%nat ->
  exists out,
    Waterfall.make_sheet title suffix data names cols
    = (out,
       Ret {| columns :=
                map PStr (["SF_Account_Number"; "Customer_Name"; "Product"]
                          ++ map (fun n => (n ++ suffix)%string)
                               (firstn (List.length cols) names));
              rows := map (fun row => map (cell row) ([0; 1; 35]%nat ++ cols)) data |}).
Proof.
  intros Hnd H0 H1 H35 Hlen. unfold Waterfall.make_sheet.
  rewrite rename_loop_run by (simpl; lia). cbn [skipn].
  set (vs := map (fun n => (n ++ suffix)%string) (firstn (List.length cols) names)).
  unfold Waterfall.dict_set.
  set (d := List.rev (combine cols vs) ++ _).
  assert (Hvs : List.length cols = List.length vs).
  { unfold vs. rewrite length_map, length_firstn. lia. }
  assert (Hkeys : NoDup (map fst d)).
  { unfold d. rewrite map_app, map_rev, map_fst_combine by lia. cbn [map fst].
    apply NoDup_app; [now apply NoDup_rev| |].
    - repeat constructor; simpl; intuition lia.
    - intros k Hk Hk'. apply in_rev in Hk. simpl in Hk'.
      destruct Hk' as [<-|[<-|[<-|[]]]]; contradiction. }
  assert (Hnames : map (fun idx => match Waterfall.dict_get d idx with
                                   | Some name => name
                                   | None => EmptyString
                                   end) ([0; 1; 35]%nat ++ cols)
                   = ["SF_Account_Number"; "Customer_Name"; "Product"] ++ vs).
  { apply lookup_all; [exact Hkeys|rewrite !length_app; simpl; lia|].
    intros x Hx. unfold d. apply in_or_app. cbn [app combine] in Hx.
    destruct Hx as [<-|[<-|[<-|Hx]]].
    - right. cbn. auto.
    - right. cbn. auto.
    - right. cbn. auto.
    - left. now apply in_rev in Hx. }
  unfold io_bind, print, lift, io_ret. rewrite Hnames. eexists. reflexivity.
Qed.

(** X9: the columns of a sheet are named by position: the three identifier
    names, then for the [j]-th mapped column the [j]-th period name with the
    sheet's suffix, whatever the header cell of that column, as long as the
    mapped columns are distinct and are none of the columns 0, 1 and 35; with
    more mapped columns than period names the sheet is not built
    ([IndexError]). *)
Theorem X9_sheet_columns_named_by_position
    (title suffix : string) (data : list (list pyval)) (names : list string)
    (cols : list nat) :
  NoDup cols -> ~ In 0%nat cols -> ~ In 1%nat cols -> ~ In 35%nat cols ->
  ((List.length cols <= List.length names)%nat ->
   exists out,
     Waterfall.make_sheet title suffix data names cols
     = (out,
        Ret {| columns :=
                 map PStr (["SF_Account_Number"; "Customer_Name"; "Product"]
                           ++ map (fun n => (n ++ suffix)%string)
                                (firstn (List.length cols) names));
               rows := map (fun row => map (cell row) ([0; 1; 35]%nat ++ cols)) data |})) /\
  ((List.length names < List.length cols)%nat ->
   snd (Waterfall.make_sheet title suffix data names cols) = Raise IndexError).
Proof.
  intros Hnd H0 H1 H35. split; intros Hlen.
  - now apply make_sheet_columns.
  - unfold Waterfall.make_sheet.
    rewrite !snd_bind_print. rewrite rename_loop_short by (simpl; lia). reflexivity.
Qed.

Lemma X9_witness :
  exists out,
    Waterfall.make_sheet "CREATING SHEET 1" "_ARR"
      [[PInt 1001; PStr "Acme"; PInt 1200; PInt 1300]] ["2024_12"; "2025_01"] [2; 3]%nat
    = (out,
       Ret {| columns :=
                map PStr (["SF_Account_Number"; "Customer_Name"; "Product"]
                          ++ map (fun n => (n ++ "_ARR")%string)
                               (firstn (List.length [2; 3]%nat) ["2024_12"; "2025_01"]));
              rows := map (fun row => map (cell row) ([0; 1; 35] ++ [2; 3])%nat)
                        [[PInt 1001; PStr "Acme"; PInt 1200; PInt 1300]] |}).
Proof.
  apply (proj1 (X9_sheet_columns_named_by_position "CREATING SHEET 1" "_ARR"
                  [[PInt 1001; PStr "Acme"; PInt 1200; PInt 1300]]
                  ["2024_12"; "2025_01"] [2; 3]%nat
                  ltac:(repeat constructor; simpl; intuition lia)
                  ltac:(simpl; intuition lia) ltac:(simpl; intuition lia)
                  ltac:(simpl; intuition lia))).
  simpl. lia.
Defined.

(** ** The sheets of a run *)

Lemma firstn_strongly_sorted {A : Type} (R : A -> A -> Prop) (n : nat) (l : list A) :
  StronglySorted R l -> StronglySorted R (firstn n l).
Proof.
  revert l. induction n as [|n IH]; intros l Hl; [constructor|].
  destruct l as [|x l]; [constructor|]. inversion Hl as [|? ? Hs Hf]; subst.
  cbn [firstn]. constructor; [now apply IH|].
  rewrite Forall_forall in *. intros y Hy. apply Hf.
  rewrite <- (firstn_skipn n l). apply in_or_app. now left.
Qed.

Lemma sorted_nodup (l : list nat) : StronglySorted lt l -> NoDup l.
Proof.
  induction 1 as [|x l _ IH Hf]; constructor; [|assumption].
  intros Hin. rewrite Forall_forall in Hf. specialize (Hf x Hin). lia.
Qed.

Lemma candidates_sorted (header_row : list pyval) (s e : nat) :
  StronglySorted lt (candidates header_row s e) /\
  Forall (fun idx => (s <= idx)%nat) (candidates header_row s e).
Proof.
  unfold candidates. split.
  - apply filter_strongly_sorted, seq_strongly_sorted.
  - apply Forall_forall. intros idx H. apply filter_In in H as [H _].
    apply in_seq in H. lia.
Qed.

Lemma reference_window_sorted (df : DataFrame) (header_row : list pyval) (s e : nat) :
  StronglySorted lt (reference_window df (candidates header_row s e)) /\
  (List.length (reference_window df (candidates header_row s e)) <= 12)%nat.
Proof.
  unfold reference_window, qualifying, last_12.
  destruct (12 <=? _)%nat eqn:E.
  - split; [|rewrite length_skipn; lia].
    apply skipn_strongly_sorted, filter_strongly_sorted, candidates_sorted.
  - apply Nat.leb_gt in E. split; [|lia].
    apply filter_strongly_sorted, candidates_sorted.
Qed.

(** What a run that returned went through. *)
Lemma main_ret (df : DataFrame) (out : list string) (sh : Waterfall.sheets) :
  Waterfall.main df = (out, Ret sh) ->
  exists (o oa on orn : list string) (m : Waterfall.mapped) (first : nat) (v : pyval)
         (y mo : Z),
    Waterfall.map_sections df = (o, Ret m) /\
    py_index (Waterfall.arr_indices m) 0 = Ret first /\
    Waterfall.get_period_value df first 0 = Ret v /\
    Waterfall.detect_start_period_from_first_value v = Ret (y, mo) /\
    Waterfall.make_sheet "CREATING SHEET 1: ARR by Period (util_waterfall_arr_import)"
      "_ARR" (Waterfall.df_data df) (Waterfall.calculate_period_names y mo 12)
      (Waterfall.arr_indices m) = (oa, Ret (Waterfall.arr_df sh)) /\
    Waterfall.make_sheet
      "CREATING SHEET 2: Net Change by Period (util_waterfall_netChange_import)"
      "_NetChange" (Waterfall.df_data df) (Waterfall.calculate_period_names y mo 12)
      (Waterfall.netchange_indices m) = (on, Ret (Waterfall.netchange_df sh)) /\
    Waterfall.make_sheet
      "CREATING SHEET 3: Change Reason by Period (util_waterfall_changeReason_import)"
      "_ChangeReason" (Waterfall.df_data df) (Waterfall.calculate_period_names y mo 12)
      (Waterfall.reason_indices m) = (orn, Ret (Waterfall.reason_df sh)).
Proof.
  intros H. unfold Waterfall.main in H.
  do 7 step H.
  match type of H with
  | context [let '(_, _) := ?start in _] => destruct start as [y mo]
  end.
  do 6 step H. unfold io_ret in H. injection H as _ <-.
  cbn [Waterfall.arr_df Waterfall.netchange_df Waterfall.reason_df].
  do 9 eexists. repeat (split; [eassumption|]). eassumption.
Qed.

Lemma window_columns (l : list nat) (s : nat) :
  StronglySorted lt l -> Forall (fun idx => (s <= idx)%nat) l -> (35 < s)%nat ->
  NoDup l /\ ~ In 0%nat l /\ ~ In 1%nat l /\ ~ In 35%nat l.
Proof.
  intros Hs Hf Hgt. rewrite Forall_forall in Hf.
  split; [now apply sorted_nodup|].
  repeat split; intros Hin; apply Hf in Hin; lia.
Qed.

Lemma py_slice_sorted (l : list nat) (s pos : nat) :
  StronglySorted lt l -> Forall (fun idx => (s <= idx)%nat) l ->
  StronglySorted lt (py_slice l pos (pos + 12)) /\
  Forall (fun idx => (s <= idx)%nat) (py_slice l pos (pos + 12)) /\
  (List.length (py_slice l pos (pos + 12)) <= 12)%nat.
Proof.
  intros Hs Hf. rewrite py_slice_length. split; [|split; [|lia]].
  - unfold py_slice. now apply firstn_strongly_sorted, skipn_strongly_sorted.
  - rewrite Forall_forall in *. intros idx Hin. apply Hf. unfold py_slice in Hin.
    apply (in_skipn_in pos). rewrite <- (firstn_skipn (pos + 12 - pos) (skipn pos l)).
    apply in_or_app. now left.
Qed.

(** X10: on a sheet whose four sentinels stand after column 35, a run that
    returns names the period columns of all three sheets from one cell: the
    header-row cell of the first column of the reference window.  The
    [j]-th mapped column of each sheet gets the [j]-th month from that start
    with the sheet's suffix; the header cells of the other columns, and of
    the other sections, are not read for it. *)
Theorem X10_sheets_named_from_first_reference_period
    (df : DataFrame) (header_row : list pyval) (a b c d : nat)
    (out : list string) (sh : Waterfall.sheets) :
  (36 <= List.length (columns df))%nat ->
  nth_error (rows df) 0 = Some header_row ->
  found_of df = sections_at a b c d ->
  (35 < a)%nat -> (35 < b)%nat -> (35 < c)%nat ->
  Waterfall.main df = (out, Ret sh) ->
  exists (first : nat) (y mo : Z) (n_arr n_netchange n_reason : nat),
    hd_error (reference_window df (candidates header_row a b)) = Some first /\
    Waterfall.detect_start_period_from_first_value (cell header_row first) = Ret (y, mo) /\
    (n_arr <= 12)%nat /\ (n_netchange <= 12)%nat /\ (n_reason <= 12)%nat /\
    let names := Waterfall.calculate_period_names y mo 12 in
    let ids := ["SF_Account_Number"; "Customer_Name"; "Product"] in
    columns (Waterfall.arr_df sh)
    = map PStr (ids ++ map (fun n => (n ++ "_ARR")%string) (firstn n_arr names)) /\
    columns (Waterfall.netchange_df sh)
    = map PStr (ids ++ map (fun n => (n ++ "_NetChange")%string)
                         (firstn n_netchange names)) /\
    columns (Waterfall.reason_df sh)
    = map PStr (ids ++ map (fun n => (n ++ "_ChangeReason")%string)
                         (firstn n_reason names)).
Proof.
  intros Hcols Hh Hfound Ha Hb Hc H.
  apply main_ret in H.
  destruct H as (o & oa & on & orn & m & first & v & y & mo & Hmap & Hfirst & Hv & Hdet
                 & Harr & Hnet & Hrea).
  apply map_sections_ret in Hmap. cbv zeta in Hmap.
  destruct Hmap as (wout & first' & last & l1 & l2 & l3 & Hmap).
  destruct Hmap as (_ & Hsel & _ & Hnall & Hrall & _ & _ & _ & Hn & Hr & _).
  fold (found_of df) in Hsel, Hnall, Hrall. rewrite Hfound in Hsel, Hnall, Hrall.
  cbn [Waterfall.arr_start Waterfall.netchange_start Waterfall.reason_start
       Waterfall.filters_start sections_at] in Hsel, Hnall, Hrall.
  destruct (sections_in_frame df a b c d Hcols Hfound) as (Hbl & Hcl & Hdl).
  rewrite (selector_run df header_row a b c d Hcols Hh Hfound) in Hsel.
  injection Hsel as _ Hwin.
  rewrite (get_all_period_indices_filter df b c 0 header_row Hh Hcl) in Hnall.
  rewrite (get_all_period_indices_filter df c d 0 header_row Hh Hdl) in Hrall.
  injection Hnall as Hnall. injection Hrall as Hrall.
  fold (candidates header_row b c) in Hnall. fold (candidates header_row c d) in Hrall.
  rewrite <- Hnall in Hn. rewrite <- Hrall in Hr.
  assert (Hcell : v = cell header_row first).
  { unfold Waterfall.get_period_value, py_index in Hv. rewrite Hh in Hv.
    destruct (nth_error (columns df) first); [|discriminate].
    cbn [bind] in Hv. now injection Hv. }
  subst v.
  assert (Hlen : List.length (Waterfall.calculate_period_names y mo 12) = 12%nat).
  { unfold Waterfall.calculate_period_names. now rewrite length_map, length_seq. }
  destruct (reference_window_sorted df header_row a b) as [Hws Hwl].
  assert (Hwf : Forall (fun idx => (a <= idx)%nat)
                  (reference_window df (candidates header_row a b))).
  { apply Forall_forall. intros idx Hin. apply reference_window_in in Hin.
    destruct (candidates_sorted header_row a b) as [_ Hf].
    rewrite Forall_forall in Hf. now apply Hf. }
  destruct (candidates_sorted header_row b c) as [Hns Hnf].
  destruct (candidates_sorted header_row c d) as [Hrs Hrf].
  destruct (py_slice_sorted _ b (Waterfall.relative_start_pos m) Hns Hnf)
    as (Hns' & Hnf' & Hnl).
  destruct (py_slice_sorted _ c (Waterfall.relative_start_pos m) Hrs Hrf)
    as (Hrs' & Hrf' & Hrl).
  rewrite <- Hwin in Harr, Hfirst. rewrite Hn in Hnet. rewrite Hr in Hrea.
  destruct (window_columns _ a Hws Hwf Ha) as (W1 & W2 & W3 & W4).
  destruct (window_columns _ b Hns' Hnf' Hb) as (N1 & N2 & N3 & N4).
  destruct (window_columns _ c Hrs' Hrf' Hc) as (R1 & R2 & R3 & R4).
  destruct (make_sheet_columns
              "CREATING SHEET 1: ARR by Period (util_waterfall_arr_import)" "_ARR"
              (Waterfall.df_data df) (Waterfall.calculate_period_names y mo 12) _
              W1 W2 W3 W4 ltac:(lia)) as [o1 E1].
  destruct (make_sheet_columns
              "CREATING SHEET 2: Net Change by Period (util_waterfall_netChange_import)"
              "_NetChange"
              (Waterfall.df_data df) (Waterfall.calculate_period_names y mo 12) _
              N1 N2 N3 N4 ltac:(lia)) as [o2 E2].
  destruct (make_sheet_columns
              "CREATING SHEET 3: Change Reason by Period (util_waterfall_changeReason_import)"
              "_ChangeReason"
              (Waterfall.df_data df) (Waterfall.calculate_period_names y mo 12) _
              R1 R2 R3 R4 ltac:(lia)) as [o3 E3].
  rewrite E1 in Harr. rewrite E2 in Hnet. rewrite E3 in Hrea.
  injection Harr as _ Harr. injection Hnet as _ Hnet. injection Hrea as _ Hrea.
  exists first, y, mo. do 3 eexists.
  split.
  { unfold py_index in Hfirst.
    destruct (reference_window df (candidates header_row a b)); [discriminate|].
    cbn in Hfirst. now injection Hfirst as ->. }
  split; [exact Hdet|].
  split; [exact Hwl|]. split; [exact Hnl|]. split; [exact Hrl|].
  cbv zeta. rewrite <- Harr, <- Hnet, <- Hrea. repeat split.
Qed.

Lemma X10_witness :
  exists (out : list string) (sh : Waterfall.sheets),
    Waterfall.main Sample.parallel = (out, Ret sh) /\
    exists (first : nat) (y mo : Z) (n_arr n_netchange n_reason : nat),
      hd_error (reference_window Sample.parallel (candidates Sample.header_row_14 36 50))
      = Some first /\
      Waterfall.detect_start_period_from_first_value (cell Sample.header_row_14 first)
      = Ret (y, mo) /\
      (n_arr <= 12)%nat /\ (n_netchange <= 12)%nat /\ (n_reason <= 12)%nat /\
      let names := Waterfall.calculate_period_names y mo 12 in
      let ids := ["SF_Account_Number"; "Customer_Name"; "Product"] in
      columns (Waterfall.arr_df sh)
      = map PStr (ids ++ map (fun n => (n ++ "_ARR")%string) (firstn n_arr names)) /\
      columns (Waterfall.netchange_df sh)
      = map PStr (ids ++ map (fun n => (n ++ "_NetChange")%string)
                           (firstn n_netchange names)) /\
      columns (Waterfall.reason_df sh)
      = map PStr (ids ++ map (fun n => (n ++ "_ChangeReason")%string)
                           (firstn n_reason names)).
Proof.
  evar (out : list string). evar (sh : Waterfall.sheets).
  assert (H : Waterfall.main Sample.parallel = (out, Ret sh)).
  { subst out sh. vm_compute. reflexivity. }
  exists out, sh. split; [exact H|].
  apply (X10_sheets_named_from_first_reference_period Sample.parallel
           Sample.header_row_14 36 50 64 78 out sh).
  - vm_compute. lia.
  - reflexivity.
  - vm_compute. reflexivity.
  - lia.
  - lia.
  - lia.
  - exact H.
Defined.

(** ** The pivoted sheets *)

Lemma period_dates_value :
  Final.period_dates
  = Ret [("2025.01", "2025-01-31"); ("2025.02", "2025-02-28");
         ("2025.03", "2025-03-31"); ("2025.04", "2025-04-30");
         ("2025.05", "2025-05-31"); ("2025.06", "2025-06-30");
         ("2025.07", "2025-07-31"); ("2025.08", "2025-08-31");
         ("2025.09", "2025-09-30"); ("2025.10", "2025-10-31")].
Proof. vm_compute. reflexivity. Qed.

(** What a run of the pivoting script that returned went through. *)
Lemma final_main_ret (numeric_text : string -> bool)
    (sort_values : list Final.record -> result (list Final.record))
    (df : DataFrame) (p : Final.pivoted) :
  Final.main numeric_text sort_values df = Ret p ->
  exists dates arr netchange reason,
    Final.period_dates = Ret dates /\
    Final.pivot sort_values (Final.df_filtered numeric_text df) dates
      (py_slice (seq 0 (List.length (columns df))) 120 130) = Ret arr /\
    Final.pivot sort_values (Final.df_filtered numeric_text df) dates
      (py_slice (seq 0 (List.length (columns df))) 216 226) = Ret netchange /\
    Final.pivot sort_values (Final.df_filtered numeric_text df) dates
      (py_slice (seq 0 (List.length (columns df))) 312 322) = Ret reason /\
    p = {| Final.arr_pivoted := filter (fun r => notna (Final.Value r)) arr;
           Final.netchange_pivoted := netchange;
           Final.reason_pivoted := map Final.replace_dash reason |}.
Proof.
  intros H. unfold Final.main in H.
  apply bind_ret in H as (sf_num_col & _ & H).
  apply bind_ret in H as (customer_name_col & _ & H).
  apply bind_ret in H as (product_col & _ & H).
  apply bind_ret in H as (dates & Hdates & H).
  apply bind_ret in H as (arr & Harr & H).
  apply bind_ret in H as (netchange & Hnetchange & H).
  apply bind_ret in H as (reason & Hreason & H).
  injection H as <-. now exists dates, arr, netchange, reason.
Qed.

Lemma melt_length (data : list (list pyval)) (dates : list (string * string))
    (cols : list nat) :
  List.length (Final.melt data dates cols)
  = (List.length (combine cols dates) * List.length data)%nat.
Proof.
  unfold Final.melt. induction (combine cols dates) as [|[col [name date]] l IH].
  - reflexivity.
  - cbn [flat_map List.length]. rewrite length_app, length_map, IH. lia.
Qed.

Lemma slice_of_ten (w lo : nat) :
  (List.length (py_slice (seq 0 w) lo (lo + 10)) <? List.length Final.period_names)%nat
  = false ->
  List.length (py_slice (seq 0 w) lo (lo + 10)) = 10%nat /\ (lo + 10 <= w)%nat.
Proof.
  unfold py_slice. rewrite length_firstn, length_skipn, length_seq.
  change (List.length Final.period_names) with 10%nat.
  intros H. apply Nat.ltb_ge in H. lia.
Qed.

Lemma pivot_length
    (sort_values : list Final.record -> result (list Final.record))
    (data : list (list pyval)) (dates : list (string * string)) (w lo : nat)
    (l : list Final.record) :
  (forall l1 l2, sort_values l1 = Ret l2 -> Permutation l1 l2) ->
  List.length dates = 10%nat ->
  Final.pivot sort_values data dates (py_slice (seq 0 w) lo (lo + 10)) = Ret l ->
  List.length l = (10 * List.length data)%nat.
Proof.
  intros Hperm Hdates H. unfold Final.pivot in H.
  destruct (_ <? _)%nat eqn:E; [discriminate|].
  apply slice_of_ten in E as [E _]. apply Hperm in H.
  rewrite <- (Permutation_length H), melt_length, length_combine, E, Hdates.
  reflexivity.
Qed.

(** X11: the pivoted net-change and reason sheets have exactly one row for
    each kept source row and each of the ten periods, whether the cell is
    empty or not; the pivoted ARR sheet holds only the rows of non-empty
    value, so at most as many. *)
Theorem X11_one_row_per_entity_and_period
    (numeric_text : string -> bool)
    (sort_values : list Final.record -> result (list Final.record))
    (df : DataFrame) (p : Final.pivoted) :
  (forall l1 l2, sort_values l1 = Ret l2 -> Permutation l1 l2) ->
  Final.main numeric_text sort_values df = Ret p ->
  let kept := List.length (Final.df_filtered numeric_text df) in
  List.length (Final.netchange_pivoted p) = (10 * kept)%nat /\
  List.length (Final.reason_pivoted p) = (10 * kept)%nat /\
  (List.length (Final.arr_pivoted p) <= 10 * kept)%nat /\
  Forall (fun r => notna (Final.Value r) = true) (Final.arr_pivoted p).
Proof.
  intros Hperm H kept.
  apply final_main_ret in H as (dates & arr & netchange & reason & Hd & Ha & Hn & Hr & ->).
  rewrite period_dates_value in Hd. injection Hd as <-.
  cbn [Final.arr_pivoted Final.netchange_pivoted Final.reason_pivoted].
  apply (pivot_length sort_values _ _ _ 120) in Ha; [|exact Hperm|reflexivity].
  apply (pivot_length sort_values _ _ _ 216) in Hn; [|exact Hperm|reflexivity].
  apply (pivot_length sort_values _ _ _ 312) in Hr; [|exact Hperm|reflexivity].
  fold kept in Ha, Hn, Hr. rewrite length_map.
  split; [exact Hn|]. split; [exact Hr|]. split.
  - rewrite <- Ha. apply filter_length_le.
  - apply Forall_forall. intros r Hin. now apply filter_In in Hin as [_ Hin].
Qed.

Lemma X11_witness :
  exists p,
    Final.main Sample.numeric_text Sample.sort_values Sample.pivot_sheet = Ret p /\
    let kept := List.length (Final.df_filtered Sample.numeric_text Sample.pivot_sheet) in
    List.length (Final.netchange_pivoted p) = (10 * kept)%nat /\
    List.length (Final.reason_pivoted p) = (10 * kept)%nat /\
    (List.length (Final.arr_pivoted p) <= 10 * kept)%nat /\
    Forall (fun r => notna (Final.Value r) = true) (Final.arr_pivoted p).
Proof.
  evar (p : Final.pivoted).
  assert (H : Final.main Sample.numeric_text Sample.sort_values Sample.pivot_sheet
              = Ret p).
  { subst p. vm_compute. reflexivity. }
  exists p. split; [exact H|].
  exact (X11_one_row_per_entity_and_period Sample.numeric_text Sample.sort_values
           Sample.pivot_sheet p sample_sort_permutes H).
Defined.

Lemma replace_dash_fields (r : Final.record) :
  Final.AccountProductKey (Final.replace_dash r) = Final.AccountProductKey r /\
  Final.AccountNumber (Final.replace_dash r) = Final.AccountNumber r /\
  Final.Product (Final.replace_dash r) = Final.Product r /\
  Final.Period (Final.replace_dash r) = Final.Period r.
Proof.
  unfold Final.replace_dash.
  repeat match goal with
         | |- context [match ?x with _ => _ end] => destruct x
         end; repeat split.
Qed.

Lemma replace_dash_value (r : Final.record) :
  Final.Value (Final.replace_dash r) <> PStr "-" /\
  (Final.Value r = PStr "-" -> Final.Value (Final.replace_dash r) = PStr "No Change") /\
  (Final.Value r <> PStr "-" -> Final.replace_dash r = r).
Proof.
  unfold Final.replace_dash. destruct r as [key acct name prod period value].
  cbn [Final.Value Final.AccountProductKey Final.AccountNumber Final.CustomerName
       Final.Product Final.Period].
  repeat match goal with
         | |- context [match ?x with _ => _ end] => destruct x
         end;
    (split; [cbn; congruence|split; [cbn; congruence|]]);
    intros H; first [reflexivity | now exfalso; apply H].
Qed.

Lemma nth_error_combine {A B : Type} (l : list A) (l' : list B) (k : nat)
    (a : A) (b : B) :
  nth_error (combine l l') k = Some (a, b)
  <-> nth_error l k = Some a /\ nth_error l' k = Some b.
Proof.
  revert l' k. induction l as [|x l IH]; intros [|y l'] [|k]; cbn [combine nth_error];
    try (split; [discriminate|intros [H1 H2]; discriminate]).
  - split; [intros [= -> ->]; now split|intros [[= ->] [= ->]]; reflexivity].
  - apply IH.
Qed.

(** The rows of a melted sheet: one for each data row and each position of
    the period columns. *)
Lemma melt_in (data : list (list pyval)) (dates : list (string * string))
    (cols : list nat) (r : Final.record) :
  In r (Final.melt data dates cols)
  <-> exists row k col name date,
        In row data /\ nth_error cols k = Some col /\
        nth_error dates k = Some (name, date) /\
        r = {| Final.AccountProductKey :=
                 (py_str (cell row 0) ++ "_" ++ py_str (cell row 35))%string;
               Final.AccountNumber := cell row 0;
               Final.CustomerName := cell row 1;
               Final.Product := cell row 35;
               Final.Period := date;
               Final.Value := cell row col |}.
Proof.
  unfold Final.melt. rewrite in_flat_map. split.
  - intros ([col [name date]] & Hc & H).
    apply in_map_iff in H as (row & <- & Hrow).
    apply In_nth_error in Hc as [k Hk]. apply nth_error_combine in Hk as [Hk1 Hk2].
    now exists row, k, col, name, date.
  - intros (row & k & col & name & date & Hrow & Hk1 & Hk2 & ->).
    exists (col, (name, date)). split.
    + apply (nth_error_In _ k). apply nth_error_combine. now split.
    + apply in_map_iff. now exists row.
Qed.

Lemma slice_seq (w lo n : nat) :
  (lo + n <= w)%nat -> py_slice (seq 0 w) lo (lo + n) = seq lo n.
Proof.
  intros H. unfold py_slice. rewrite skipn_seq. cbn [Nat.add].
  replace (lo + n - lo)%nat with n by lia.
  replace (w - lo)%nat with (n + (w - lo - n))%nat by lia.
  rewrite seq_app, firstn_app, length_seq, Nat.sub_diag, firstn_O, app_nil_r.
  apply firstn_all2. rewrite length_seq. lia.
Qed.

Lemma replace_dash_customer (r : Final.record) :
  Final.CustomerName (Final.replace_dash r) = Final.CustomerName r.
Proof.
  unfold Final.replace_dash.
  repeat match goal with
         | |- context [match ?x with _ => _ end] => destruct x
         end; reflexivity.
Qed.

(** X12: the pivoted reason sheet is the ten reason columns of the kept
    source rows, cell by cell: every row of the sheet shows the cell of a
    kept source row in one of the columns 312 to 321, with that row's
    account number, customer name and product and that column's month end,
    and every such cell is shown by a row of the sheet.  A cell [-] is shown
    as [No Change], any other cell as it is, and no row holds [-]. *)
Theorem X12_dash_replaced_in_reason_sheet
    (numeric_text : string -> bool)
    (sort_values : list Final.record -> result (list Final.record))
    (df : DataFrame) (p : Final.pivoted) :
  (forall l1 l2, sort_values l1 = Ret l2 -> Permutation l1 l2) ->
  Final.main numeric_text sort_values df = Ret p ->
  let kept := Final.df_filtered numeric_text df in
  let month_ends :=
    ["2025-01-31"; "2025-02-28"; "2025-03-31"; "2025-04-30"; "2025-05-31";
     "2025-06-30"; "2025-07-31"; "2025-08-31"; "2025-09-30"; "2025-10-31"] in
  let shows (r : Final.record) (row : list pyval) (k : nat) : Prop :=
    Final.AccountNumber r = cell row 0 /\
    Final.CustomerName r = cell row 1 /\
    Final.Product r = cell row 35 /\
    nth_error month_ends k = Some (Final.Period r) /\
    (cell row (312 + k) = PStr "-" -> Final.Value r = PStr "No Change") /\
    (cell row (312 + k) <> PStr "-" -> Final.Value r = cell row (312 + k)) in
  (forall r, In r (Final.reason_pivoted p) ->
     Final.Value r <> PStr "-" /\
     exists row k, In row kept /\ (k < 10)%nat /\ shows r row k) /\
  (forall row k, In row kept -> (k < 10)%nat ->
     exists r, In r (Final.reason_pivoted p) /\ shows r row k).
Proof.
  intros Hperm H kept month_ends shows.
  apply final_main_ret in H as (dates & arr & netchange & reason & Hd & _ & _ & Hr & ->).
  rewrite period_dates_value in Hd. injection Hd as <-.
  cbn [Final.reason_pivoted]. fold kept in Hr.
  unfold Final.pivot in Hr.
  destruct (_ <? _)%nat eqn:E; [discriminate|].
  apply (slice_of_ten _ 312) in E as [_ E].
  pose proof (slice_seq _ 312 10 E) as Hs. change (312 + 10)%nat with 322%nat in Hs.
  rewrite Hs in Hr. clear Hs. apply Hperm in Hr.
  set (dates := [("2025.01", "2025-01-31"); _; _; _; _; _; _; _; _; _]) in Hr.
  assert (Hends : month_ends = map snd dates) by reflexivity.
  assert (Hshow : forall row k name date,
             (k < 10)%nat -> nth_error dates k = Some (name, date) ->
             shows (Final.replace_dash
                      {| Final.AccountProductKey :=
                           (py_str (cell row 0) ++ "_" ++ py_str (cell row 35))%string;
                         Final.AccountNumber := cell row 0;
                         Final.CustomerName := cell row 1;
                         Final.Product := cell row 35;
                         Final.Period := date;
                         Final.Value := cell row (312 + k) |}) row k).
  { intros row k name date Hk Hdate. unfold shows.
    match goal with |- context [Final.replace_dash ?x] => set (r0 := x) end.
    destruct (replace_dash_fields r0) as (_ & Hacct & Hprod & Hperiod).
    destruct (replace_dash_value r0) as (_ & H2 & H3).
    rewrite Hacct, (replace_dash_customer r0), Hprod, Hperiod.
    split; [reflexivity|]. split; [reflexivity|]. split; [reflexivity|].
    split; [|split].
    - rewrite Hends. exact (map_nth_error snd k dates Hdate).
    - exact H2.
    - intros Hne. now rewrite (H3 Hne). }
  split.
  - intros r Hin. apply in_map_iff in Hin as (r0 & <- & Hin).
    split; [apply replace_dash_value|].
    apply (Permutation_in _ (Permutation_sym Hr)) in Hin.
    apply melt_in in Hin as (row & k & col & name & date & Hrow & Hk1 & Hk2 & ->).
    assert (Hk : (k < 10)%nat).
    { apply (f_equal (fun o => match o with Some _ => true | None => false end)) in Hk1.
      rewrite nth_error_seq in Hk1. destruct (k <? 10)%nat eqn:Ek; [|discriminate].
      now apply Nat.ltb_lt in Ek. }
    rewrite nth_error_seq in Hk1. apply Nat.ltb_lt in Hk as Hk'. rewrite Hk' in Hk1.
    injection Hk1 as <-.
    exists row, k. split; [exact Hrow|]. split; [exact Hk|].
    exact (Hshow row k name date Hk Hk2).
  - intros row k Hrow Hk.
    destruct (nth_error dates k) as [[name date]|] eqn:Hdate.
    2:{ apply nth_error_None in Hdate. cbn in Hdate. lia. }
    eexists. split; [|exact (Hshow row k name date Hk Hdate)].
    apply in_map. apply (Permutation_in _ Hr). apply melt_in.
    exists row, k, (312 + k)%nat, name, date.
    split; [exact Hrow|]. split; [|split; [exact Hdate|reflexivity]].
    rewrite nth_error_seq. apply Nat.ltb_lt in Hk. now rewrite Hk.
Qed.

Lemma X12_witness :
  exists p,
    Final.main Sample.numeric_text Sample.sort_values Sample.reason_sheet = Ret p /\
    let kept := Final.df_filtered Sample.numeric_text Sample.reason_sheet in
    let month_ends :=
      ["2025-01-31"; "2025-02-28"; "2025-03-31"; "2025-04-30"; "2025-05-31";
       "2025-06-30"; "2025-07-31"; "2025-08-31"; "2025-09-30"; "2025-10-31"] in
    let shows (r : Final.record) (row : list pyval) (k : nat) : Prop :=
      Final.AccountNumber r = cell row 0 /\
      Final.CustomerName r = cell row 1 /\
      Final.Product r = cell row 35 /\
      nth_error month_ends k = Some (Final.Period r) /\
      (cell row (312 + k) = PStr "-" -> Final.Value r = PStr "No Change") /\
      (cell row (312 + k) <> PStr "-" -> Final.Value r = cell row (312 + k)) in
    (forall r, In r (Final.reason_pivoted p) ->
       Final.Value r <> PStr "-" /\
       exists row k, In row kept /\ (k < 10)%nat /\ shows r row k) /\
    (forall row k, In row kept -> (k < 10)%nat ->
       exists r, In r (Final.reason_pivoted p) /\ shows r row k).
Proof.
  evar (p : Final.pivoted).
  assert (H : Final.main Sample.numeric_text Sample.sort_values Sample.reason_sheet
              = Ret p).
  { subst p. vm_compute. reflexivity. }
  exists p. split; [exact H|].
  exact (X12_dash_replaced_in_reason_sheet Sample.numeric_text Sample.sort_values
           Sample.reason_sheet p sample_sort_permutes H).
Defined.

Lemma melt_fields (data : list (list pyval)) (dates : list (string * string))
    (cols : list nat) (r : Final.record) :
  In r (Final.melt data dates cols) ->
  Final.AccountProductKey r
  = (py_str (Final.AccountNumber r) ++ "_" ++ py_str (Final.Product r))%string /\
  In (Final.Period r) (map snd dates) /\
  exists row col, In row data /\ In col cols /\
                  Final.AccountNumber r = cell row 0 /\
                  Final.CustomerName r = cell row 1 /\
                  Final.Product r = cell row 35 /\
                  Final.Value r = cell row col.
Proof.
  unfold Final.melt. intros H. apply in_flat_map in H as ([col [name date]] & Hc & H).
  apply in_map_iff in H as (row & <- & Hrow).
  cbn [Final.AccountProductKey Final.AccountNumber Final.Product Final.Period
       Final.CustomerName Final.Value].
  split; [reflexivity|]. split.
  - apply in_combine_r in Hc. apply in_map_iff. now exists (name, date).
  - exists row, col. apply in_combine_l in Hc. repeat split; assumption.
Qed.

Lemma pivot_fields
    (sort_values : list Final.record -> result (list Final.record))
    (data : list (list pyval)) (dates : list (string * string)) (cols : list nat)
    (l : list Final.record) (r : Final.record) :
  (forall l1 l2, sort_values l1 = Ret l2 -> Permutation l1 l2) ->
  Final.pivot sort_values data dates cols = Ret l ->
  In r l ->
  Final.AccountProductKey r
  = (py_str (Final.AccountNumber r) ++ "_" ++ py_str (Final.Product r))%string /\
  In (Final.Period r) (map snd dates).
Proof.
  intros Hperm H Hin. unfold Final.pivot in H.
  destruct (_ <? _)%nat; [discriminate|]. apply Hperm in H.
  apply (Permutation_in _ (Permutation_sym H)) in Hin.
  apply melt_fields in Hin as (Hk & Hp & _). now split.
Qed.

(** X13: every row of the three pivoted sheets has as join key the text of
    its account number, an underscore and the text of its product, and as
    period the last day of one of the months January to October 2025. *)
Theorem X13_join_key_and_period
    (numeric_text : string -> bool)
    (sort_values : list Final.record -> result (list Final.record))
    (df : DataFrame) (p : Final.pivoted) (r : Final.record) :
  (forall l1 l2, sort_values l1 = Ret l2 -> Permutation l1 l2) ->
  Final.main numeric_text sort_values df = Ret p ->
  In r (Final.arr_pivoted p ++ Final.netchange_pivoted p ++ Final.reason_pivoted p) ->
  Final.AccountProductKey r
  = (py_str (Final.AccountNumber r) ++ "_" ++ py_str (Final.Product r))%string /\
  In (Final.Period r)
     ["2025-01-31"; "2025-02-28"; "2025-03-31"; "2025-04-30"; "2025-05-31";
      "2025-06-30"; "2025-07-31"; "2025-08-31"; "2025-09-30"; "2025-10-31"].
Proof.
  intros Hperm H Hin.
  apply final_main_ret in H as (dates & arr & netchange & reason & Hd & Ha & Hn & Hr & ->).
  rewrite period_dates_value in Hd. injection Hd as <-.
  cbn [Final.arr_pivoted Final.netchange_pivoted Final.reason_pivoted] in Hin.
  apply in_app_or in Hin as [Hin|Hin]; [|apply in_app_or in Hin as [Hin|Hin]].
  - apply filter_In in Hin as [Hin _].
    exact (pivot_fields sort_values _ _ _ arr r Hperm Ha Hin).
  - exact (pivot_fields sort_values _ _ _ netchange r Hperm Hn Hin).
  - apply in_map_iff in Hin as (r0 & <- & Hin).
    destruct (replace_dash_fields r0) as (-> & -> & -> & ->).
    exact (pivot_fields sort_values _ _ _ reason r0 Hperm Hr Hin).
Qed.

Lemma X13_witness :
  exists p r,
    Final.main Sample.numeric_text Sample.sort_values Sample.pivot_sheet = Ret p /\
    hd_error (Final.netchange_pivoted p) = Some r /\
    Final.AccountProductKey r
    = (py_str (Final.AccountNumber r) ++ "_" ++ py_str (Final.Product r))%string /\
    In (Final.Period r)
       ["2025-01-31"; "2025-02-28"; "2025-03-31"; "2025-04-30"; "2025-05-31";
        "2025-06-30"; "2025-07-31"; "2025-08-31"; "2025-09-30"; "2025-10-31"].
Proof.
  evar (p : Final.pivoted). evar (r : Final.record).
  assert (H : Final.main Sample.numeric_text Sample.sort_values Sample.pivot_sheet
              = Ret p).
  { subst p. vm_compute. reflexivity. }
  assert (Hr : hd_error (Final.netchange_pivoted p) = Some r).
  { subst p r. vm_compute. reflexivity. }
  exists p, r. split; [exact H|]. split; [exact Hr|].
  apply (X13_join_key_and_period Sample.numeric_text Sample.sort_values
           Sample.pivot_sheet p r sample_sort_permutes H).
  apply in_or_app. right. apply in_or_app. left. subst p r. left. reflexivity.
Defined.

(** X14: the pivoting script reads its columns at fixed positions: it can
    return only on a sheet of at least 322 columns; with fewer than 36
    columns it stops with [IndexError], and with 36 to 129 with the
    [KeyError] of the first [melt]. *)
Theorem X14_fixed_column_positions
    (numeric_text : string -> bool)
    (sort_values : list Final.record -> result (list Final.record))
    (df : DataFrame) :
  (forall p, Final.main numeric_text sort_values df = Ret p ->
             (322 <= List.length (columns df))%nat) /\
  ((List.length (columns df) < 36)%nat ->
   Final.main numeric_text sort_values df = Raise IndexError) /\
  ((36 <= List.length (columns df) < 130)%nat ->
   Final.main numeric_text sort_values df = Raise KeyError).
Proof.
  split; [|split].
  - intros p H.
    apply final_main_ret in H as (dates & arr & netchange & reason & _ & _ & _ & Hr & _).
    unfold Final.pivot in Hr. destruct (_ <? _)%nat eqn:E; [discriminate|].
    apply (slice_of_ten _ 312) in E. lia.
  - intros Hlen. unfold Final.main.
    assert (H35 : py_index (columns df) 35 = Raise IndexError).
    { unfold py_index. destruct (nth_error (columns df) 35) eqn:Hn; [|reflexivity].
      assert (nth_error (columns df) 35 <> None) as Hs by congruence.
      apply nth_error_Some in Hs. lia. }
    destruct (py_index (columns df) 0) as [v0|e0] eqn:H0.
    2:{ apply py_index_raises in H0. now subst e0. }
    destruct (py_index (columns df) 1) as [v1|e1] eqn:H1.
    2:{ apply py_index_raises in H1. now subst e1. }
    cbn [bind]. now rewrite H35.
  - intros Hlen. unfold Final.main.
    assert (Hcol : forall i, (i <= 35)%nat -> exists v, py_index (columns df) i = Ret v).
    { intros i Hi. unfold py_index. destruct (nth_error (columns df) i) eqn:Hn; [eauto|].
      apply nth_error_None in Hn. lia. }
    destruct (Hcol 0%nat) as [v0 ->]; [lia|].
    destruct (Hcol 1%nat) as [v1 ->]; [lia|].
    destruct (Hcol 35%nat) as [v35 ->]; [lia|].
    cbn [bind]. rewrite period_dates_value. cbn [bind]. unfold Final.pivot at 1.
    assert (E : (List.length (py_slice (seq 0 (List.length (columns df))) 120 130)
                 <? List.length Final.period_names)%nat = true).
    { apply Nat.ltb_lt. unfold py_slice.
      rewrite length_firstn, length_skipn, length_seq.
      change (List.length Final.period_names) with 10%nat. lia. }
    rewrite E. reflexivity.
Qed.

Lemma X14_witness :
  (322 <= List.length (columns Sample.pivot_sheet))%nat.
Proof.
  evar (p : Final.pivoted).
  assert (H : Final.main Sample.numeric_text Sample.sort_values Sample.pivot_sheet
              = Ret p).
  { subst p. vm_compute. reflexivity. }
  exact (proj1 (X14_fixed_column_positions Sample.numeric_text Sample.sort_values
                  Sample.pivot_sheet) p H).
Defined.

(** ** Errors of [period_to_last_day] *)

(** X15: [period_to_last_day] raises [ValueError] on a text without the
    separator (a period written [2024_02] among them) and
    [IllegalMonthError] on a period whose month is 0 or more than 12. *)
Theorem X15_period_to_last_day_errors :
  (forall s, contains_dot s = false -> Final.period_to_last_day s = Raise ValueError) /\
  (forall y m, 0 <= y -> m = 0 \/ 12 < m ->
               Final.period_to_last_day (period_text y m) = Raise IllegalMonthError) /\
  Final.period_to_last_day "2024_02" = Raise ValueError.
Proof.
  split; [|split; [|reflexivity]].
  - intros s Hs. unfold Final.period_to_last_day. now rewrite (split_dot_no_dot s Hs).
  - intros y m Hy Hm.
    destruct (fmt_0d_digits 4 y Hy) as (_ & Hyd & _).
    destruct (fmt_0d_digits 2 m) as (_ & Hmd & _); [lia|].
    unfold Final.period_to_last_day, period_text.
    rewrite (split_dot_app _ _ (proj1 (digits_no_dot _ Hyd))).
    rewrite (proj2 (digits_no_dot _ Hmd)).
    rewrite (py_int_fmt_0d 4 y Hy). cbn [bind].
    rewrite (py_int_fmt_0d 2 m) by lia. cbn [bind].
    unfold Final.monthrange_days.
    destruct ((1 <=? m) && (m <=? 12)) eqn:E; [|reflexivity].
    apply andb_true_iff in E as [E1 E2]. lia.
Qed.

Lemma X15_witness :
  Final.period_to_last_day (period_text 2025 13) = Raise IllegalMonthError.
Proof.
  apply (proj1 (proj2 X15_period_to_last_day_errors) 2025 13); lia.
Defined.

(** ** The join key *)

Lemma str_int_inj (a b : Z) : str_int a = str_int b -> a = b.
Proof.
  unfold str_int. intros H. apply DecimalZ.to_int_inj.
  assert (Hnil : forall n, Z.to_int n <> Decimal.Pos Decimal.Nil /\
                           Z.to_int n <> Decimal.Neg Decimal.Nil).
  { intros [|p|p]; cbn [Z.to_int]; split; try discriminate;
      intros [= Hp]; now apply DecimalPos.Unsigned.to_uint_nonnil in Hp. }
  apply (f_equal DecimalString.NilZero.int_of_string) in H.
  rewrite !DecimalString.NilZero.isi in H by apply Hnil. now injection H.
Qed.

Lemma digits_no_underscore (s : string) :
  Forall (fun c => is_digit c = true) (list_ascii_of_string s) ->
  occurs "_" s = false.
Proof.
  induction s as [|c s IH]; cbn [list_ascii_of_string occurs]; intros H; [reflexivity|].
  inversion H as [|c' l' Hc Hl]; subst. rewrite (IH Hl), orb_false_r.
  destruct (Ascii.eqb c "_") eqn:E; [|reflexivity].
  apply Ascii.eqb_eq in E. subst c. discriminate.
Qed.

Lemma str_int_no_underscore (n : Z) : occurs "_" (str_int n) = false.
Proof.
  destruct n as [|p|p].
  - reflexivity.
  - destruct (str_int_digits (Z.pos p)) as (_ & Hd & _); [lia|].
    now apply digits_no_underscore.
  - destruct (str_int_digits (Z.pos p)) as (_ & Hd & _); [lia|].
    apply digits_no_underscore in Hd. unfold str_int in *.
    cbn [Z.to_int DecimalString.NilZero.string_of_int occurs] in *. now rewrite Hd.
Qed.

Lemma first_underscore (s1 s2 t1 t2 : string) :
  occurs "_" s1 = false -> occurs "_" s2 = false ->
  (s1 ++ "_" ++ t1 = s2 ++ "_" ++ t2)%string ->
  s1 = s2 /\ t1 = t2.
Proof.
  revert s2. induction s1 as [|c s1 IH]; intros [|c2 s2] H1 H2 H;
    cbn [occurs append] in *.
  - now injection H.
  - injection H as <- _. rewrite Ascii.eqb_refl in H2. discriminate.
  - injection H as -> _. rewrite Ascii.eqb_refl in H1. discriminate.
  - apply orb_false_iff in H1 as [_ H1]. apply orb_false_iff in H2 as [_ H2].
    injection H as -> H. destruct (IH s2 H1 H2 H) as [-> ->]. now split.
Qed.

(** X16: among the rows of the pivoted sheets whose account number is an
    integer, the join key determines the account number and the text of the
    product: two such rows with the same key have the same account and the
    same product text. *)
Theorem X16_join_key_of_integer_accounts
    (numeric_text : string -> bool)
    (sort_values : list Final.record -> result (list Final.record))
    (df : DataFrame) (p : Final.pivoted) (r1 r2 : Final.record) (a1 a2 : Z) :
  (forall l1 l2, sort_values l1 = Ret l2 -> Permutation l1 l2) ->
  Final.main numeric_text sort_values df = Ret p ->
  In r1 (Final.arr_pivoted p ++ Final.netchange_pivoted p ++ Final.reason_pivoted p) ->
  In r2 (Final.arr_pivoted p ++ Final.netchange_pivoted p ++ Final.reason_pivoted p) ->
  Final.AccountNumber r1 = PInt a1 ->
  Final.AccountNumber r2 = PInt a2 ->
  Final.AccountProductKey r1 = Final.AccountProductKey r2 ->
  a1 = a2 /\ py_str (Final.Product r1) = py_str (Final.Product r2).
Proof.
  intros Hperm H Hin1 Hin2 Ha1 Ha2 Hkey.
  assert (Hk : forall r,
             In r (Final.arr_pivoted p ++ Final.netchange_pivoted p
                   ++ Final.reason_pivoted p) ->
             Final.AccountProductKey r
             = (py_str (Final.AccountNumber r) ++ "_" ++ py_str (Final.Product r))%string).
  { intros r Hin.
    apply final_main_ret in H
      as (dates & arr & netchange & reason & _ & Ha & Hn & Hr & ->).
    cbn [Final.arr_pivoted Final.netchange_pivoted Final.reason_pivoted] in Hin.
    apply in_app_or in Hin as [Hin|Hin]; [|apply in_app_or in Hin as [Hin|Hin]].
    - apply filter_In in Hin as [Hin _].
      exact (proj1 (pivot_fields sort_values _ _ _ arr r Hperm Ha Hin)).
    - exact (proj1 (pivot_fields sort_values _ _ _ netchange r Hperm Hn Hin)).
    - apply in_map_iff in Hin as (r0 & <- & Hin).
      destruct (replace_dash_fields r0) as (-> & -> & -> & _).
      exact (proj1 (pivot_fields sort_values _ _ _ reason r0 Hperm Hr Hin)). }
  rewrite (Hk r1 Hin1), (Hk r2 Hin2), Ha1, Ha2 in Hkey. cbn [py_str] in Hkey.
  apply first_underscore in Hkey as [Hacct Hprod];
    try apply str_int_no_underscore.
  split; [now apply str_int_inj|exact Hprod].
Qed.

Lemma X16_witness :
  exists p r1 r2,
    Final.main Sample.numeric_text Sample.sort_values Sample.pivot_sheet = Ret p /\
    nth_error (Final.netchange_pivoted p) 0 = Some r1 /\
    nth_error (Final.netchange_pivoted p) 1 = Some r2 /\
    1001 = 1001 /\ py_str (Final.Product r1) = py_str (Final.Product r2).
Proof.
  evar (p : Final.pivoted). evar (r1 : Final.record). evar (r2 : Final.record).
  assert (H : Final.main Sample.numeric_text Sample.sort_values Sample.pivot_sheet
              = Ret p).
  { subst p. vm_compute. reflexivity. }
  assert (Hr1 : nth_error (Final.netchange_pivoted p) 0 = Some r1).
  { subst p r1. vm_compute. reflexivity. }
  assert (Hr2 : nth_error (Final.netchange_pivoted p) 1 = Some r2).
  { subst p r2. vm_compute. reflexivity. }
  assert (Hin : forall i r, nth_error (Final.netchange_pivoted p) i = Some r ->
                  In r (Final.arr_pivoted p ++ Final.netchange_pivoted p
                        ++ Final.reason_pivoted p)).
  { intros i r Hr. apply in_or_app. right. apply in_or_app. left.
    eapply nth_error_In. exact Hr. }
  exists p, r1, r2. split; [exact H|]. split; [exact Hr1|]. split; [exact Hr2|].
  apply (X16_join_key_of_integer_accounts Sample.numeric_text Sample.sort_values
           Sample.pivot_sheet p r1 r2 1001 1001 sample_sort_permutes H
           (Hin _ _ Hr1) (Hin _ _ Hr2)).
  - subst r1. reflexivity.
  - subst r2. reflexivity.
  - subst r1 r2. reflexivity.
Defined.
